(** * FWaaS plugin (neutron/services/firewall/fwaas_plugin.py)

    A shallow embedding of the firewall service plugin: the agent-facing
    callbacks ([FirewallCallbacks]), the fan-out proxy ([FirewallAgentApi])
    and the request workflow ([FirewallPlugin]).  Python methods become
    computations in a state-and-exception monad over a [world] holding the
    persisted tables, the casts issued so far and the callback object's
    [firewall_deleted_ids] list. *)

From stdpp Require Import gmap strings list fin_maps.

Set Default Proof Using "Type".
Open Scope string_scope.
Open Scope list_scope.

(** ** Constants (neutron.plugins.common.constants) *)

(** Modelled from the spec: the status constants of
    [neutron.plugins.common.constants], the lifecycle enumeration of a
    firewall record. *)
Inductive status : Set :=
| INACTIVE
| ACTIVE
| DOWN
| PENDING_CREATE
| PENDING_UPDATE
| PENDING_DELETE
| ERROR.

#[global] Instance status_eq_dec : EqDecision status.
Proof. solve_decision. Defined.

(** ** Exceptions *)

Inductive exn : Type :=
| FirewallNotFound (firewall_id : string)
| FirewallPolicyNotFound (firewall_policy_id : string)
| FirewallRuleNotFound (firewall_rule_id : string)
| FirewallInPendingState (firewall_id : string) (pending_state : status)
| RoutersInUse (router_ids : list string)
| DBDuplicateEntry (key : string)
| EditRejected
| StoreError.

(** ** Persisted rows and the dictionaries handed around *)

(** The primary key of a row is its key in the table. *)
Record Firewall : Type := mkFirewall {
  fw_tenant_id : string;
  fw_name : string;
  fw_status : status;
  fw_firewall_policy_id : option string;
  fw_router_ids : list string
}.

Record FirewallPolicy : Type := mkFirewallPolicy {
  fwp_tenant_id : string;
  fwp_firewall_rules : list string
}.

Record FirewallRule : Type := mkFirewallRule {
  fwr_payload : string;
  fwr_firewall_policy_id : option string
}.

(** The dict built for a firewall; ['router_ids'] is absent until the
    plugin adds it. *)
Record firewall_dict : Type := mkFirewallDict {
  d_id : string;
  d_tenant_id : string;
  d_name : string;
  d_status : status;
  d_firewall_policy_id : option string;
  d_router_ids : option (list string)
}.

Record policy_dict : Type := mkPolicyDict {
  pd_id : string;
  pd_firewall_rules : list string;
  pd_firewall_list : list string
}.

Record rule_dict : Type := mkRuleDict {
  rd_id : string;
  rd_payload : string;
  rd_firewall_policy_id : option string
}.

(** The firewall dict once ['firewall_rule_list'], ['add-router-ids'],
    ['del-router-ids'] and (for updates) ['last-router'] are set. *)
Record fw_with_rules : Type := mkFwWithRules {
  firewall_core : firewall_dict;
  firewall_rule_list : list rule_dict;
  add_router_ids : list string;
  del_router_ids : list string;
  last_router : option bool
}.

(** One fan-out cast of [FirewallAgentApi]. *)
Inductive agent_msg : Type :=
| cast_create_firewall (firewall : fw_with_rules)
| cast_update_firewall (firewall : fw_with_rules)
| cast_delete_firewall (firewall : fw_with_rules).

(** The columns a caller may write with an update of a firewall row. *)
Record firewall_fields : Type := mkFields {
  f_name : option string;
  f_firewall_policy_id : option (option string);
  f_status : option status
}.

(** ['router_ids'] of a create request: key absent, the
    [ATTR_NOT_SPECIFIED] sentinel, or a list. *)
Inductive router_ids_arg : Type :=
| RouterIdsAbsent
| ATTR_NOT_SPECIFIED
| RouterIds (l : list string).

Record firewall_create : Type := mkCreate {
  c_tenant_id : string;
  c_name : string;
  c_firewall_policy_id : option string;
  c_router_ids : router_ids_arg
}.

Record firewall_update : Type := mkUpdate {
  u_name : option string;
  u_firewall_policy_id : option (option string);
  u_router_ids : option (list string)
}.

(** A Python value used as a lookup key for router associations: a
    firewall id, or the builtin function [id]. *)
Inductive pykey : Type :=
| KeyStr (s : string)
| KeyBuiltinId.

(** The request context, as far as listing goes: the admin context sees
    every tenant's records, any other context its own tenant's. *)
Inductive context : Type :=
| AdminContext
| TenantContext (tenant_id : string).

(** ** The world *)

(** The three persisted tables (a firewall row carries its router
    associations), the routers the L3 plugin knows as (router id, tenant
    id), the casts made so far, oldest first, and the callback object's
    list of ids already reported deleted.

    Two things the program leaves open are carried along as well, so
    that nothing is assumed about them.  [set_iteration a b] is the
    order in which the interpreter happens to list the members of a set
    built from [a] less those of [b]: the ids it names come first, in
    its order (see [py_list_of_set]).  [builtin_id_routers] is what the
    association store answers to a lookup under Python's builtin [id],
    a key that is no firewall id: a list of routers, or [None] when the
    store refuses the lookup. *)
Record world : Type := mkWorld {
  firewalls : gmap string Firewall;
  firewall_policies : gmap string FirewallPolicy;
  firewall_rules : gmap string FirewallRule;
  l3_routers : list (string * string);
  fanout : list agent_msg;
  firewall_deleted_ids : list string;
  set_iteration : list string -> list string -> list string;
  builtin_id_routers : option (list string)
}.

Definition with_firewalls (fws : gmap string Firewall) (w : world) : world :=
  mkWorld fws (firewall_policies w) (firewall_rules w) (l3_routers w)
          (fanout w) (firewall_deleted_ids w)
          (set_iteration w) (builtin_id_routers w).

Definition with_policy_store
    (ps : gmap string FirewallPolicy * gmap string FirewallRule)
    (w : world) : world :=
  mkWorld (firewalls w) ps.1 ps.2 (l3_routers w)
          (fanout w) (firewall_deleted_ids w)
          (set_iteration w) (builtin_id_routers w).

Definition with_cast (m : agent_msg) (w : world) : world :=
  mkWorld (firewalls w) (firewall_policies w) (firewall_rules w)
          (l3_routers w) (fanout w ++ [m]) (firewall_deleted_ids w)
          (set_iteration w) (builtin_id_routers w).

Definition with_deleted_id (i : string) (w : world) : world :=
  mkWorld (firewalls w) (firewall_policies w) (firewall_rules w)
          (l3_routers w) (fanout w) (firewall_deleted_ids w ++ [i])
          (set_iteration w) (builtin_id_routers w).

(** ** The monad: state that survives a raise *)

Inductive outcome (A : Type) : Type :=
| Returns (a : A)
| Raises (e : exn).
Arguments Returns {A} a.
Arguments Raises {A} e.

Definition M (A : Type) : Type := world -> outcome A * world.

Definition ret {A} (a : A) : M A := fun w => (Returns a, w).

Definition raise {A} (e : exn) : M A := fun w => (Raises e, w).

Definition bind {A B} (c : M A) (k : A -> M B) : M B :=
  fun w =>
    match c w with
    | (Returns a, w') => k a w'
    | (Raises e, w') => (Raises e, w')
    end.

#[global] Instance M_ret : MRet M := @ret.
#[global] Instance M_bind : MBind M := fun A B k c => bind c k.

Definition get_world : M world := fun w => (Returns w, w).

Definition modify (f : world -> world) : M unit := fun w => (Returns tt, f w).

(** [for x in l: body x] *)
Fixpoint for_each {A} (l : list A) (body : A -> M unit) : M unit :=
  match l with
  | [] => ret tt
  | x :: l' => body x ;; for_each l' body
  end.

(** [[f x for x in l]] *)
Fixpoint map_each {A B} (l : list A) (f : A -> M B) : M (list B) :=
  match l with
  | [] => ret []
  | x :: l' => y ← f x; ys ← map_each l' f; ret (y :: ys)
  end.

(** Truthiness of an optional id: [None] and the empty string are falsy. *)
Definition truthy (o : option string) : option string :=
  match o with
  | Some s => if decide (s = "") then None else Some s
  | None => None
  end.

(** [list(s)] for a Python set [s]: the members of the set, each once,
    in an order the program does not fix.  The ids of [order] that are
    members come first, in that order; members it does not name follow.
    Every listing of the set without repetition is obtained for some
    [order] (the listing itself). *)
Definition py_list_of_set (order : list string) (s : gset string)
    : list string :=
  let first := remove_dups (filter (fun x => x ∈ s) order) in
  first ++ filter (fun x => x ∉ first) (elements s).

(** A row with one column replaced. *)
Definition with_status (st : status) (row : Firewall) : Firewall :=
  mkFirewall (fw_tenant_id row) (fw_name row) st
             (fw_firewall_policy_id row) (fw_router_ids row).

Definition with_router_ids (router_ids : list string) (row : Firewall)
    : Firewall :=
  mkFirewall (fw_tenant_id row) (fw_name row) (fw_status row)
             (fw_firewall_policy_id row) router_ids.

(** ** The persistence mixin (neutron/db/firewall/firewall_db.py) *)

(** Modelled from the spec: the request body of a policy or rule edit,
    taken as the edit the persistence collaborator applies to the
    policy/rule store; [None] when the store refuses it. *)
Definition store_edit : Type :=
  gmap string FirewallPolicy * gmap string FirewallRule ->
  option (gmap string FirewallPolicy * gmap string FirewallRule).

Module Firewall_db_mixin.

(** Modelled from the spec: [Firewall_db_mixin._get_firewall], the
    persisted firewall record with that id, [FirewallNotFound] without
    one. *)
Definition _get_firewall (id : string) : M Firewall :=
  w ← get_world;
  match firewalls w !! id with
  | Some row => ret row
  | None => raise (FirewallNotFound id)
  end.

(** Modelled from the spec: an attribute assignment on the record
    returned by [_get_firewall] ([fw_db.status = ...]), written back to
    the table. *)
Definition set_status (id : string) (st : status) : M unit :=
  modify (fun w => with_firewalls (alter (with_status st) id (firewalls w)) w).

(** Modelled from the spec: [Firewall_db_mixin._make_firewall_dict], the
    persisted record as a dict, without its routers. *)
Definition _make_firewall_dict (id : string) (row : Firewall) : firewall_dict :=
  mkFirewallDict id (fw_tenant_id row) (fw_name row) (fw_status row)
                 (fw_firewall_policy_id row) None.

(** Modelled from the spec: [Firewall_db_mixin.get_firewall], the
    persisted record as a dict. *)
Definition get_firewall (id : string) : M firewall_dict :=
  row ← _get_firewall id;
  ret (_make_firewall_dict id row).

(** Modelled from the spec: the columns of a record after an update
    that writes the given ones. *)
Definition apply_fields (f : firewall_fields) (row : Firewall) : Firewall :=
  mkFirewall (fw_tenant_id row)
             (default (fw_name row) (f_name f))
             (default (fw_status row) (f_status f))
             (default (fw_firewall_policy_id row) (f_firewall_policy_id f))
             (fw_router_ids row).

(** Modelled from the spec: [Firewall_db_mixin.create_firewall], which
    persists a new record under a fresh id, in the given status or
    [PENDING_CREATE] without one, with no router attached yet. *)
Definition create_firewall (new_id : string) (firewall : firewall_create)
    (status : option status) : M firewall_dict :=
  w ← get_world;
  match firewalls w !! new_id with
  | Some _ => raise (DBDuplicateEntry new_id)
  | None =>
      let row := mkFirewall (c_tenant_id firewall) (c_name firewall)
                            (default PENDING_CREATE status)
                            (c_firewall_policy_id firewall) [] in
      modify (fun w => with_firewalls (<[new_id := row]> (firewalls w)) w);;
      ret (_make_firewall_dict new_id row)
  end.

(** Modelled from the spec: [Firewall_db_mixin.update_firewall], which
    writes the given columns of the record and returns it. *)
Definition update_firewall (id : string) (firewall : firewall_fields)
    : M firewall_dict :=
  row ← _get_firewall id;
  modify (fun w =>
    with_firewalls (<[id := apply_fields firewall row]> (firewalls w)) w);;
  get_firewall id.

(** Modelled from the spec: [Firewall_db_mixin.delete_firewall], which
    removes the record (and with it its router associations). *)
Definition delete_firewall (id : string) : M unit :=
  _get_firewall id;;
  modify (fun w => with_firewalls (delete id (firewalls w)) w).

(** Modelled from the spec: the back-reference set of a policy, the
    firewalls using it. *)
Definition firewall_list_of (fws : gmap string Firewall) (policy_id : string)
    : list string :=
  (map_to_list
     (filter (fun kv => fw_firewall_policy_id kv.2 = Some policy_id) fws)).*1.

(** Modelled from the spec: [Firewall_db_mixin.get_firewall_policy], the
    policy with its ordered rule ids and the firewalls using it. *)
Definition get_firewall_policy (id : string) : M policy_dict :=
  w ← get_world;
  match firewall_policies w !! id with
  | Some row =>
      ret (mkPolicyDict id (fwp_firewall_rules row)
                        (firewall_list_of (firewalls w) id))
  | None => raise (FirewallPolicyNotFound id)
  end.

(** Modelled from the spec: [Firewall_db_mixin.get_firewall_rule]. *)
Definition get_firewall_rule (id : string) : M rule_dict :=
  w ← get_world;
  match firewall_rules w !! id with
  | Some row => ret (mkRuleDict id (fwr_payload row) (fwr_firewall_policy_id row))
  | None => raise (FirewallRuleNotFound id)
  end.

(** Modelled from the spec: [get_firewall_routers], the attachment set
    resolved from the association store: the routers associated with the
    firewall of the given id, none when no record has that id.  What
    the store answers under the builtin [id] is not said anywhere: it is
    the world's [builtin_id_routers], and [StoreError] when the store
    refuses. *)
Definition get_firewall_routers (fwid : pykey) : M (list string) :=
  w ← get_world;
  match fwid with
  | KeyStr s => ret (from_option fw_router_ids [] (firewalls w !! s))
  | KeyBuiltinId =>
      match builtin_id_routers w with
      | Some routers => ret routers
      | None => raise StoreError
      end
  end.

(** Modelled from the spec: [set_routers_for_firewall], which persists
    the attachment associations of a firewall. *)
Definition set_routers_for_firewall (fw_id : string) (router_ids : list string)
    : M unit :=
  row ← _get_firewall fw_id;
  modify (fun w =>
    with_firewalls (<[fw_id := with_router_ids router_ids row]> (firewalls w)) w).

(** Modelled from the spec: [update_firewall_routers], which replaces
    the attachment associations of a firewall. *)
Definition update_firewall_routers (fw_id : string) (router_ids : list string)
    : M unit :=
  set_routers_for_firewall fw_id router_ids.

(** Modelled from the spec: the routers already claimed by a firewall
    other than [fwid]. *)
Definition routers_of_others (fws : gmap string Firewall) (fwid : option string)
    : list string :=
  mjoin ((fun kv => fw_router_ids kv.2) <$>
         map_to_list (filter (fun kv => Some kv.1 ≠ fwid) fws)).

(** Modelled from the spec: [validate_firewall_routers_not_in_use],
    which fails with [RoutersInUse] if a requested router already
    belongs to a different firewall. *)
Definition validate_firewall_routers_not_in_use (router_ids : list string)
    (fwid : option string) : M unit :=
  w ← get_world;
  let in_use :=
    filter (fun r => r ∈ routers_of_others (firewalls w) fwid) router_ids in
  if decide (in_use = []) then ret tt else raise (RoutersInUse in_use).

(** Modelled from the spec: the persistence collaborator applies an
    edit to the policy/rule store. *)
Definition apply_edit (e : store_edit) : M unit :=
  w ← get_world;
  match e (firewall_policies w, firewall_rules w) with
  | Some ps => modify (with_policy_store ps)
  | None => raise EditRejected
  end.

(** Modelled from the spec: [Firewall_db_mixin.update_firewall_policy]. *)
Definition update_firewall_policy (id : string) (firewall_policy : store_edit)
    : M policy_dict :=
  apply_edit firewall_policy;;
  get_firewall_policy id.

(** Modelled from the spec: [Firewall_db_mixin.update_firewall_rule]. *)
Definition update_firewall_rule (id : string) (firewall_rule : store_edit)
    : M rule_dict :=
  apply_edit firewall_rule;;
  get_firewall_rule id.

(** Modelled from the spec: [Firewall_db_mixin.insert_rule]. *)
Definition insert_rule (id : string) (rule_info : store_edit) : M policy_dict :=
  apply_edit rule_info;;
  get_firewall_policy id.

(** Modelled from the spec: [Firewall_db_mixin.remove_rule]. *)
Definition remove_rule (id : string) (rule_info : store_edit) : M policy_dict :=
  apply_edit rule_info;;
  get_firewall_policy id.

(** Modelled from the spec: the records a context may list. *)
Definition visible (ctx : context) (row : Firewall) : Prop :=
  match ctx with
  | AdminContext => True
  | TenantContext tenant_id => fw_tenant_id row = tenant_id
  end.

#[global] Instance visible_dec ctx row : Decision (visible ctx row).
Proof. destruct ctx; cbn; apply _. Defined.

(** Modelled from the spec: [Firewall_db_mixin.get_firewalls] without
    filters or fields, the persisted records the context may list, as
    dicts. *)
Definition get_firewalls (ctx : context) : M (list firewall_dict) :=
  w ← get_world;
  ret ((fun kv => _make_firewall_dict kv.1 kv.2) <$>
       map_to_list (filter (fun kv => visible ctx kv.2) (firewalls w))).

End Firewall_db_mixin.

(** Modelled from the spec: the attachment lookup collaborator
    ([l3_plugin.get_routers]), every router with its tenant. *)
Definition l3_get_routers : M (list (string * string)) :=
  w ← get_world;
  ret (l3_routers w).

(** ** FirewallAgentApi: plugin side of the plugin to agent RPC *)

Module FirewallAgentApi.

Definition create_firewall (firewall : fw_with_rules) : M unit :=
  modify (with_cast (cast_create_firewall firewall)).

Definition update_firewall (firewall : fw_with_rules) : M unit :=
  modify (with_cast (cast_update_firewall firewall)).

Definition delete_firewall (firewall : fw_with_rules) : M unit :=
  modify (with_cast (cast_delete_firewall firewall)).

End FirewallAgentApi.

(** ** FirewallPlugin: the workflow of FWaaS request/response *)

Module FirewallPlugin.

Definition get_firewall (id : string) : M firewall_dict :=
  res ← Firewall_db_mixin.get_firewall id;
  fw_current_rtrs ← Firewall_db_mixin.get_firewall_routers (KeyStr id);
  ret (mkFirewallDict (d_id res) (d_tenant_id res) (d_name res) (d_status res)
                      (d_firewall_policy_id res) (Some fw_current_rtrs)).

(** The returned pair is the firewall dict and its
    ['firewall_rule_list'] entry. *)
Definition _make_firewall_dict_with_rules (firewall_id : string)
    : M (firewall_dict * list rule_dict) :=
  firewall ← get_firewall firewall_id;
  match truthy (d_firewall_policy_id firewall) with
  | Some fw_policy_id =>
      fw_policy ← Firewall_db_mixin.get_firewall_policy fw_policy_id;
      fw_rules_list ← map_each (pd_firewall_rules fw_policy)
                               Firewall_db_mixin.get_firewall_rule;
      ret (firewall, fw_rules_list)
  | None => ret (firewall, [])
  end.

Definition status_update (st : status) : firewall_fields :=
  mkFields None None (Some st).

(** ['add-router-ids'] is looked up under the builtin [id], not under
    [firewall_id]. *)
Definition _rpc_update_firewall (firewall_id : string) : M unit :=
  Firewall_db_mixin.update_firewall firewall_id (status_update PENDING_UPDATE);;
  fw_with_rules ← _make_firewall_dict_with_rules firewall_id;
  add ← Firewall_db_mixin.get_firewall_routers KeyBuiltinId;
  FirewallAgentApi.update_firewall
    (mkFwWithRules fw_with_rules.1 fw_with_rules.2 add [] None).

(** A policy dict is never empty, so [if firewall_policy:] holds. *)
Definition _rpc_update_firewall_policy (firewall_policy_id : string) : M unit :=
  firewall_policy ← Firewall_db_mixin.get_firewall_policy firewall_policy_id;
  for_each (pd_firewall_list firewall_policy) _rpc_update_firewall.

Definition is_pending (st : status) : Prop :=
  st = PENDING_CREATE ∨ st = PENDING_UPDATE ∨ st = PENDING_DELETE.

#[global] Instance is_pending_dec st : Decision (is_pending st).
Proof. unfold is_pending. apply _. Defined.

Definition _ensure_update_firewall (firewall_id : string) : M unit :=
  fwall ← get_firewall firewall_id;
  if decide (is_pending (d_status fwall))
  then raise (FirewallInPendingState firewall_id (d_status fwall))
  else ret tt.

(** The policy dict always has its ['firewall_list'] key. *)
Definition _ensure_update_firewall_policy (firewall_policy_id : string)
    : M unit :=
  firewall_policy ← Firewall_db_mixin.get_firewall_policy firewall_policy_id;
  for_each (pd_firewall_list firewall_policy) _ensure_update_firewall.

Definition _ensure_update_firewall_rule (firewall_rule_id : string) : M unit :=
  fw_rule ← Firewall_db_mixin.get_firewall_rule firewall_rule_id;
  match truthy (rd_firewall_policy_id fw_rule) with
  | Some firewall_policy_id => _ensure_update_firewall_policy firewall_policy_id
  | None => ret tt
  end.

Definition _get_routers_for_create_firewall (tenant_id : string)
    (firewall : firewall_create) : M (list string) :=
  match c_router_ids firewall with
  | ATTR_NOT_SPECIFIED =>
      routers ← l3_get_routers;
      let router_ids :=
        (filter (fun router => router.2 = tenant_id) routers).*1 in
      Firewall_db_mixin.validate_firewall_routers_not_in_use router_ids None;;
      ret router_ids
  | RouterIdsAbsent => ret []
  | RouterIds router_ids =>
      if decide (router_ids = []) then ret []
      else
        Firewall_db_mixin.validate_firewall_routers_not_in_use router_ids None;;
        ret router_ids
  end.

Definition set_router_ids (fw : firewall_dict) (router_ids : list string)
    : firewall_dict :=
  mkFirewallDict (d_id fw) (d_tenant_id fw) (d_name fw) (d_status fw)
                 (d_firewall_policy_id fw) (Some router_ids).

(** [new_id] is the identifier the store draws for the new record;
    [_get_tenant_id_for_create] answers the tenant of the request. *)
Definition create_firewall (new_id : string) (firewall : firewall_create)
    : M firewall_dict :=
  let tenant_id := c_tenant_id firewall in
  fw_new_rtrs ← _get_routers_for_create_firewall tenant_id firewall;
  if decide (fw_new_rtrs = []) then
    fw ← Firewall_db_mixin.create_firewall new_id firewall (Some INACTIVE);
    ret (set_router_ids fw [])
  else
    fw ← Firewall_db_mixin.create_firewall new_id firewall None;
    let fw := set_router_ids fw fw_new_rtrs in
    fw_with_rules ← _make_firewall_dict_with_rules (d_id fw);
    Firewall_db_mixin.set_routers_for_firewall (d_id fw) fw_new_rtrs;;
    FirewallAgentApi.create_firewall
      (mkFwWithRules fw_with_rules.1 fw_with_rules.2 fw_new_rtrs [] None);;
    ret fw.

(** Lines 321-323: the routers to add the firewall to and to delete it
    from; [order] is the interpreter's order for the set listed. *)
Definition router_diff (order : list string)
    (fw_current_rtrs fw_new_rtrs : list string) : list string * list string :=
  (fw_new_rtrs,
   py_list_of_set order ((list_to_set fw_current_rtrs : gset string)
                         ∖ list_to_set fw_new_rtrs)).

Definition update_firewall (id : string) (firewall : firewall_update)
    : M firewall_dict :=
  _ensure_update_firewall id;;
  let router_ids := u_router_ids firewall in
  fw_current_rtrs ← Firewall_db_mixin.get_firewall_routers (KeyStr id);
  fw_new_rtrs ←
    match router_ids with
    | Some router_ids =>
        fw_new_rtrs ←
          (if decide (router_ids = []) then ret []
           else
             Firewall_db_mixin.validate_firewall_routers_not_in_use
               router_ids (Some id);;
             ret router_ids);
        Firewall_db_mixin.update_firewall_routers id fw_new_rtrs;;
        ret fw_new_rtrs
    | None => Firewall_db_mixin.get_firewall_routers (KeyStr id)
    end;
  if decide (fw_new_rtrs = [] ∧ fw_current_rtrs = []) then
    fw ← Firewall_db_mixin.update_firewall id
           (mkFields (u_name firewall) (u_firewall_policy_id firewall)
                     (Some INACTIVE));
    ret (set_router_ids fw [])
  else
    fw ← Firewall_db_mixin.update_firewall id
           (mkFields (u_name firewall) (u_firewall_policy_id firewall)
                     (Some PENDING_UPDATE));
    let fw := set_router_ids fw fw_new_rtrs in
    fw_with_rules ← _make_firewall_dict_with_rules (d_id fw);
    w ← get_world;
    let d := router_diff (set_iteration w fw_current_rtrs fw_new_rtrs)
                         fw_current_rtrs fw_new_rtrs in
    FirewallAgentApi.update_firewall
      (mkFwWithRules fw_with_rules.1 fw_with_rules.2 d.1 d.2
                     (Some (bool_decide (fw_new_rtrs = []))));;
    ret fw.

Definition delete_db_firewall_object (id : string) : M unit :=
  firewall ← get_firewall id;
  if decide (d_status firewall = PENDING_DELETE)
  then Firewall_db_mixin.delete_firewall id
  else ret tt.

Definition delete_firewall (id : string) : M unit :=
  fw ← Firewall_db_mixin.update_firewall id (status_update PENDING_DELETE);
  fw_with_rules ← _make_firewall_dict_with_rules (d_id fw);
  del ← Firewall_db_mixin.get_firewall_routers (KeyStr id);
  if decide (del = []) then delete_db_firewall_object id
  else
    FirewallAgentApi.delete_firewall
      (mkFwWithRules fw_with_rules.1 fw_with_rules.2 [] del None).

Definition update_firewall_policy (id : string) (firewall_policy : store_edit)
    : M policy_dict :=
  _ensure_update_firewall_policy id;;
  fwp ← Firewall_db_mixin.update_firewall_policy id firewall_policy;
  _rpc_update_firewall_policy id;;
  ret fwp.

Definition update_firewall_rule (id : string) (firewall_rule : store_edit)
    : M rule_dict :=
  _ensure_update_firewall_rule id;;
  fwr ← Firewall_db_mixin.update_firewall_rule id firewall_rule;
  match truthy (rd_firewall_policy_id fwr) with
  | Some firewall_policy_id =>
      _rpc_update_firewall_policy firewall_policy_id;;
      ret fwr
  | None => ret fwr
  end.

Definition insert_rule (id : string) (rule_info : store_edit) : M policy_dict :=
  _ensure_update_firewall_policy id;;
  fwp ← Firewall_db_mixin.insert_rule id rule_info;
  _rpc_update_firewall_policy id;;
  ret fwp.

Definition remove_rule (id : string) (rule_info : store_edit) : M policy_dict :=
  _ensure_update_firewall_policy id;;
  fwp ← Firewall_db_mixin.remove_rule id rule_info;
  _rpc_update_firewall_policy id;;
  ret fwp.

(** [get_firewalls] as this file calls it, with [filters] and [fields]
    left at None; the loop sets ['router_ids'] on each dict in turn. *)
Definition get_firewalls (ctx : context) : M (list firewall_dict) :=
  fw_list ← Firewall_db_mixin.get_firewalls ctx;
  map_each fw_list (fun fw =>
    fw_current_rtrs ← Firewall_db_mixin.get_firewall_routers (KeyStr (d_id fw));
    ret (set_router_ids fw fw_current_rtrs)).

End FirewallPlugin.

(** ** FirewallCallbacks: the calls agents make *)

Module FirewallCallbacks.

Definition set_firewall_status (firewall_id : string) (status : status)
    : M bool :=
  fw_db ← Firewall_db_mixin._get_firewall firewall_id;
  if decide (fw_status fw_db = PENDING_DELETE) then ret false
  else if decide (status = ACTIVE ∨ status = DOWN) then
    Firewall_db_mixin.set_status firewall_id status;;
    ret true
  else
    Firewall_db_mixin.set_status firewall_id ERROR;;
    ret false.

(** Lines 66-77, the block run for an id not seen before. *)
Definition firewall_deleted_block (firewall_id : string) : M (option bool) :=
  fw_db ← Firewall_db_mixin._get_firewall firewall_id;
  if decide (fw_status fw_db = PENDING_DELETE ∨ fw_status fw_db = ERROR) then
    FirewallPlugin.delete_db_firewall_object firewall_id;;
    ret (Some true)
  else
    Firewall_db_mixin.set_status firewall_id ERROR;;
    ret (Some false).

(** The result is Python's [True], [False] or [None]. *)
Definition firewall_deleted (firewall_id : string) : M (option bool) :=
  w ← get_world;
  if decide (firewall_id ∈ firewall_deleted_ids w) then ret None
  else
    modify (with_deleted_id firewall_id);;
    firewall_deleted_block firewall_id.

Definition get_firewalls_for_tenant (ctx : context)
    : M (list (firewall_dict * list rule_dict)) :=
  fws ← FirewallPlugin.get_firewalls ctx;
  map_each fws (fun fw =>
    FirewallPlugin._make_firewall_dict_with_rules (d_id fw)).

Definition get_firewalls_for_tenant_without_rules (ctx : context)
    : M (list firewall_dict) :=
  fws ← FirewallPlugin.get_firewalls ctx;
  ret fws.

(** The context given is not used: the firewalls are listed under the
    admin context. *)
Definition get_tenants_with_firewalls (ctx : context) : M (list string) :=
  fw_list ← FirewallPlugin.get_firewalls AdminContext;
  w ← get_world;
  let tenant_ids := d_tenant_id <$> fw_list in
  ret (py_list_of_set (set_iteration w tenant_ids [])
                      (list_to_set tenant_ids)).

End FirewallCallbacks.

(** * Vocabulary of the statements *)

(** Reading the store *)

(** A computation that only reads: whatever it answers, the world
    stays as it was. *)
Definition reads_only {A} (c : M A) : Prop := forall w, (c w).2 = w.

(** The exceptions a failed lookup raises. *)
Definition is_lookup_failure (e : exn) : Prop :=
  match e with
  | FirewallNotFound _ | FirewallPolicyNotFound _ | FirewallRuleNotFound _ => True
  | _ => False
  end.

(** The dict the plugin's [get_firewall] builds from a row. *)
Definition firewall_dict_of (id : string) (row : Firewall) : firewall_dict :=
  mkFirewallDict id (fw_tenant_id row) (fw_name row) (fw_status row)
                 (fw_firewall_policy_id row) (Some (fw_router_ids row)).

(** The dict [get_firewall_rule] builds from a row. *)
Definition rule_dict_of (id : string) (row : FirewallRule) : rule_dict :=
  mkRuleDict id (fwr_payload row) (fwr_firewall_policy_id row).

(** The dicts of the listed rules, in order. *)
Definition rule_dicts (rules : gmap string FirewallRule) (l : list string)
    : list rule_dict :=
  omap (fun r => rule_dict_of r <$> rules !! r) l.

(** The rule dicts of a policy, in the policy's order. *)
Definition policy_rule_dicts (w : world) (pid : string) : list rule_dict :=
  match firewall_policies w !! pid with
  | Some prow => rule_dicts (firewall_rules w) (fwp_firewall_rules prow)
  | None => []
  end.

(** The rule list sent for a firewall row. *)
Definition rules_for (w : world) (row : Firewall) : list rule_dict :=
  match truthy (fw_firewall_policy_id row) with
  | Some pid => policy_rule_dicts w pid
  | None => []
  end.

(** The policy has a row and each of its rules has one. *)
Definition policy_resolvable (w : world) (pid : string) : Prop :=
  exists prow, firewall_policies w !! pid = Some prow
    ∧ forall r, r ∈ fwp_firewall_rules prow -> is_Some (firewall_rules w !! r).

(** The policy a firewall row names, if any, can be read with its rules. *)
Definition firewall_resolvable (w : world) (row : Firewall) : Prop :=
  forall pid, truthy (fw_firewall_policy_id row) = Some pid ->
              policy_resolvable w pid.

(** What the operations leave behind *)

(** The world once [delete_firewall] has persisted PENDING_DELETE. *)
Definition marked_for_delete (id : string) (row : Firewall) (w : world)
    : world :=
  with_firewalls (<[id := with_status PENDING_DELETE row]> (firewalls w)) w.

(** The row [create_firewall] persists when no router is attached. *)
Definition created_inactive (req : firewall_create) : Firewall :=
  mkFirewall (c_tenant_id req) (c_name req) INACTIVE
             (c_firewall_policy_id req) [].

(** The attachment set an update resolves to. *)
Definition new_routers (req : firewall_update) (row : Firewall) : list string :=
  match u_router_ids req with
  | Some router_ids => router_ids
  | None => fw_router_ids row
  end.

(** The row an update leaves, given the status it persists. *)
Definition row_after (req : firewall_update) (st : status) (row : Firewall)
    : Firewall :=
  Firewall_db_mixin.apply_fields
    (mkFields (u_name req) (u_firewall_policy_id req) (Some st))
    (with_router_ids (new_routers req row) row).

(** The requested routers, if any, pass the in-use validation. *)
Definition routers_accepted (w : world) (id : string) (req : firewall_update)
    : Prop :=
  match u_router_ids req with
  | Some router_ids =>
      router_ids = []
      ∨ Firewall_db_mixin.validate_firewall_routers_not_in_use
          router_ids (Some id) w = (Returns tt, w)
  | None => True
  end.

(** The tail of [update_firewall], from the test on the two attachment
    sets on, restated to reason about it on its own. *)
Definition update_tail (id : string) (firewall : firewall_update)
    (fw_current_rtrs fw_new_rtrs : list string) : M firewall_dict :=
  if decide (fw_new_rtrs = [] ∧ fw_current_rtrs = []) then
    fw ← Firewall_db_mixin.update_firewall id
           (mkFields (u_name firewall) (u_firewall_policy_id firewall)
                     (Some INACTIVE));
    ret (FirewallPlugin.set_router_ids fw [])
  else
    fw ← Firewall_db_mixin.update_firewall id
           (mkFields (u_name firewall) (u_firewall_policy_id firewall)
                     (Some PENDING_UPDATE));
    let fw := FirewallPlugin.set_router_ids fw fw_new_rtrs in
    fw_with_rules ← FirewallPlugin._make_firewall_dict_with_rules (d_id fw);
    w ← get_world;
    let d := FirewallPlugin.router_diff
               (set_iteration w fw_current_rtrs fw_new_rtrs)
               fw_current_rtrs fw_new_rtrs in
    FirewallAgentApi.update_firewall
      (mkFwWithRules fw_with_rules.1 fw_with_rules.2 d.1 d.2
                     (Some (bool_decide (fw_new_rtrs = []))));;
    ret fw.

(** What [update_firewall] returns and casts once the guard and the
    validation have passed. *)
Definition update_result (w : world) (id : string) (req : firewall_update)
    (row : Firewall) : outcome firewall_dict * world :=
  let new := new_routers req row in
  if decide (new = [] ∧ fw_router_ids row = []) then
    (Returns (FirewallPlugin.set_router_ids
                (Firewall_db_mixin._make_firewall_dict id
                   (row_after req INACTIVE row)) []),
     with_firewalls (<[id := row_after req INACTIVE row]> (firewalls w)) w)
  else
    let w2 :=
      with_firewalls (<[id := row_after req PENDING_UPDATE row]> (firewalls w)) w in
    match (FirewallPlugin._make_firewall_dict_with_rules id w2).1 with
    | Raises e => (Raises e, w2)
    | Returns fr =>
        (Returns (FirewallPlugin.set_router_ids
                    (Firewall_db_mixin._make_firewall_dict id
                       (row_after req PENDING_UPDATE row)) new),
         with_cast
           (cast_update_firewall
              (mkFwWithRules fr.1 fr.2
                 (FirewallPlugin.router_diff
                    (set_iteration w (fw_router_ids row) new)
                    (fw_router_ids row) new).1
                 (FirewallPlugin.router_diff
                    (set_iteration w (fw_router_ids row) new)
                    (fw_router_ids row) new).2
                 (Some (bool_decide (new = [])))))
           w2)
    end.

(** The payload [_rpc_update_firewall] casts for a firewall row when
    the store answers its lookup under the builtin [id]. *)
Definition rpc_payload (w : world) (f : string) (row : Firewall)
    : fw_with_rules :=
  mkFwWithRules (firewall_dict_of f (with_status PENDING_UPDATE row))
                (rules_for w row) (default [] (builtin_id_routers w)) [] None.

(** The payloads cast for the listed firewalls, in order. *)
Definition rpc_payloads (w : world) (l : list string) : list fw_with_rules :=
  omap (fun f => rpc_payload w f <$> firewalls w !! f) l.

(** What a fan-out over the firewalls of policy [pid] leaves, from the
    world [w1] in which the edit has been applied: the same policy and
    rule tables, every firewall of the policy in PENDING_UPDATE and
    otherwise as it was, every other firewall untouched, and one update
    cast per firewall of the policy, each with the list [a] as
    add-router-ids, an empty del-router-ids and the rule list of the
    edited policy. *)
Definition fanned_out (w1 w' : world) (pid : string) (a : list string)
    : Prop :=
  firewall_policies w' = firewall_policies w1
  ∧ firewall_rules w' = firewall_rules w1
  ∧ (forall f row,
       firewalls w1 !! f = Some row ->
       firewalls w' !! f =
       Some (if decide (fw_firewall_policy_id row = Some pid)
             then with_status PENDING_UPDATE row else row))
  ∧ exists payloads,
      fanout w' = fanout w1 ++ (cast_update_firewall <$> payloads)
      ∧ (fun p => d_id (firewall_core p)) <$> payloads
        = Firewall_db_mixin.firewall_list_of (firewalls w1) pid
      ∧ Forall (fun p =>
                  add_router_ids p = a ∧ del_router_ids p = []
                  ∧ d_status (firewall_core p) = PENDING_UPDATE
                  ∧ d_router_ids (firewall_core p)
                    = fw_router_ids <$> firewalls w1 !! d_id (firewall_core p)
                  ∧ firewall_rule_list p = policy_rule_dicts w1 pid)
               payloads.

(** Concrete stores for the examples *)

(** A firewall row of tenant ["T"] using policy ["P"]. *)
Definition row_F (st : status) (rtrs : list string) : Firewall :=
  mkFirewall "T" "fw" st (Some "P") rtrs.

(** One tenant, one policy with one rule, one firewall ["F"] in the
    given status attached to the given routers. *)
Definition world_F (st : status) (rtrs : list string) : world :=
  mkWorld {[ "F" := row_F st rtrs ]}
          {[ "P" := mkFirewallPolicy "T" ["r1"] ]}
          {[ "r1" := mkFirewallRule "allow tcp/22" (Some "P") ]}
          [("R1", "T"); ("R2", "T")] [] [] (fun _ _ => []) (Some []).

(** The world after an agent reported ["F"] deleted while it was
    ACTIVE (the report is flagged, the status becomes ERROR) ... *)
Definition world_after_first_report : world :=
  (FirewallCallbacks.firewall_deleted "F" (world_F ACTIVE ["R1"])).2.

(** ... and after an agent then reported it ACTIVE again. *)
Definition world_active_again : world :=
  (FirewallCallbacks.set_firewall_status "F" ACTIVE world_after_first_report).2.

(** The payload cast when ["F"], ACTIVE on routers R1 and R2, is
    updated with [router_ids = [R2]]. *)
Definition payload_F_to_R2 : fw_with_rules :=
  mkFwWithRules
    (firewall_dict_of "F" (row_F PENDING_UPDATE ["R2"]))
    [mkRuleDict "r1" "allow tcp/22" (Some "P")]
    ["R2"] ["R1"] (Some false).

(** An edit that puts a new rule ["r2"] in front of policy ["P"]. *)
Definition edit_insert_r2 : store_edit :=
  fun ps =>
    Some (<["P" := mkFirewallPolicy "T" ["r2"; "r1"]]> ps.1,
          <["r2" := mkFirewallRule "deny all" (Some "P")]> ps.2).

(** The policy and rule tables of [world_F] once [edit_insert_r2] is
    applied. *)
Definition store_with_r2
    : gmap string FirewallPolicy * gmap string FirewallRule :=
  (<["P" := mkFirewallPolicy "T" ["r2"; "r1"]]>
     {[ "P" := mkFirewallPolicy "T" ["r1"] ]},
   <["r2" := mkFirewallRule "deny all" (Some "P")]>
     {[ "r1" := mkFirewallRule "allow tcp/22" (Some "P") ]}).

(** ** Vocabulary of the further properties *)

(** A series of status reports for one firewall, answers dropped. *)
Definition report_statuses (firewall_id : string) (sts : list status) : M unit :=
  for_each sts (fun st =>
    FirewallCallbacks.set_firewall_status firewall_id st;; ret tt).

(** The row is the other one up to its status column. *)
Definition same_but_status (row row' : Firewall) : Prop :=
  row' = with_status (fw_status row') row.

(** Between two worlds nothing was cast, the policy and rule tables
    and the routers of the L3 plugin are the same, and every firewall
    still there is as it was up to its status. *)
Definition only_statuses_changed (w w' : world) : Prop :=
  fanout w' = fanout w
  ∧ firewall_policies w' = firewall_policies w
  ∧ firewall_rules w' = firewall_rules w
  ∧ l3_routers w' = l3_routers w
  ∧ forall f row',
      firewalls w' !! f = Some row' ->
      exists row, firewalls w !! f = Some row ∧ same_but_status row row'.

(** Some firewall other than [fwid] has the router attached. *)
Definition held_by_other (w : world) (fwid : option string) (r : string)
    : Prop :=
  exists f row,
    firewalls w !! f = Some row ∧ Some f ≠ fwid ∧ r ∈ fw_router_ids row.

(** The world once [update_firewall] has persisted PENDING_UPDATE. *)
Definition marked_for_update (id : string) (req : firewall_update)
    (row : Firewall) (w : world) : world :=
  with_firewalls (<[id := row_after req PENDING_UPDATE row]> (firewalls w)) w.

(** The payload [update_firewall] casts for a row whose policy and
    rules can be read. *)
Definition update_payload (w : world) (id : string) (req : firewall_update)
    (row : Firewall) : fw_with_rules :=
  mkFwWithRules
    (firewall_dict_of id (row_after req PENDING_UPDATE row))
    (rules_for w (row_after req PENDING_UPDATE row))
    (new_routers req row)
    (FirewallPlugin.router_diff
       (set_iteration w (fw_router_ids row) (new_routers req row))
       (fw_router_ids row) (new_routers req row)).2
    (Some (bool_decide (new_routers req row = []))).

(** ["F"] on R1 and a second firewall ["G"] of the same tenant on R2. *)
Definition world_FG : world :=
  with_firewalls (<["G" := row_F ACTIVE ["R2"]]> {[ "F" := row_F ACTIVE ["R1"] ]})
                 (world_F ACTIVE ["R1"]).

(** The row [create_firewall] persists first when routers are attached. *)
Definition created_pending (req : firewall_create) : Firewall :=
  mkFirewall (c_tenant_id req) (c_name req) PENDING_CREATE
             (c_firewall_policy_id req) [].

(** What [create_firewall] does for a non-empty list of resolved
    routers. *)
Definition create_result (w : world) (new_id : string) (req : firewall_create)
    (l : list string) : outcome firewall_dict * world :=
  match firewalls w !! new_id with
  | Some _ => (Raises (DBDuplicateEntry new_id), w)
  | None =>
      let w1 :=
        with_firewalls (<[new_id := created_pending req]> (firewalls w)) w in
      match (FirewallPlugin._make_firewall_dict_with_rules new_id w1).1 with
      | Raises e => (Raises e, w1)
      | Returns fr =>
          (Returns (firewall_dict_of new_id
                      (with_router_ids l (created_pending req))),
           with_cast
             (cast_create_firewall (mkFwWithRules fr.1 fr.2 l [] None))
             (with_firewalls
                (<[new_id := with_router_ids l (created_pending req)]>
                   (firewalls w)) w))
      end
  end.

(** No router is attached to two different firewalls. *)
Definition routers_exclusive (w : world) : Prop :=
  forall f1 f2 row1 row2 r,
    f1 ≠ f2 ->
    firewalls w !! f1 = Some row1 -> firewalls w !! f2 = Some row2 ->
    r ∈ fw_router_ids row1 -> r ∉ fw_router_ids row2.

(** Every record of the second table is a record of the first with the
    same routers. *)
Definition routers_kept (fws fws' : gmap string Firewall) : Prop :=
  forall f row',
    fws' !! f = Some row' ->
    exists row, fws !! f = Some row ∧ fw_router_ids row' = fw_router_ids row.

(** A computation that attaches no router and moves none. *)
Definition keeps_routers {A} (c : M A) : Prop :=
  forall w, routers_kept (firewalls w) (firewalls (c w).2).

(** The records a context may list, with their ids. *)
Definition visible_rows (ctx : context) (w : world) : list (string * Firewall) :=
  map_to_list
    (filter (fun kv => Firewall_db_mixin.visible ctx kv.2) (firewalls w)).

(** ["F"] on R1, in a store that answers the lookup under the builtin
    id with a router of its own. *)
Definition world_F_stray : world :=
  mkWorld (firewalls (world_F ACTIVE ["R1"]))
          (firewall_policies (world_F ACTIVE ["R1"]))
          (firewall_rules (world_F ACTIVE ["R1"]))
          (l3_routers (world_F ACTIVE ["R1"])) [] [] (fun _ _ => [])
          (Some ["R9"]).

(** * Properties *)

(** ** Running computations *)

Ltac unfold_monad :=
  unfold mbind, mret, M_bind, M_ret, bind, ret, raise, get_world, modify in *.

Lemma bind_run {A B} (c : M A) (k : A -> M B) (w : world) :
  (x ← c; k x) w =
  match c w with
  | (Returns a, w') => k a w'
  | (Raises e, w') => (Raises e, w')
  end.
Proof. reflexivity. Qed.

Lemma bind_returns {A B} (c : M A) (k : A -> M B) (w w' : world) (a : A) :
  c w = (Returns a, w') -> (x ← c; k x) w = k a w'.
Proof. intros H. rewrite bind_run, H. reflexivity. Qed.

Lemma bind_raises {A B} (c : M A) (k : A -> M B) (w w' : world) (e : exn) :
  c w = (Raises e, w') -> (x ← c; k x) w = (Raises e, w').
Proof. intros H. rewrite bind_run, H. reflexivity. Qed.

Lemma reads_only_ret {A} (a : A) : reads_only (ret a).
Proof. intros w. reflexivity. Qed.

Lemma reads_only_raise {A} (e : exn) : reads_only (@raise A e).
Proof. intros w. reflexivity. Qed.

Lemma reads_only_bind {A B} (c : M A) (k : A -> M B) :
  reads_only c -> (forall a, reads_only (k a)) -> reads_only (x ← c; k x).
Proof.
  intros Hc Hk w. rewrite bind_run.
  specialize (Hc w). destruct (c w) as [[a|e] w']; simpl in Hc; subst w'.
  - apply Hk.
  - reflexivity.
Qed.

Lemma reads_only_map_each {A B} (l : list A) (f : A -> M B) :
  (forall a, reads_only (f a)) -> reads_only (map_each l f).
Proof.
  intros Hf. induction l as [|x l IH]; simpl.
  - apply reads_only_ret.
  - apply reads_only_bind; [apply Hf|]. intros y.
    apply reads_only_bind; [apply IH|]. intros ys. apply reads_only_ret.
Qed.

Lemma reads_only_for_each {A} (l : list A) (body : A -> M unit) :
  (forall a, reads_only (body a)) -> reads_only (for_each l body).
Proof.
  intros Hf. induction l as [|x l IH]; simpl.
  - apply reads_only_ret.
  - apply reads_only_bind; [apply Hf|]. intros _. apply IH.
Qed.

Lemma reads_only_run {A} (c : M A) (w : world) :
  reads_only c -> c w = ((c w).1, w).
Proof. intros H. rewrite <- (H w) at 3. destruct (c w); reflexivity. Qed.

(** ** Listing a set *)

Lemma remove_dups_NoDup (l : list string) : NoDup l -> remove_dups l = l.
Proof.
  induction 1 as [|x l Hx Hnd IH]; [reflexivity|].
  cbn. destruct (decide_rel elem_of x l); [tauto|]. rewrite IH. reflexivity.
Qed.

Lemma elem_of_py_list_of_set (order : list string) (s : gset string) x :
  x ∈ py_list_of_set order s ↔ x ∈ s.
Proof.
  unfold py_list_of_set. cbv zeta.
  rewrite elem_of_app, elem_of_remove_dups, !list_elem_of_filter,
    elem_of_remove_dups, list_elem_of_filter, elem_of_elements.
  destruct (decide (x ∈ order)); tauto.
Qed.

Lemma NoDup_py_list_of_set (order : list string) (s : gset string) :
  NoDup (py_list_of_set order s).
Proof.
  unfold py_list_of_set. cbv zeta. apply NoDup_app.
  split; [apply NoDup_remove_dups|]. split.
  - intros x Hx Hin. apply list_elem_of_filter in Hin as [Hnot _]. tauto.
  - apply NoDup_filter, NoDup_elements.
Qed.

Lemma list_to_set_py_list_of_set (order : list string) (s : gset string) :
  list_to_set (py_list_of_set order s) = s.
Proof.
  apply set_eq. intros x.
  rewrite elem_of_list_to_set. apply elem_of_py_list_of_set.
Qed.

Lemma py_list_of_set_empty (order : list string) :
  py_list_of_set order ∅ = [].
Proof.
  destruct (py_list_of_set order ∅) as [|x l] eqn:E; [reflexivity|].
  assert (Hx : x ∈ py_list_of_set order ∅) by (rewrite E; left).
  apply elem_of_py_list_of_set, elem_of_empty in Hx as [].
Qed.

Lemma py_list_of_set_Permutation (order order' : list string) (s : gset string) :
  py_list_of_set order s ≡ₚ py_list_of_set order' s.
Proof.
  apply NoDup_Permutation; [apply NoDup_py_list_of_set ..|].
  intros x. rewrite !elem_of_py_list_of_set. reflexivity.
Qed.

(** Every listing of the set without repetition is a possible one. *)
Lemma py_list_of_set_any (l : list string) (s : gset string) :
  NoDup l -> list_to_set l = s -> py_list_of_set l s = l.
Proof.
  intros Hnd <-. unfold py_list_of_set. cbv zeta.
  assert (Hf : filter (fun x => x ∈ (list_to_set l : gset string)) l = l).
  { clear Hnd.
    assert (H : forall s : gset string,
      (forall x, x ∈ l -> x ∈ s) -> filter (fun x => x ∈ s) l = l).
    { induction l as [|a l IH]; intros s Hs; [reflexivity|].
      rewrite filter_cons, decide_True by (apply Hs; left).
      f_equal. apply IH. intros x Hx. apply Hs. right. exact Hx. }
    apply (H (list_to_set l)).
    intros x Hx. apply elem_of_list_to_set. exact Hx. }
  rewrite Hf, (remove_dups_NoDup _ Hnd).
  assert (Hrest : filter (fun x => x ∉ l) (elements (list_to_set l : gset string))
                  = []).
  { clear Hf.
    destruct (filter (fun x => x ∉ l) (elements (list_to_set l : gset string)))
      as [|x r] eqn:E; [reflexivity|].
    assert (Hx : x ∈ filter (fun x => x ∉ l)
                       (elements (list_to_set l : gset string)))
      by (rewrite E; left).
    apply list_elem_of_filter in Hx as [Hnot Hin].
    apply elem_of_elements, elem_of_list_to_set in Hin. tauto. }
  rewrite Hrest. apply app_nil_r.
Qed.

(** ** The persistence mixin *)

Section mixin_facts.
Import Firewall_db_mixin.

Lemma _get_firewall_Some w id row :
  firewalls w !! id = Some row -> _get_firewall id w = (Returns row, w).
Proof. intros H. unfold _get_firewall. unfold_monad. rewrite H. reflexivity. Qed.

Lemma _get_firewall_None w id :
  firewalls w !! id = None ->
  _get_firewall id w = (Raises (FirewallNotFound id), w).
Proof. intros H. unfold _get_firewall. unfold_monad. rewrite H. reflexivity. Qed.

Lemma reads_only__get_firewall id : reads_only (_get_firewall id).
Proof.
  intros w. unfold _get_firewall. unfold_monad.
  destruct (firewalls w !! id); reflexivity.
Qed.

Lemma reads_only_get_firewall_policy id : reads_only (get_firewall_policy id).
Proof.
  intros w. unfold get_firewall_policy. unfold_monad.
  destruct (firewall_policies w !! id); reflexivity.
Qed.

Lemma reads_only_get_firewall_rule id : reads_only (get_firewall_rule id).
Proof.
  intros w. unfold get_firewall_rule. unfold_monad.
  destruct (firewall_rules w !! id); reflexivity.
Qed.

Lemma reads_only_get_firewall_routers k : reads_only (get_firewall_routers k).
Proof.
  intros w. unfold get_firewall_routers. unfold_monad.
  destruct k; [reflexivity|]. destruct (builtin_id_routers w); reflexivity.
Qed.

Lemma set_status_Some w id row st :
  firewalls w !! id = Some row ->
  set_status id st w =
  (Returns tt, with_firewalls (<[id := with_status st row]> (firewalls w)) w).
Proof.
  intros H. unfold set_status. unfold_monad. do 2 f_equal.
  apply map_eq. intros j. rewrite lookup_alter, lookup_insert.
  destruct (decide (id = j)) as [->|]; [rewrite H|]; reflexivity.
Qed.

Lemma update_firewall_Some w id row f :
  firewalls w !! id = Some row ->
  update_firewall id f w =
  (Returns (_make_firewall_dict id (apply_fields f row)),
   with_firewalls (<[id := apply_fields f row]> (firewalls w)) w).
Proof.
  intros H. unfold update_firewall, get_firewall.
  rewrite (bind_returns _ _ _ _ _ (_get_firewall_Some _ _ _ H)).
  unfold_monad. cbn.
  rewrite _get_firewall_Some with (row := apply_fields f row);
    [reflexivity | cbn; apply lookup_insert_eq].
Qed.

Lemma update_firewall_None w id f :
  firewalls w !! id = None ->
  update_firewall id f w = (Raises (FirewallNotFound id), w).
Proof.
  intros H. unfold update_firewall.
  apply bind_raises, _get_firewall_None, H.
Qed.

Lemma delete_firewall_Some w id row :
  firewalls w !! id = Some row ->
  delete_firewall id w =
  (Returns tt, with_firewalls (delete id (firewalls w)) w).
Proof.
  intros H. unfold delete_firewall.
  rewrite (bind_returns _ _ _ _ _ (_get_firewall_Some _ _ _ H)).
  reflexivity.
Qed.
End mixin_facts.

(** ** The plugin's reads and guards *)

Section plugin_reads.
Import FirewallPlugin.

Lemma get_firewall_Some w id row :
  firewalls w !! id = Some row ->
  get_firewall id w = (Returns (firewall_dict_of id row), w).
Proof.
  intros H. unfold get_firewall, Firewall_db_mixin.get_firewall.
  unfold Firewall_db_mixin._get_firewall, Firewall_db_mixin.get_firewall_routers.
  unfold_monad. rewrite H. cbn. rewrite H. reflexivity.
Qed.

Lemma get_firewall_None w id :
  firewalls w !! id = None ->
  get_firewall id w = (Raises (FirewallNotFound id), w).
Proof.
  intros H. unfold get_firewall, Firewall_db_mixin.get_firewall.
  unfold Firewall_db_mixin._get_firewall.
  unfold_monad. rewrite H. reflexivity.
Qed.

Lemma reads_only_get_firewall id : reads_only (get_firewall id).
Proof.
  intros w. destruct (firewalls w !! id) as [row|] eqn:H.
  - rewrite (get_firewall_Some _ _ _ H). reflexivity.
  - rewrite (get_firewall_None _ _ H). reflexivity.
Qed.

Lemma reads_only__make_firewall_dict_with_rules id :
  reads_only (_make_firewall_dict_with_rules id).
Proof.
  unfold _make_firewall_dict_with_rules.
  apply reads_only_bind; [apply reads_only_get_firewall|]. intros fw.
  destruct (truthy (d_firewall_policy_id fw)); [|apply reads_only_ret].
  apply reads_only_bind; [apply reads_only_get_firewall_policy|]. intros p.
  apply reads_only_bind; [|intros; apply reads_only_ret].
  apply reads_only_map_each, reads_only_get_firewall_rule.
Qed.

Lemma _ensure_update_firewall_pending w id row :
  firewalls w !! id = Some row -> is_pending (fw_status row) ->
  _ensure_update_firewall id w =
  (Raises (FirewallInPendingState id (fw_status row)), w).
Proof.
  intros H Hp. unfold _ensure_update_firewall.
  rewrite (bind_returns _ _ _ _ _ (get_firewall_Some _ _ _ H)). cbn.
  destruct (decide (is_pending (fw_status row))); [reflexivity | tauto].
Qed.

Lemma _ensure_update_firewall_ok w id row :
  firewalls w !! id = Some row -> ¬ is_pending (fw_status row) ->
  _ensure_update_firewall id w = (Returns tt, w).
Proof.
  intros H Hp. unfold _ensure_update_firewall.
  rewrite (bind_returns _ _ _ _ _ (get_firewall_Some _ _ _ H)). cbn.
  destruct (decide (is_pending (fw_status row))); [tauto | reflexivity].
Qed.

Lemma reads_only__ensure_update_firewall id :
  reads_only (_ensure_update_firewall id).
Proof.
  unfold _ensure_update_firewall.
  apply reads_only_bind; [apply reads_only_get_firewall|]. intros fw.
  destruct (decide _); [apply reads_only_raise | apply reads_only_ret].
Qed.

Lemma reads_only__ensure_update_firewall_policy id :
  reads_only (_ensure_update_firewall_policy id).
Proof.
  unfold _ensure_update_firewall_policy.
  apply reads_only_bind; [apply reads_only_get_firewall_policy|]. intros p.
  apply reads_only_for_each, reads_only__ensure_update_firewall.
Qed.

Lemma reads_only__ensure_update_firewall_rule id :
  reads_only (_ensure_update_firewall_rule id).
Proof.
  unfold _ensure_update_firewall_rule.
  apply reads_only_bind; [apply reads_only_get_firewall_rule|]. intros r.
  destruct (truthy _);
    [apply reads_only__ensure_update_firewall_policy | apply reads_only_ret].
Qed.

Lemma delete_db_firewall_object_Some w id row :
  firewalls w !! id = Some row ->
  delete_db_firewall_object id w =
  (Returns tt,
   if decide (fw_status row = PENDING_DELETE)
   then with_firewalls (delete id (firewalls w)) w
   else w).
Proof.
  intros H. unfold delete_db_firewall_object.
  rewrite (bind_returns _ _ _ _ _ (get_firewall_Some _ _ _ H)). cbn.
  destruct (decide (fw_status row = PENDING_DELETE)).
  - apply (delete_firewall_Some _ _ _ H).
  - reflexivity.
Qed.

Lemma delete_db_firewall_object_None w id :
  firewalls w !! id = None ->
  delete_db_firewall_object id w = (Raises (FirewallNotFound id), w).
Proof.
  intros H. unfold delete_db_firewall_object.
  apply bind_raises, get_firewall_None, H.
Qed.
End plugin_reads.

(** ** set_firewall_status *)

(** C3: for a firewall in PENDING_DELETE, set_firewall_status returns
    the failure flag and leaves the world (so the persisted status)
    unchanged, whatever status is reported; for a firewall in any other
    status, a reported ACTIVE or DOWN is persisted and the call returns
    success, and any other reported status makes the persisted status
    ERROR and the call returns failure. *)
Theorem set_firewall_status_spec (w : world) (firewall_id : string)
    (row : Firewall) (st : status) :
  firewalls w !! firewall_id = Some row ->
  (fw_status row = PENDING_DELETE ->
     FirewallCallbacks.set_firewall_status firewall_id st w = (Returns false, w))
  ∧ (fw_status row ≠ PENDING_DELETE -> st = ACTIVE ∨ st = DOWN ->
     FirewallCallbacks.set_firewall_status firewall_id st w =
     (Returns true,
      with_firewalls (<[firewall_id := with_status st row]> (firewalls w)) w))
  ∧ (fw_status row ≠ PENDING_DELETE -> st ≠ ACTIVE -> st ≠ DOWN ->
     FirewallCallbacks.set_firewall_status firewall_id st w =
     (Returns false,
      with_firewalls (<[firewall_id := with_status ERROR row]> (firewalls w)) w)).
Proof.
  intros H. unfold FirewallCallbacks.set_firewall_status.
  rewrite (bind_returns _ _ _ _ _ (_get_firewall_Some _ _ _ H)).
  split; [|split].
  - intros Hpd. destruct (decide (fw_status row = PENDING_DELETE)); [reflexivity | tauto].
  - intros Hpd Hst. destruct (decide (fw_status row = PENDING_DELETE)); [tauto|].
    destruct (decide (st = ACTIVE ∨ st = DOWN)); [|tauto].
    rewrite (bind_returns _ _ _ _ _ (set_status_Some _ _ _ st H)). reflexivity.
  - intros Hpd Ha Hd. destruct (decide (fw_status row = PENDING_DELETE)); [tauto|].
    destruct (decide (st = ACTIVE ∨ st = DOWN)); [tauto|].
    rewrite (bind_returns _ _ _ _ _ (set_status_Some _ _ _ ERROR H)). reflexivity.
Qed.

Lemma set_firewall_status_spec_witness :
  FirewallCallbacks.set_firewall_status "F" ACTIVE (world_F PENDING_CREATE ["R1"])
  = (Returns true, world_F ACTIVE ["R1"])
  ∧ FirewallCallbacks.set_firewall_status "F" ACTIVE (world_F PENDING_DELETE ["R1"])
    = (Returns false, world_F PENDING_DELETE ["R1"])
  ∧ FirewallCallbacks.set_firewall_status "F" INACTIVE (world_F PENDING_UPDATE ["R1"])
    = (Returns false, world_F ERROR ["R1"]).
Proof.
  split; [|split].
  - destruct (set_firewall_status_spec (world_F PENDING_CREATE ["R1"]) "F"
                (row_F PENDING_CREATE ["R1"]) ACTIVE) as (_ & H & _);
      [reflexivity|].
    rewrite H; [| discriminate | left; reflexivity]. vm_compute. reflexivity.
  - destruct (set_firewall_status_spec (world_F PENDING_DELETE ["R1"]) "F"
                (row_F PENDING_DELETE ["R1"]) ACTIVE) as (H & _);
      [reflexivity|].
    apply H. reflexivity.
  - destruct (set_firewall_status_spec (world_F PENDING_UPDATE ["R1"]) "F"
                (row_F PENDING_UPDATE ["R1"]) INACTIVE) as (_ & _ & H);
      [reflexivity|].
    rewrite H; [| discriminate ..]. vm_compute. reflexivity.
Defined.

(** ** Building the payload *)

Section payload.
Import FirewallPlugin.

Lemma map_each_get_firewall_rule w (l : list string) :
  (forall r, r ∈ l -> is_Some (firewall_rules w !! r)) ->
  map_each l Firewall_db_mixin.get_firewall_rule w =
  (Returns (rule_dicts (firewall_rules w) l), w).
Proof.
  induction l as [|r l IH]; intros Hl; [reflexivity|].
  destruct (Hl r) as [row Hrow]; [left|].
  cbn [map_each]. rewrite bind_run.
  unfold Firewall_db_mixin.get_firewall_rule at 1. unfold_monad.
  rewrite Hrow, IH by (intros; apply Hl; right; assumption).
  unfold rule_dicts. cbn. rewrite Hrow. reflexivity.
Qed.

Lemma _make_firewall_dict_with_rules_Some w id row :
  firewalls w !! id = Some row -> firewall_resolvable w row ->
  _make_firewall_dict_with_rules id w =
  (Returns (firewall_dict_of id row, rules_for w row), w).
Proof.
  intros H Hres. unfold _make_firewall_dict_with_rules, rules_for, policy_rule_dicts.
  rewrite (bind_returns _ _ _ _ _ (get_firewall_Some _ _ _ H)). cbn.
  destruct (truthy (fw_firewall_policy_id row)) as [pid|] eqn:Hpid;
    [|reflexivity].
  destruct (Hres pid Hpid) as (prow & Hprow & Hrules).
  rewrite bind_run. unfold Firewall_db_mixin.get_firewall_policy at 1.
  unfold_monad. rewrite Hprow. cbn.
  rewrite (map_each_get_firewall_rule _ _ Hrules). reflexivity.
Qed.

Lemma _make_firewall_dict_with_rules_None w id :
  firewalls w !! id = None ->
  _make_firewall_dict_with_rules id w = (Raises (FirewallNotFound id), w).
Proof.
  intros H. unfold _make_firewall_dict_with_rules.
  apply bind_raises, get_firewall_None, H.
Qed.
End payload.

(** ** delete_firewall and firewall_deleted, step by step *)

Section deletion.
Import FirewallPlugin FirewallCallbacks.

Lemma delete_firewall_run w id row :
  firewalls w !! id = Some row ->
  delete_firewall id w =
  match (_make_firewall_dict_with_rules id (marked_for_delete id row w)).1 with
  | Raises e => (Raises e, marked_for_delete id row w)
  | Returns fr =>
      if decide (fw_router_ids row = [])
      then (Returns tt, with_firewalls (delete id (firewalls w)) w)
      else (Returns tt,
            with_cast (cast_delete_firewall
                         (mkFwWithRules fr.1 fr.2 [] (fw_router_ids row) None))
                      (marked_for_delete id row w))
  end.
Proof.
  intros H. unfold delete_firewall.
  rewrite (bind_returns _ _ _ _ _
             (update_firewall_Some _ _ _ (status_update PENDING_DELETE) H)).
  change (Firewall_db_mixin.apply_fields (status_update PENDING_DELETE) row)
    with (with_status PENDING_DELETE row).
  fold (marked_for_delete id row w). cbn [d_id Firewall_db_mixin._make_firewall_dict].
  rewrite bind_run.
  rewrite (reads_only_run _ (marked_for_delete id row w)
             (reads_only__make_firewall_dict_with_rules id)).
  destruct (_make_firewall_dict_with_rules id (marked_for_delete id row w)).1
    as [fr|e]; [|reflexivity].
  assert (Hl : firewalls (marked_for_delete id row w) !! id
               = Some (with_status PENDING_DELETE row))
    by apply lookup_insert_eq.
  rewrite bind_run.
  unfold Firewall_db_mixin.get_firewall_routers at 1. unfold_monad.
  cbn [from_option]. rewrite Hl. cbn [from_option with_status fw_router_ids].
  destruct (decide (fw_router_ids row = [])); [|reflexivity].
  rewrite (delete_db_firewall_object_Some _ _ _ Hl).
  cbn. rewrite delete_insert_eq. reflexivity.
Qed.

Lemma delete_firewall_None w id :
  firewalls w !! id = None ->
  delete_firewall id w = (Raises (FirewallNotFound id), w).
Proof.
  intros H. unfold delete_firewall.
  apply bind_raises, update_firewall_None, H.
Qed.

Lemma firewall_deleted_block_Some w id row :
  firewalls w !! id = Some row ->
  firewall_deleted_block id w =
  if decide (fw_status row = PENDING_DELETE)
  then (Returns (Some true), with_firewalls (delete id (firewalls w)) w)
  else if decide (fw_status row = ERROR)
  then (Returns (Some true), w)
  else (Returns (Some false),
        with_firewalls (<[id := with_status ERROR row]> (firewalls w)) w).
Proof.
  intros H. unfold firewall_deleted_block.
  rewrite (bind_returns _ _ _ _ _ (_get_firewall_Some _ _ _ H)).
  destruct (decide (fw_status row = PENDING_DELETE)) as [Hpd|Hpd].
  - destruct (decide (_ ∨ _)); [|tauto].
    rewrite (bind_returns _ _ _ _ _ (delete_db_firewall_object_Some _ _ _ H)).
    destruct (decide (fw_status row = PENDING_DELETE)); [reflexivity | tauto].
  - destruct (decide (fw_status row = ERROR)) as [He|He].
    + destruct (decide (_ ∨ _)); [|tauto].
      rewrite (bind_returns _ _ _ _ _ (delete_db_firewall_object_Some _ _ _ H)).
      destruct (decide (fw_status row = PENDING_DELETE)); [tauto | reflexivity].
    + destruct (decide (_ ∨ _)); [tauto|].
      rewrite (bind_returns _ _ _ _ _ (set_status_Some _ _ _ ERROR H)).
      reflexivity.
Qed.

Lemma firewall_deleted_block_None w id :
  firewalls w !! id = None ->
  firewall_deleted_block id w = (Raises (FirewallNotFound id), w).
Proof.
  intros H. unfold firewall_deleted_block.
  apply bind_raises, _get_firewall_None, H.
Qed.

Lemma firewall_deleted_first w id :
  id ∉ firewall_deleted_ids w ->
  firewall_deleted id w = firewall_deleted_block id (with_deleted_id id w).
Proof.
  intros H. unfold firewall_deleted. unfold_monad.
  destruct (decide (id ∈ firewall_deleted_ids w)); [tauto | reflexivity].
Qed.

Lemma firewall_deleted_again w id :
  id ∈ firewall_deleted_ids w ->
  firewall_deleted id w = (Returns None, w).
Proof.
  intros H. unfold firewall_deleted. unfold_monad.
  destruct (decide (id ∈ firewall_deleted_ids w)); [reflexivity | tauto].
Qed.
End deletion.

(** ** firewall_deleted on first receipt *)

(** C4, where the code falls short of its own comment ("allow to
    delete firewalls in ERROR state"): on the first firewall_deleted
    call for a firewall whose status is ERROR the call returns success,
    but the record is not removed: it is still in the table, still in
    ERROR, because delete_db_firewall_object deletes only from
    PENDING_DELETE. *)
Theorem firewall_deleted_error_keeps_record :
  FirewallCallbacks.firewall_deleted "F" (world_F ERROR ["R1"]) =
  (Returns (Some true), with_deleted_id "F" (world_F ERROR ["R1"]))
  ∧ firewalls (FirewallCallbacks.firewall_deleted "F" (world_F ERROR ["R1"])).2
      !! "F" = Some (row_F ERROR ["R1"]).
Proof.
  assert (Hfirst : "F" ∉ firewall_deleted_ids (world_F ERROR ["R1"]))
    by (cbn; apply not_elem_of_nil).
  rewrite (firewall_deleted_first _ _ Hfirst).
  rewrite (firewall_deleted_block_Some _ "F" (row_F ERROR ["R1"]))
    by reflexivity.
  cbn. split; reflexivity.
Qed.

(** ** Where a record can be destroyed *)

(** C10: a firewall record is destroyed only while its persisted status
    is PENDING_DELETE.  delete_db_firewall_object re-reads the record
    and deletes it exactly when its status is PENDING_DELETE, leaving
    the world as it is otherwise; when firewall_deleted removes a
    record, the record was in PENDING_DELETE and the removal is the one
    delete_db_firewall_object makes; when delete_firewall removes a
    record, it had no routers and the removal is the one
    delete_db_firewall_object makes after PENDING_DELETE was persisted;
    neither touches the record of another firewall. *)
Theorem destroyed_only_in_pending_delete :
  (forall w id row,
     firewalls w !! id = Some row ->
     FirewallPlugin.delete_db_firewall_object id w =
     (Returns tt,
      if decide (fw_status row = PENDING_DELETE)
      then with_firewalls (delete id (firewalls w)) w
      else w))
  ∧ (forall w id row,
       firewalls w !! id = Some row ->
       firewalls (FirewallCallbacks.firewall_deleted id w).2 !! id = None ->
       fw_status row = PENDING_DELETE
       ∧ (FirewallCallbacks.firewall_deleted id w).2 =
         (FirewallPlugin.delete_db_firewall_object id (with_deleted_id id w)).2)
  ∧ (forall w id row,
       firewalls w !! id = Some row ->
       firewalls (FirewallPlugin.delete_firewall id w).2 !! id = None ->
       fw_router_ids row = []
       ∧ fw_status <$> firewalls (marked_for_delete id row w) !! id
         = Some PENDING_DELETE
       ∧ (FirewallPlugin.delete_firewall id w).2 =
         (FirewallPlugin.delete_db_firewall_object id
            (marked_for_delete id row w)).2)
  ∧ (forall w id id',
       id' ≠ id ->
       firewalls (FirewallCallbacks.firewall_deleted id w).2 !! id'
       = firewalls w !! id'
       ∧ firewalls (FirewallPlugin.delete_firewall id w).2 !! id'
         = firewalls w !! id').
Proof.
  split; [exact delete_db_firewall_object_Some|].
  split; [|split].
  - intros w id row H Hgone.
    destruct (decide (id ∈ firewall_deleted_ids w)) as [Hin|Hin].
    { rewrite (firewall_deleted_again _ _ Hin) in Hgone. cbn in Hgone. congruence. }
    rewrite (firewall_deleted_first _ _ Hin) in *.
    assert (H' : firewalls (with_deleted_id id w) !! id = Some row) by exact H.
    rewrite (firewall_deleted_block_Some _ _ _ H') in *.
    rewrite (delete_db_firewall_object_Some _ _ _ H').
    destruct (decide (fw_status row = PENDING_DELETE)); [split; [assumption | reflexivity]|].
    destruct (decide (fw_status row = ERROR)); cbn in Hgone.
    + congruence.
    + rewrite lookup_insert_eq in Hgone. discriminate.
  - intros w id row H Hgone.
    assert (Hl : firewalls (marked_for_delete id row w) !! id
                 = Some (with_status PENDING_DELETE row))
      by apply lookup_insert_eq.
    rewrite (delete_firewall_run _ _ _ H) in *.
    rewrite (delete_db_firewall_object_Some _ _ _ Hl).
    destruct (FirewallPlugin._make_firewall_dict_with_rules _ _).1 as [fr|e].
    + destruct (decide (fw_router_ids row = [])) as [Hr|Hr].
      * split; [assumption|]. split; [rewrite Hl; reflexivity|].
        cbn. rewrite delete_insert_eq. reflexivity.
      * cbn in Hgone. rewrite lookup_insert_eq in Hgone. discriminate.
    + cbn in Hgone. rewrite lookup_insert_eq in Hgone. discriminate.
  - intros w id id' Hne. split.
    + destruct (decide (id ∈ firewall_deleted_ids w)) as [Hin|Hin].
      { rewrite (firewall_deleted_again _ _ Hin). reflexivity. }
      rewrite (firewall_deleted_first _ _ Hin).
      destruct (firewalls w !! id) as [row|] eqn:H.
      * assert (H' : firewalls (with_deleted_id id w) !! id = Some row) by exact H.
        rewrite (firewall_deleted_block_Some _ _ _ H').
        repeat case_decide; cbn.
        -- apply lookup_delete_ne. congruence.
        -- reflexivity.
        -- apply lookup_insert_ne. congruence.
      * rewrite firewall_deleted_block_None by exact H. reflexivity.
    + destruct (firewalls w !! id) as [row|] eqn:H.
      * rewrite (delete_firewall_run _ _ _ H).
        destruct (FirewallPlugin._make_firewall_dict_with_rules _ _).1 as [fr|e].
        -- case_decide; cbn.
           ++ apply lookup_delete_ne. congruence.
           ++ apply lookup_insert_ne. congruence.
        -- cbn. apply lookup_insert_ne. congruence.
      * rewrite (delete_firewall_None _ _ H). reflexivity.
Qed.

Lemma destroyed_only_in_pending_delete_witness :
  FirewallPlugin.delete_db_firewall_object "F" (world_F ERROR []) =
  (Returns tt, world_F ERROR [])
  ∧ firewalls
      (FirewallCallbacks.firewall_deleted "F" (world_F PENDING_DELETE ["R1"])).2
      !! "F" = None
  ∧ fw_status (row_F PENDING_DELETE ["R1"]) = PENDING_DELETE.
Proof.
  destruct destroyed_only_in_pending_delete as (H1 & H2 & _).
  split; [|split].
  - rewrite (H1 _ "F" (row_F ERROR [])) by reflexivity. reflexivity.
  - vm_compute. reflexivity.
  - apply (H2 (world_F PENDING_DELETE ["R1"]) "F" (row_F PENDING_DELETE ["R1"])).
    + reflexivity.
    + vm_compute. reflexivity.
Defined.

(** ** delete_firewall *)

(** C5: delete_firewall first persists PENDING_DELETE, whatever the
    status was and whatever happens next; then a firewall without
    attached routers is destroyed at once and nothing is cast, and a
    firewall with routers gets a delete cast with del-router-ids = its
    current routers and add-router-ids = [] while its record stays in
    PENDING_DELETE. *)
Theorem delete_firewall_spec (w : world) (id : string) (row : Firewall) :
  firewalls w !! id = Some row ->
  (Firewall_db_mixin.update_firewall id
     (FirewallPlugin.status_update PENDING_DELETE) w).2
  = marked_for_delete id row w
  ∧ fw_status <$> firewalls (marked_for_delete id row w) !! id
    = Some PENDING_DELETE
  ∧ (forall out w',
       FirewallPlugin.delete_firewall id w = (out, w') ->
       firewalls w' !! id = None
       ∨ fw_status <$> firewalls w' !! id = Some PENDING_DELETE)
  ∧ (firewall_resolvable w row -> fw_router_ids row = [] ->
     FirewallPlugin.delete_firewall id w =
     (Returns tt, with_firewalls (delete id (firewalls w)) w)
     ∧ fanout (with_firewalls (delete id (firewalls w)) w) = fanout w)
  ∧ (firewall_resolvable w row -> fw_router_ids row ≠ [] ->
     FirewallPlugin.delete_firewall id w =
     (Returns tt,
      with_cast
        (cast_delete_firewall
           (mkFwWithRules (firewall_dict_of id (with_status PENDING_DELETE row))
                          (rules_for w row) [] (fw_router_ids row) None))
        (marked_for_delete id row w))).
Proof.
  intros H.
  assert (Hl : firewalls (marked_for_delete id row w) !! id
               = Some (with_status PENDING_DELETE row))
    by apply lookup_insert_eq.
  split; [|split; [|split; [|split]]].
  - rewrite (update_firewall_Some _ _ _ _ H). reflexivity.
  - rewrite Hl. reflexivity.
  - intros out w'. rewrite (delete_firewall_run _ _ _ H).
    destruct (FirewallPlugin._make_firewall_dict_with_rules _ _).1 as [fr|e].
    + case_decide; intros [= <- <-]; cbn.
      * left. apply lookup_delete_eq.
      * right. rewrite lookup_insert_eq. reflexivity.
    + intros [= <- <-]. right. rewrite Hl. reflexivity.
  - intros Hres Hr. split; [|reflexivity].
    rewrite (delete_firewall_run _ _ _ H).
    rewrite (_make_firewall_dict_with_rules_Some _ _ _ Hl) by exact Hres.
    cbn [fst]. case_decide; [reflexivity | tauto].
  - intros Hres Hr.
    rewrite (delete_firewall_run _ _ _ H).
    rewrite (_make_firewall_dict_with_rules_Some _ _ _ Hl) by exact Hres.
    cbn [fst]. case_decide; [tauto | reflexivity].
Qed.

Lemma world_F_resolvable st rtrs :
  firewall_resolvable (world_F st rtrs) (row_F st rtrs).
Proof.
  intros pid [= <-]. exists (mkFirewallPolicy "T" ["r1"]).
  split; [reflexivity|].
  intros r Hr. apply list_elem_of_singleton in Hr as ->.
  eexists. reflexivity.
Defined.

Lemma delete_firewall_spec_witness :
  FirewallPlugin.delete_firewall "F" (world_F ERROR []) =
  (Returns tt, with_firewalls ∅ (world_F ERROR []))
  ∧ exists p,
      FirewallPlugin.delete_firewall "F" (world_F ACTIVE ["R1"; "R2"]) =
      (Returns tt,
       with_cast (cast_delete_firewall p) (world_F PENDING_DELETE ["R1"; "R2"]))
      ∧ add_router_ids p = [] ∧ del_router_ids p = ["R1"; "R2"].
Proof.
  split.
  - destruct (delete_firewall_spec (world_F ERROR []) "F" (row_F ERROR []))
      as (_ & _ & _ & H & _); [reflexivity|].
    destruct H as [H _]; [apply world_F_resolvable | reflexivity |].
    rewrite H. vm_compute. reflexivity.
  - destruct (delete_firewall_spec (world_F ACTIVE ["R1"; "R2"]) "F"
                (row_F ACTIVE ["R1"; "R2"]))
      as (_ & _ & _ & _ & H); [reflexivity|].
    eexists. rewrite H; [| apply world_F_resolvable | discriminate].
    split; [|split]; [vm_compute; reflexivity | reflexivity | reflexivity].
Defined.

(** ** firewall_deleted, called again *)

Lemma firewall_deleted_block_ids w id :
  firewall_deleted_ids (FirewallCallbacks.firewall_deleted_block id w).2
  = firewall_deleted_ids w.
Proof.
  destruct (firewalls w !! id) as [row|] eqn:H.
  - rewrite (firewall_deleted_block_Some _ _ _ H).
    repeat case_decide; reflexivity.
  - rewrite (firewall_deleted_block_None _ _ H). reflexivity.
Qed.

(** C8 as stated fails: a second firewall_deleted for the same id does
    not look at the firewall at all.  With ["F"] back in ACTIVE, the
    second call answers None and leaves ACTIVE in place, where the
    validation of a first receipt would have flagged the report
    (failure, status ERROR). *)
Lemma firewall_deleted_second_call_no_validation :
  "F" ∈ firewall_deleted_ids world_active_again
  ∧ fw_status <$> firewalls world_active_again !! "F" = Some ACTIVE
  ∧ FirewallCallbacks.firewall_deleted "F" world_active_again
    = (Returns None, world_active_again)
  ∧ FirewallCallbacks.firewall_deleted_block "F" world_active_again
    = (Returns (Some false),
       with_firewalls {[ "F" := row_F ERROR ["R1"] ]} world_active_again)
  ∧ FirewallCallbacks.firewall_deleted "F" world_active_again
    ≠ FirewallCallbacks.firewall_deleted_block "F" world_active_again.
Proof.
  assert (Hin : "F" ∈ firewall_deleted_ids world_active_again)
    by (vm_compute; left).
  assert (Hrow : firewalls world_active_again !! "F" = Some (row_F ACTIVE ["R1"]))
    by (vm_compute; reflexivity).
  assert (Hblock : FirewallCallbacks.firewall_deleted_block "F" world_active_again
    = (Returns (Some false),
       with_firewalls {[ "F" := row_F ERROR ["R1"] ]} world_active_again)).
  { rewrite (firewall_deleted_block_Some _ _ _ Hrow). vm_compute. reflexivity. }
  split; [exact Hin|]. split; [rewrite Hrow; reflexivity|].
  split; [apply firewall_deleted_again, Hin|]. split; [exact Hblock|].
  rewrite Hblock, (firewall_deleted_again _ _ Hin). discriminate.
Qed.

(** C8, amended: firewall_deleted is idempotent in that a call leaves
    its id in firewall_deleted_ids (also when it raises), and a call for
    an id already in that list returns None and changes nothing: it
    never raises, never reaches the destruction logic, and does not read
    or validate the firewall; so calling it twice in a row ends in the
    world the first call left. *)
Theorem firewall_deleted_idempotent :
  (forall w id,
     id ∈ firewall_deleted_ids (FirewallCallbacks.firewall_deleted id w).2)
  ∧ (forall w id,
       id ∈ firewall_deleted_ids w ->
       FirewallCallbacks.firewall_deleted id w = (Returns None, w))
  ∧ (forall w id,
       FirewallCallbacks.firewall_deleted id
         (FirewallCallbacks.firewall_deleted id w).2
       = (Returns None, (FirewallCallbacks.firewall_deleted id w).2)).
Proof.
  assert (Hmem : forall w id,
    id ∈ firewall_deleted_ids (FirewallCallbacks.firewall_deleted id w).2).
  { intros w id. destruct (decide (id ∈ firewall_deleted_ids w)) as [Hin|Hin].
    - rewrite (firewall_deleted_again _ _ Hin). exact Hin.
    - rewrite (firewall_deleted_first _ _ Hin), firewall_deleted_block_ids.
      cbn. apply elem_of_app. right. left. }
  split; [exact Hmem|]. split; [exact firewall_deleted_again|].
  intros w id. apply firewall_deleted_again, Hmem.
Qed.

Lemma firewall_deleted_idempotent_witness :
  "F" ∈ firewall_deleted_ids world_after_first_report
  ∧ FirewallCallbacks.firewall_deleted "F" world_after_first_report
    = (Returns None, world_after_first_report).
Proof.
  destruct firewall_deleted_idempotent as (H1 & H2 & _).
  split.
  - apply (H1 (world_F ACTIVE ["R1"]) "F").
  - apply (H2 world_after_first_report "F"). vm_compute. left.
Defined.

(** ** update_firewall, step by step *)

Section update.
Import FirewallPlugin.

Lemma validate_cases w l fwid :
  Firewall_db_mixin.validate_firewall_routers_not_in_use l fwid w = (Returns tt, w)
  ∨ exists e,
      Firewall_db_mixin.validate_firewall_routers_not_in_use l fwid w
      = (Raises e, w).
Proof.
  unfold Firewall_db_mixin.validate_firewall_routers_not_in_use. unfold_monad.
  case_decide; [left; reflexivity | right; eexists; reflexivity].
Qed.

Lemma with_router_ids_same row : with_router_ids (fw_router_ids row) row = row.
Proof. destruct row; reflexivity. Qed.

Lemma update_firewall_routers_Some w id row l :
  firewalls w !! id = Some row ->
  Firewall_db_mixin.update_firewall_routers id l w =
  (Returns tt, with_firewalls (<[id := with_router_ids l row]> (firewalls w)) w).
Proof.
  intros H. unfold Firewall_db_mixin.update_firewall_routers,
    Firewall_db_mixin.set_routers_for_firewall.
  rewrite (bind_returns _ _ _ _ _ (_get_firewall_Some _ _ _ H)). reflexivity.
Qed.

Lemma update_tail_run w w1 id req row :
  firewalls w !! id = Some row ->
  w1 = with_firewalls
         (<[id := with_router_ids (new_routers req row) row]> (firewalls w)) w ->
  update_tail id req (fw_router_ids row) (new_routers req row) w1
  = update_result w id req row.
Proof.
  intros H ->. unfold update_tail, update_result.
  set (new := new_routers req row).
  set (w1 := with_firewalls (<[id := with_router_ids new row]> (firewalls w)) w).
  assert (H1 : firewalls w1 !! id = Some (with_router_ids new row))
    by apply lookup_insert_eq.
  assert (Hw : forall st,
    with_firewalls
      (<[id := Firewall_db_mixin.apply_fields
                 (mkFields (u_name req) (u_firewall_policy_id req) (Some st))
                 (with_router_ids new row)]> (firewalls w1)) w1
    = with_firewalls (<[id := row_after req st row]> (firewalls w)) w).
  { intros st. unfold with_firewalls, w1. cbn. rewrite insert_insert_eq.
    reflexivity. }
  case_decide.
  - rewrite (bind_returns _ _ _ _ _ (update_firewall_Some _ _ _ _ H1)).
    unfold_monad. rewrite Hw. reflexivity.
  - rewrite (bind_returns _ _ _ _ _ (update_firewall_Some _ _ _ _ H1)).
    rewrite Hw. cbn [set_router_ids d_id Firewall_db_mixin._make_firewall_dict].
    rewrite bind_run.
    rewrite (reads_only_run _ _ (reads_only__make_firewall_dict_with_rules id)).
    destruct (_make_firewall_dict_with_rules id _).1 as [fr|e]; reflexivity.
Qed.

Lemma update_firewall_run w id row req :
  firewalls w !! id = Some row ->
  ¬ is_pending (fw_status row) ->
  routers_accepted w id req ->
  update_firewall id req w = update_result w id req row.
Proof.
  intros H Hnp Hacc. unfold update_firewall.
  rewrite (bind_returns _ _ _ _ _ (_ensure_update_firewall_ok _ _ _ H Hnp)).
  rewrite bind_run.
  unfold Firewall_db_mixin.get_firewall_routers at 1.
  change ((w0 ← get_world; ret (from_option fw_router_ids [] (firewalls w0 !! id))) w)
    with (Returns (from_option fw_router_ids [] (firewalls w !! id)), w).
  rewrite H. cbn [from_option].
  fold (update_tail id req (fw_router_ids row)).
  rewrite <- (update_tail_run w _ id req row H eq_refl).
  unfold routers_accepted, new_routers in *.
  destruct (u_router_ids req) as [l|].
  - rewrite bind_run, bind_run.
    destruct (decide (l = [])) as [->|Hl].
    + change (ret [] w) with (Returns (@nil string), w). cbv beta iota.
      rewrite bind_run, (update_firewall_routers_Some _ _ _ _ H). reflexivity.
    + destruct Hacc as [?|Hv]; [tauto|].
      rewrite bind_run, Hv.
      change (ret l w) with (Returns l, w). cbv beta iota.
      rewrite bind_run, (update_firewall_routers_Some _ _ _ _ H). reflexivity.
  - rewrite bind_run.
    unfold Firewall_db_mixin.get_firewall_routers at 1.
    change ((w0 ← get_world; ret (from_option fw_router_ids [] (firewalls w0 !! id))) w)
      with (Returns (from_option fw_router_ids [] (firewalls w !! id)), w).
    rewrite H. cbn [from_option]. rewrite with_router_ids_same.
    rewrite (insert_id _ _ _ H).
    destruct w; reflexivity.
Qed.

(** When the guard or the validation stops [update_firewall], nothing
    has been written or cast. *)
Lemma update_firewall_stopped w id req :
  (firewalls w !! id = None
   ∨ (exists row, firewalls w !! id = Some row ∧ is_pending (fw_status row))
   ∨ ¬ routers_accepted w id req) ->
  exists e, update_firewall id req w = (Raises e, w).
Proof.
  intros Hstop. unfold update_firewall.
  destruct (firewalls w !! id) as [row|] eqn:H.
  2:{ eexists. apply bind_raises. unfold _ensure_update_firewall.
      apply bind_raises, get_firewall_None, H. }
  destruct (decide (is_pending (fw_status row))) as [Hp|Hnp].
  { eexists. apply bind_raises, (_ensure_update_firewall_pending _ _ _ H Hp). }
  destruct Hstop as [?|[(row' & [= <-] & ?)|Hacc]]; [congruence | tauto |].
  rewrite (bind_returns _ _ _ _ _ (_ensure_update_firewall_ok _ _ _ H Hnp)).
  unfold routers_accepted in Hacc.
  destruct (u_router_ids req) as [l|]; [|tauto].
  destruct (decide (l = [])) as [->|Hl]; [tauto|].
  destruct (validate_cases w l (Some id)) as [Hv|[e Hv]]; [tauto|].
  exists e. rewrite bind_run.
  change (Firewall_db_mixin.get_firewall_routers (KeyStr id) w)
    with (Returns (from_option fw_router_ids [] (firewalls w !! id)), w).
  cbv beta iota. rewrite bind_run, bind_run.
  destruct (decide (l = [])); [tauto|].
  rewrite bind_run, Hv. reflexivity.
Qed.

End update.

(** ** What update_firewall casts *)

Section update_casts.
Import FirewallPlugin.

(** Every cast of [update_firewall] is the one of [update_result]. *)
Lemma update_firewall_dispatch w id req :
  fanout (update_firewall id req w).2 ≠ fanout w ->
  exists row fw core rules,
    firewalls w !! id = Some row
    ∧ ¬ is_pending (fw_status row)
    ∧ update_firewall id req w =
      (Returns fw,
       with_cast
         (cast_update_firewall
            (mkFwWithRules core rules
               (router_diff
                  (set_iteration w (fw_router_ids row) (new_routers req row))
                  (fw_router_ids row) (new_routers req row)).1
               (router_diff
                  (set_iteration w (fw_router_ids row) (new_routers req row))
                  (fw_router_ids row) (new_routers req row)).2
               (Some (bool_decide (new_routers req row = [])))))
         (with_firewalls
            (<[id := row_after req PENDING_UPDATE row]> (firewalls w)) w)).
Proof.
  intros Hcast.
  destruct (firewalls w !! id) as [row|] eqn:H.
  2:{ destruct (update_firewall_stopped w id req) as [e He]; [tauto|].
      rewrite He in Hcast. cbn in Hcast. congruence. }
  destruct (decide (is_pending (fw_status row))) as [Hp|Hnp].
  { destruct (update_firewall_stopped w id req) as [e He]; [eauto|].
    rewrite He in Hcast. cbn in Hcast. congruence. }
  assert (Hacc : routers_accepted w id req).
  { destruct (u_router_ids req) as [l|] eqn:Hreq;
      unfold routers_accepted; rewrite Hreq; [|exact I].
    destruct (validate_cases w l (Some id)) as [Hv|[e Hv]]; [tauto|].
    destruct (decide (l = [])); [tauto|].
    destruct (update_firewall_stopped w id req) as [e' He].
    - right. right. unfold routers_accepted. rewrite Hreq, Hv.
      intros [?|?]; [tauto | discriminate].
    - rewrite He in Hcast. cbn in Hcast. congruence. }
  rewrite (update_firewall_run _ _ _ _ H Hnp Hacc) in *.
  unfold update_result in *.
  destruct (decide (new_routers req row = [] ∧ fw_router_ids row = [])).
  { cbn in Hcast. congruence. }
  cbv zeta in *.
  destruct (_make_firewall_dict_with_rules id _).1 as [fr|e].
  - exists row. eexists _, fr.1, fr.2. split; [reflexivity|]. split; [assumption|].
    reflexivity.
  - cbn in Hcast. congruence.
Qed.

Lemma router_diff_removed (order current desired : list string) :
  (list_to_set (router_diff order current desired).2 : gset string)
  = list_to_set current ∖ list_to_set desired.
Proof. unfold router_diff. cbn [snd]. apply list_to_set_py_list_of_set. Qed.

(** No listing of the removed routers is excluded: whichever order the
    interpreter uses, it is the one the payload has. *)
Lemma router_diff_any_order (l current desired : list string) :
  NoDup l ->
  (list_to_set l : gset string) = list_to_set current ∖ list_to_set desired ->
  (router_diff l current desired).2 = l.
Proof. intros Hnd Hset. unfold router_diff. cbn [snd]. apply py_list_of_set_any; assumption. Qed.

Lemma router_diff_two_orders :
  (router_diff ["R1"; "R3"] ["R1"; "R3"] []).2 = ["R1"; "R3"]
  ∧ (router_diff ["R3"; "R1"] ["R3"; "R1"] []).2 = ["R3"; "R1"].
Proof. split; vm_compute; reflexivity. Qed.

Lemma update_F_to_R2 :
  update_firewall "F" (mkUpdate None None (Some ["R2"]))
                  (world_F ACTIVE ["R1"; "R2"])
  = (Returns (firewall_dict_of "F" (row_F PENDING_UPDATE ["R2"])),
     with_cast (cast_update_firewall payload_F_to_R2)
               (world_F PENDING_UPDATE ["R2"])).
Proof. vm_compute. reflexivity. Qed.

End update_casts.

(** C2 as stated fails: updating ["F"], attached to R1 and R2, with
    [router_ids = [R2]] casts add-router-ids = [R2], while the
    difference desired minus current is empty. *)
Lemma update_firewall_add_is_whole_new_set :
  fanout (FirewallPlugin.update_firewall "F" (mkUpdate None None (Some ["R2"]))
            (world_F ACTIVE ["R1"; "R2"])).2
  = [cast_update_firewall payload_F_to_R2]
  ∧ add_router_ids payload_F_to_R2 = ["R2"]
  ∧ elements ((list_to_set ["R2"] : gset string) ∖ list_to_set ["R1"; "R2"]) = []
  ∧ add_router_ids payload_F_to_R2 ≠ [].
Proof.
  rewrite update_F_to_R2.
  split; [reflexivity|]. split; [reflexivity|].
  split; [vm_compute; reflexivity | discriminate].
Qed.

(** C2, amended: whenever update_firewall casts, it casts one update
    whose add-router-ids is the whole new attachment list (the request's
    router_ids, or the current routers when the request names none) and
    whose del-router-ids lists, without repetition, exactly the routers
    in current minus desired; updating a firewall attached to [R1,R2]
    with router_ids=[R2] casts add=[R2], del=[R1]. *)
Theorem update_firewall_payload :
  (forall w id req,
     fanout (FirewallPlugin.update_firewall id req w).2 ≠ fanout w ->
     exists row p,
       firewalls w !! id = Some row
       ∧ fanout (FirewallPlugin.update_firewall id req w).2
         = fanout w ++ [cast_update_firewall p]
       ∧ add_router_ids p = new_routers req row
       ∧ (list_to_set (del_router_ids p) : gset string)
         = list_to_set (fw_router_ids row) ∖ list_to_set (new_routers req row)
       ∧ NoDup (del_router_ids p))
  ∧ FirewallPlugin.update_firewall "F" (mkUpdate None None (Some ["R2"]))
      (world_F ACTIVE ["R1"; "R2"])
    = (Returns (firewall_dict_of "F" (row_F PENDING_UPDATE ["R2"])),
       with_cast (cast_update_firewall payload_F_to_R2)
                 (world_F PENDING_UPDATE ["R2"]))
  ∧ add_router_ids payload_F_to_R2 = ["R2"]
  ∧ del_router_ids payload_F_to_R2 = ["R1"].
Proof.
  split; [|split; [exact update_F_to_R2 | split; reflexivity]].
  intros w id req Hcast.
  destruct (update_firewall_dispatch w id req Hcast)
    as (row & fw & core & rules & H & _ & Hrun).
  exists row. eexists. split; [exact H|]. rewrite Hrun.
  split; [reflexivity|]. split; [reflexivity|].
  split; [apply router_diff_removed|].
  cbn [del_router_ids FirewallPlugin.router_diff snd].
  apply NoDup_py_list_of_set.
Qed.

Lemma update_firewall_payload_witness :
  fanout (FirewallPlugin.update_firewall "F" (mkUpdate None None (Some ["R2"]))
            (world_F ACTIVE ["R1"; "R2"])).2
  ≠ fanout (world_F ACTIVE ["R1"; "R2"])
  ∧ exists row p,
      firewalls (world_F ACTIVE ["R1"; "R2"]) !! "F" = Some row
      ∧ fanout (FirewallPlugin.update_firewall "F"
                  (mkUpdate None None (Some ["R2"]))
                  (world_F ACTIVE ["R1"; "R2"])).2
        = fanout (world_F ACTIVE ["R1"; "R2"]) ++ [cast_update_firewall p]
      ∧ add_router_ids p = ["R2"].
Proof.
  assert (Hcast :
    fanout (FirewallPlugin.update_firewall "F" (mkUpdate None None (Some ["R2"]))
              (world_F ACTIVE ["R1"; "R2"])).2
    ≠ fanout (world_F ACTIVE ["R1"; "R2"])) by (vm_compute; discriminate).
  split; [exact Hcast|].
  destruct update_firewall_payload as [Hgen _].
  destruct (Hgen _ _ _ Hcast) as (row & p & Hrow & Hfan & Hadd & _).
  exists row, p. split; [exact Hrow|]. split; [exact Hfan|].
  rewrite Hadd. cbn in Hrow. rewrite lookup_singleton_eq in Hrow.
  injection Hrow as <-. reflexivity.
Defined.

(** ** The router diff *)

(** C9: for every pair of router lists (current, desired), and whatever
    order the interpreter lists a set in, the added and removed routers
    the update flow computes are disjoint and desired = (current minus
    removed) union added, as sets; removed has no repetition; and when
    the inputs are listed in another order (the same sets of ids), the
    added and the removed routers are the same sets again.  They are
    what update_firewall puts in the payload whenever it casts. *)
Theorem router_diff_laws :
  (forall order current desired : list string,
     (list_to_set (FirewallPlugin.router_diff order current desired).1
        : gset string)
     ∩ list_to_set (FirewallPlugin.router_diff order current desired).2 = ∅
     ∧ (list_to_set desired : gset string)
       = (list_to_set current
          ∖ list_to_set (FirewallPlugin.router_diff order current desired).2)
         ∪ list_to_set (FirewallPlugin.router_diff order current desired).1
     ∧ NoDup (FirewallPlugin.router_diff order current desired).2)
  ∧ (forall order order' current desired current' desired' : list string,
       (list_to_set current : gset string) = list_to_set current' ->
       (list_to_set desired : gset string) = list_to_set desired' ->
       (list_to_set (FirewallPlugin.router_diff order current desired).1
          : gset string)
       = list_to_set (FirewallPlugin.router_diff order' current' desired').1
       ∧ (list_to_set (FirewallPlugin.router_diff order current desired).2
            : gset string)
         = list_to_set (FirewallPlugin.router_diff order' current' desired').2)
  ∧ (forall w id req,
       fanout (FirewallPlugin.update_firewall id req w).2 ≠ fanout w ->
       exists row p,
         firewalls w !! id = Some row
         ∧ fanout (FirewallPlugin.update_firewall id req w).2
           = fanout w ++ [cast_update_firewall p]
         ∧ (add_router_ids p, del_router_ids p)
           = FirewallPlugin.router_diff
               (set_iteration w (fw_router_ids row) (new_routers req row))
               (fw_router_ids row) (new_routers req row)).
Proof.
  split; [|split].
  - intros order current desired.
    rewrite router_diff_removed. cbn [fst FirewallPlugin.router_diff].
    split; [|split].
    + apply set_eq. intros x.
      rewrite elem_of_intersection, elem_of_difference, elem_of_empty. tauto.
    + apply set_eq. intros x.
      rewrite elem_of_union, !elem_of_difference.
      destruct (decide (x ∈ (list_to_set desired : gset string))); tauto.
    + apply NoDup_py_list_of_set.
  - intros order order' current desired current' desired' Hc Hd.
    rewrite !router_diff_removed. cbn [fst FirewallPlugin.router_diff].
    rewrite Hc, Hd. split; reflexivity.
  - intros w id req Hcast.
    destruct (update_firewall_dispatch w id req Hcast)
      as (row & fw & core & rules & H & _ & Hrun).
    exists row. eexists. split; [exact H|]. rewrite Hrun.
    split; [reflexivity|]. cbn [add_router_ids del_router_ids].
    destruct (FirewallPlugin.router_diff _ _ _); reflexivity.
Qed.

Lemma router_diff_laws_witness :
  (list_to_set ["R1"; "R2"; "R3"] : gset string) = list_to_set ["R3"; "R2"; "R1"]
  ∧ (list_to_set
       (FirewallPlugin.router_diff [] ["R1"; "R2"; "R3"] ["R2"]).2 : gset string)
    = list_to_set
        (FirewallPlugin.router_diff ["R3"] ["R3"; "R2"; "R1"] ["R2"]).2.
Proof.
  assert (H1 : (list_to_set ["R1"; "R2"; "R3"] : gset string)
               = list_to_set ["R3"; "R2"; "R1"]).
  { apply set_eq. intros x. rewrite !elem_of_list_to_set, !elem_of_cons.
    rewrite !elem_of_nil. tauto. }
  split; [exact H1|].
  destruct router_diff_laws as (_ & H & _).
  apply (H [] ["R3"] _ _ _ _ H1 eq_refl).
Defined.

(** ** No routers, no cast *)

Section no_routers.
Import FirewallPlugin.

Lemma reads_only_validate l fwid :
  reads_only (Firewall_db_mixin.validate_firewall_routers_not_in_use l fwid).
Proof.
  intros w. destruct (validate_cases w l fwid) as [H|[e H]];
    rewrite H; reflexivity.
Qed.

Lemma reads_only__get_routers_for_create_firewall tenant_id firewall :
  reads_only (_get_routers_for_create_firewall tenant_id firewall).
Proof.
  unfold _get_routers_for_create_firewall.
  destruct (c_router_ids firewall) as [| |l].
  - apply reads_only_ret.
  - apply reads_only_bind; [intros w; reflexivity|]. intros routers.
    apply reads_only_bind; [apply reads_only_validate|].
    intros _. apply reads_only_ret.
  - case_decide; [apply reads_only_ret|].
    apply reads_only_bind; [apply reads_only_validate|].
    intros _. apply reads_only_ret.
Qed.

Lemma create_firewall_no_routers w new_id req :
  (_get_routers_for_create_firewall (c_tenant_id req) req w).1 = Returns [] ->
  create_firewall new_id req w =
  match firewalls w !! new_id with
  | Some _ => (Raises (DBDuplicateEntry new_id), w)
  | None =>
      (Returns (firewall_dict_of new_id (created_inactive req)),
       with_firewalls (<[new_id := created_inactive req]> (firewalls w)) w)
  end.
Proof.
  intros Hres. unfold create_firewall. cbv zeta.
  rewrite bind_run.
  rewrite (reads_only_run _ w
             (reads_only__get_routers_for_create_firewall (c_tenant_id req) req)).
  rewrite Hres. case_decide; [|tauto].
  rewrite bind_run. unfold Firewall_db_mixin.create_firewall at 1.
  unfold_monad. destruct (firewalls w !! new_id); reflexivity.
Qed.

End no_routers.

(** C6: a create_firewall whose resolved attachment set is empty casts
    nothing and, the new id being free, persists the record as INACTIVE
    and returns it with no routers; an update_firewall of a firewall
    with no current routers whose new attachment set is empty (no
    router_ids in the request, or router_ids = []) casts nothing and,
    once past the pending guard, persists INACTIVE and returns the
    firewall with no routers. *)
Theorem no_routers_no_cast :
  (forall w new_id req,
     (FirewallPlugin._get_routers_for_create_firewall (c_tenant_id req) req w).1
     = Returns [] ->
     fanout (FirewallPlugin.create_firewall new_id req w).2 = fanout w
     ∧ (firewalls w !! new_id = None ->
        exists fw w',
          FirewallPlugin.create_firewall new_id req w = (Returns fw, w')
          ∧ fw_status <$> firewalls w' !! new_id = Some INACTIVE
          ∧ d_status fw = INACTIVE
          ∧ d_router_ids fw = Some []))
  ∧ (forall w id row req,
       firewalls w !! id = Some row ->
       fw_router_ids row = [] ->
       new_routers req row = [] ->
       fanout (FirewallPlugin.update_firewall id req w).2 = fanout w
       ∧ (¬ FirewallPlugin.is_pending (fw_status row) ->
          exists fw w',
            FirewallPlugin.update_firewall id req w = (Returns fw, w')
            ∧ fw_status <$> firewalls w' !! id = Some INACTIVE
            ∧ d_status fw = INACTIVE
            ∧ d_router_ids fw = Some [])).
Proof.
  split.
  - intros w new_id req Hres.
    rewrite (create_firewall_no_routers _ _ _ Hres).
    split.
    + destruct (firewalls w !! new_id); reflexivity.
    + intros ->. eexists _, _. split; [reflexivity|]. cbn.
      rewrite lookup_insert_eq. repeat split.
  - intros w id row req H Hcur Hnew.
    assert (Hacc : routers_accepted w id req).
    { unfold routers_accepted, new_routers in *.
      destruct (u_router_ids req); [left; assumption | exact I]. }
    assert (Hrun : ¬ FirewallPlugin.is_pending (fw_status row) ->
      FirewallPlugin.update_firewall id req w =
      (Returns (FirewallPlugin.set_router_ids
                  (Firewall_db_mixin._make_firewall_dict id
                     (row_after req INACTIVE row)) []),
       with_firewalls (<[id := row_after req INACTIVE row]> (firewalls w)) w)).
    { intros Hnp. rewrite (update_firewall_run _ _ _ _ H Hnp Hacc).
      unfold update_result. case_decide; [reflexivity | tauto]. }
    split.
    + destruct (decide (FirewallPlugin.is_pending (fw_status row))) as [Hp|Hnp].
      * destruct (update_firewall_stopped w id req) as [e He]; [eauto|].
        rewrite He. reflexivity.
      * rewrite (Hrun Hnp). reflexivity.
    + intros Hnp. eexists _, _. split; [exact (Hrun Hnp)|]. cbn.
      rewrite lookup_insert_eq. repeat split.
Qed.

Lemma no_routers_no_cast_witness :
  (FirewallPlugin._get_routers_for_create_firewall "T"
     (mkCreate "T" "fw2" (Some "P") (RouterIds [])) (world_F ACTIVE ["R1"])).1
  = Returns []
  ∧ fanout (FirewallPlugin.create_firewall "G"
              (mkCreate "T" "fw2" (Some "P") (RouterIds []))
              (world_F ACTIVE ["R1"])).2 = []
  ∧ fanout (FirewallPlugin.update_firewall "F" (mkUpdate None None (Some []))
              (world_F INACTIVE [])).2 = [].
Proof.
  destruct no_routers_no_cast as [Hc Hu].
  split; [reflexivity|]. split.
  - apply (Hc (world_F ACTIVE ["R1"]) "G"
              (mkCreate "T" "fw2" (Some "P") (RouterIds []))).
    reflexivity.
  - apply (Hu (world_F INACTIVE []) "F" (row_F INACTIVE [])
              (mkUpdate None None (Some []))); reflexivity.
Defined.

(** ** The pending guard *)

Section guard.
Import FirewallPlugin.

Lemma elem_of_firewall_list_of (fws : gmap string Firewall) pid f :
  f ∈ Firewall_db_mixin.firewall_list_of fws pid
  ↔ exists row, fws !! f = Some row ∧ fw_firewall_policy_id row = Some pid.
Proof.
  unfold Firewall_db_mixin.firewall_list_of.
  rewrite list_elem_of_fmap. split.
  - intros ([f' row] & -> & Hin).
    apply elem_of_map_to_list, map_lookup_filter_Some in Hin as [Hrow Hpid].
    exists row. split; assumption.
  - intros (row & Hrow & Hpid). exists (f, row). split; [reflexivity|].
    apply elem_of_map_to_list, map_lookup_filter_Some. split; assumption.
Qed.

Lemma NoDup_firewall_list_of (fws : gmap string Firewall) pid :
  NoDup (Firewall_db_mixin.firewall_list_of fws pid).
Proof. apply NoDup_fst_map_to_list. Qed.

(** The guard over a list of firewalls stops at the first pending one. *)
Lemma for_each_ensure_pending w (l : list string) :
  (forall f, f ∈ l -> is_Some (firewalls w !! f)) ->
  (exists f row, f ∈ l ∧ firewalls w !! f = Some row ∧ is_pending (fw_status row)) ->
  exists f row,
    f ∈ l ∧ firewalls w !! f = Some row ∧ is_pending (fw_status row)
    ∧ for_each l _ensure_update_firewall w
      = (Raises (FirewallInPendingState f (fw_status row)), w).
Proof.
  induction l as [|f0 l IH]; intros Hall (f & row & Hin & Hrow & Hp).
  { apply elem_of_nil in Hin as []. }
  destruct (Hall f0) as [row0 Hrow0]; [left|].
  cbn [for_each].
  destruct (decide (is_pending (fw_status row0))) as [Hp0|Hnp0].
  - exists f0, row0. split; [left|]. split; [assumption|]. split; [assumption|].
    apply bind_raises, (_ensure_update_firewall_pending _ _ _ Hrow0 Hp0).
  - rewrite (bind_returns _ _ _ _ _ (_ensure_update_firewall_ok _ _ _ Hrow0 Hnp0)).
    destruct IH as (f' & row' & Hin' & Hrow' & Hp' & Hrun).
    + intros g Hg. apply Hall. right. assumption.
    + apply elem_of_cons in Hin as [->|Hin].
      * rewrite Hrow0 in Hrow. injection Hrow as ->. tauto.
      * exists f, row. tauto.
    + exists f', row'. split; [right; assumption|]. tauto.
Qed.

Lemma for_each_ensure_ok w (l : list string) :
  (forall f, f ∈ l ->
     exists row, firewalls w !! f = Some row ∧ ¬ is_pending (fw_status row)) ->
  for_each l _ensure_update_firewall w = (Returns tt, w).
Proof.
  induction l as [|f0 l IH]; intros Hall; [reflexivity|].
  destruct (Hall f0) as (row0 & Hrow0 & Hnp0); [left|].
  cbn [for_each].
  rewrite (bind_returns _ _ _ _ _ (_ensure_update_firewall_ok _ _ _ Hrow0 Hnp0)).
  apply IH. intros g Hg. apply Hall. right. assumption.
Qed.

Lemma get_firewall_policy_Some w pid prow :
  firewall_policies w !! pid = Some prow ->
  Firewall_db_mixin.get_firewall_policy pid w =
  (Returns (mkPolicyDict pid (fwp_firewall_rules prow)
              (Firewall_db_mixin.firewall_list_of (firewalls w) pid)), w).
Proof.
  intros H. unfold Firewall_db_mixin.get_firewall_policy. unfold_monad.
  rewrite H. reflexivity.
Qed.

Lemma _ensure_update_firewall_policy_pending w pid prow f row :
  firewall_policies w !! pid = Some prow ->
  firewalls w !! f = Some row ->
  fw_firewall_policy_id row = Some pid ->
  is_pending (fw_status row) ->
  exists f' row',
    firewalls w !! f' = Some row' ∧ fw_firewall_policy_id row' = Some pid
    ∧ is_pending (fw_status row')
    ∧ _ensure_update_firewall_policy pid w
      = (Raises (FirewallInPendingState f' (fw_status row')), w).
Proof.
  intros Hprow Hrow Hpid Hp. unfold _ensure_update_firewall_policy.
  rewrite (bind_returns _ _ _ _ _ (get_firewall_policy_Some _ _ _ Hprow)).
  cbn [pd_firewall_list].
  destruct (for_each_ensure_pending w
              (Firewall_db_mixin.firewall_list_of (firewalls w) pid))
    as (f' & row' & Hin' & Hrow' & Hp' & Hrun).
  - intros g Hg. apply elem_of_firewall_list_of in Hg as (r & -> & _). eauto.
  - exists f, row. split; [|tauto].
    apply elem_of_firewall_list_of. eauto.
  - exists f', row'. apply elem_of_firewall_list_of in Hin' as (r & Hr & Hpid').
    rewrite Hrow' in Hr. injection Hr as <-. tauto.
Qed.

Lemma _ensure_update_firewall_rule_policy w rid rrow pid :
  firewall_rules w !! rid = Some rrow ->
  fwr_firewall_policy_id rrow = Some pid -> pid ≠ "" ->
  _ensure_update_firewall_rule rid w = _ensure_update_firewall_policy pid w.
Proof.
  intros Hrrow Hpid Hne. unfold _ensure_update_firewall_rule.
  rewrite bind_run. unfold Firewall_db_mixin.get_firewall_rule at 1.
  unfold_monad. rewrite Hrrow. cbn [rd_firewall_policy_id]. rewrite Hpid.
  unfold truthy. case_decide; [tauto | reflexivity].
Qed.

Lemma map_each_get_firewall_rule_outcome w (l : list string) :
  match (map_each l Firewall_db_mixin.get_firewall_rule w).1 with
  | Returns _ => True
  | Raises e => is_lookup_failure e
  end.
Proof.
  induction l as [|r l IH]; [exact I|].
  cbn [map_each]. rewrite bind_run.
  rewrite (reads_only_run _ w (reads_only_get_firewall_rule r)).
  unfold Firewall_db_mixin.get_firewall_rule at 1. unfold_monad.
  destruct (firewall_rules w !! r); [|exact I]. cbn [fst].
  rewrite (reads_only_run _ w
             (reads_only_map_each l _ reads_only_get_firewall_rule)).
  destruct (map_each l Firewall_db_mixin.get_firewall_rule w).1; [exact I | exact IH].
Qed.

(** Building the payload fails only on a failed lookup. *)
Lemma _make_firewall_dict_with_rules_outcome w id :
  match (_make_firewall_dict_with_rules id w).1 with
  | Returns _ => True
  | Raises e => is_lookup_failure e
  end.
Proof.
  unfold _make_firewall_dict_with_rules. rewrite bind_run.
  destruct (firewalls w !! id) as [row|] eqn:H.
  2:{ rewrite (get_firewall_None _ _ H). exact I. }
  rewrite (get_firewall_Some _ _ _ H).
  destruct (truthy _) as [pid|]; [|exact I].
  rewrite bind_run. unfold Firewall_db_mixin.get_firewall_policy at 1.
  unfold_monad. destruct (firewall_policies w !! pid) as [prow|]; [|exact I].
  cbn [pd_firewall_rules].
  pose proof (map_each_get_firewall_rule_outcome w (fwp_firewall_rules prow)) as Hm.
  rewrite (reads_only_run _ w
             (reads_only_map_each _ _ reads_only_get_firewall_rule)).
  destruct (map_each _ _ w).1; [exact I | exact Hm].
Qed.

Lemma delete_firewall_outcome w id :
  match (delete_firewall id w).1 with
  | Returns _ => True
  | Raises e => is_lookup_failure e
  end.
Proof.
  destruct (firewalls w !! id) as [row|] eqn:H.
  - rewrite (delete_firewall_run _ _ _ H).
    pose proof (_make_firewall_dict_with_rules_outcome
                  (marked_for_delete id row w) id) as Hm.
    destruct (_make_firewall_dict_with_rules id _).1; [|exact Hm].
    case_decide; exact I.
  - rewrite (delete_firewall_None _ _ H). exact I.
Qed.

End guard.

(** C1: for a firewall whose persisted status is PENDING_CREATE,
    PENDING_UPDATE or PENDING_DELETE, update_firewall on it, and
    update_firewall_policy, insert_rule and remove_rule on the policy it
    uses, and update_firewall_rule on a rule of that policy, raise
    FirewallInPendingState with the world exactly as it was (nothing
    persisted, nothing cast); delete_firewall never raises
    FirewallInPendingState and, whatever the status, returns. *)
Theorem pending_guard (w : world) (fid : string) (row : Firewall) :
  firewalls w !! fid = Some row ->
  (FirewallPlugin.is_pending (fw_status row) ->
   (forall req,
      FirewallPlugin.update_firewall fid req w
      = (Raises (FirewallInPendingState fid (fw_status row)), w))
   ∧ (forall pid prow edit,
        fw_firewall_policy_id row = Some pid ->
        firewall_policies w !! pid = Some prow ->
        exists f st,
          FirewallPlugin.is_pending st
          ∧ FirewallPlugin.update_firewall_policy pid edit w
            = (Raises (FirewallInPendingState f st), w)
          ∧ FirewallPlugin.insert_rule pid edit w
            = (Raises (FirewallInPendingState f st), w)
          ∧ FirewallPlugin.remove_rule pid edit w
            = (Raises (FirewallInPendingState f st), w))
   ∧ (forall rid rrow pid prow edit,
        firewall_rules w !! rid = Some rrow ->
        fwr_firewall_policy_id rrow = Some pid -> pid ≠ "" ->
        fw_firewall_policy_id row = Some pid ->
        firewall_policies w !! pid = Some prow ->
        exists f st,
          FirewallPlugin.is_pending st
          ∧ FirewallPlugin.update_firewall_rule rid edit w
            = (Raises (FirewallInPendingState f st), w)))
  ∧ (forall f st,
       (FirewallPlugin.delete_firewall fid w).1
       ≠ Raises (FirewallInPendingState f st))
  ∧ (firewall_resolvable w row ->
     exists w', FirewallPlugin.delete_firewall fid w = (Returns tt, w')).
Proof.
  intros H. split; [|split].
  - intros Hp. split; [|split].
    + intros req. unfold FirewallPlugin.update_firewall.
      apply bind_raises, (_ensure_update_firewall_pending _ _ _ H Hp).
    + intros pid prow edit Hpid Hprow.
      destruct (_ensure_update_firewall_policy_pending w pid prow fid row
                  Hprow H Hpid Hp) as (f' & row' & _ & _ & Hp' & Hrun).
      exists f', (fw_status row'). split; [exact Hp'|].
      split; [|split]; apply bind_raises, Hrun.
    + intros rid rrow pid prow edit Hrrow Hrpid Hne Hpid Hprow.
      destruct (_ensure_update_firewall_policy_pending w pid prow fid row
                  Hprow H Hpid Hp) as (f' & row' & _ & _ & Hp' & Hrun).
      exists f', (fw_status row'). split; [exact Hp'|].
      apply bind_raises.
      rewrite (_ensure_update_firewall_rule_policy _ _ _ _ Hrrow Hrpid Hne).
      exact Hrun.
  - intros f st Heq. pose proof (delete_firewall_outcome w fid) as Hout.
    rewrite Heq in Hout. exact Hout.
  - intros Hres. rewrite (delete_firewall_run _ _ _ H).
    assert (Hl : firewalls (marked_for_delete fid row w) !! fid
                 = Some (with_status PENDING_DELETE row))
      by apply lookup_insert_eq.
    rewrite (_make_firewall_dict_with_rules_Some _ _ _ Hl) by exact Hres.
    cbn [fst]. case_decide; eexists; reflexivity.
Qed.

Lemma pending_guard_witness :
  FirewallPlugin.update_firewall "F" (mkUpdate (Some "renamed") None None)
    (world_F PENDING_UPDATE ["R1"])
  = (Raises (FirewallInPendingState "F" PENDING_UPDATE),
     world_F PENDING_UPDATE ["R1"])
  ∧ (exists f st,
       FirewallPlugin.is_pending st
       ∧ FirewallPlugin.update_firewall_rule "r1" Some
           (world_F PENDING_UPDATE ["R1"])
         = (Raises (FirewallInPendingState f st), world_F PENDING_UPDATE ["R1"]))
  ∧ (exists w',
       FirewallPlugin.delete_firewall "F" (world_F PENDING_UPDATE ["R1"])
       = (Returns tt, w')).
Proof.
  destruct (pending_guard (world_F PENDING_UPDATE ["R1"]) "F"
              (row_F PENDING_UPDATE ["R1"])) as (Hpend & _ & Hdel);
    [reflexivity|].
  destruct Hpend as (Hupd & _ & Hrule); [right; left; reflexivity|].
  split; [apply Hupd|]. split.
  - apply (Hrule "r1" (mkFirewallRule "allow tcp/22" (Some "P")) "P"
                 (mkFirewallPolicy "T" ["r1"]) Some);
      [reflexivity | reflexivity | discriminate | reflexivity | reflexivity].
  - apply Hdel, world_F_resolvable.
Defined.

(** ** Fan-out of policy and rule edits *)

Section fan_out.
Import FirewallPlugin.

Lemma _rpc_update_firewall_run w f row a :
  firewalls w !! f = Some row -> firewall_resolvable w row ->
  builtin_id_routers w = Some a ->
  _rpc_update_firewall f w =
  (Returns tt,
   with_cast (cast_update_firewall (rpc_payload w f row))
     (with_firewalls (<[f := with_status PENDING_UPDATE row]> (firewalls w)) w)).
Proof.
  intros H Hres Ha. unfold _rpc_update_firewall.
  rewrite (bind_returns _ _ _ _ _
             (update_firewall_Some _ _ _ (status_update PENDING_UPDATE) H)).
  change (Firewall_db_mixin.apply_fields (status_update PENDING_UPDATE) row)
    with (with_status PENDING_UPDATE row).
  set (w1 := with_firewalls _ w).
  assert (Hl : firewalls w1 !! f = Some (with_status PENDING_UPDATE row))
    by apply lookup_insert_eq.
  rewrite (bind_returns _ _ _ _ _
             (_make_firewall_dict_with_rules_Some _ _ _ Hl Hres)).
  rewrite bind_run. unfold Firewall_db_mixin.get_firewall_routers at 1.
  unfold_monad. unfold rpc_payload.
  change (builtin_id_routers w1) with (builtin_id_routers w).
  rewrite Ha. reflexivity.
Qed.

Lemma rpc_payloads_ext w1 w (l : list string) :
  builtin_id_routers w1 = builtin_id_routers w ->
  firewall_policies w1 = firewall_policies w ->
  firewall_rules w1 = firewall_rules w ->
  (forall f, f ∈ l -> firewalls w1 !! f = firewalls w !! f) ->
  rpc_payloads w1 l = rpc_payloads w l.
Proof.
  intros Hb Hp Hr. induction l as [|f l IH]; intros Hl; [reflexivity|].
  unfold rpc_payloads in *. cbn [omap list_omap].
  rewrite (Hl f) by left. rewrite IH by (intros; apply Hl; right; assumption).
  destruct (firewalls w !! f) as [row|]; [|reflexivity].
  cbn. unfold rpc_payload, rules_for, policy_rule_dicts.
  rewrite Hb, Hp, Hr. reflexivity.
Qed.

Lemma for_each_rpc w (l : list string) a :
  builtin_id_routers w = Some a ->
  NoDup l ->
  (forall f, f ∈ l ->
     exists row, firewalls w !! f = Some row ∧ firewall_resolvable w row) ->
  exists w',
    for_each l _rpc_update_firewall w = (Returns tt, w')
    ∧ firewall_policies w' = firewall_policies w
    ∧ firewall_rules w' = firewall_rules w
    ∧ (forall f,
         firewalls w' !! f =
         if decide (f ∈ l)
         then with_status PENDING_UPDATE <$> firewalls w !! f
         else firewalls w !! f)
    ∧ fanout w' = fanout w ++ (cast_update_firewall <$> rpc_payloads w l).
Proof.
  revert w. induction l as [|f0 l IH]; intros w Ha Hnd Hall.
  { exists w. split; [reflexivity|]. split; [reflexivity|]. split; [reflexivity|].
    split; [|cbn; rewrite app_nil_r; reflexivity].
    intros f. case_decide as Hin; [apply elem_of_nil in Hin as [] | reflexivity]. }
  apply NoDup_cons in Hnd as [Hnotin Hnd].
  destruct (Hall f0) as (row0 & Hrow0 & Hres0); [left|].
  set (w1 := with_cast (cast_update_firewall (rpc_payload w f0 row0))
               (with_firewalls
                  (<[f0 := with_status PENDING_UPDATE row0]> (firewalls w)) w)).
  assert (Hother : forall f, f ∈ l -> firewalls w1 !! f = firewalls w !! f).
  { intros f Hf. apply lookup_insert_ne. intros ->. tauto. }
  destruct (IH w1 Ha Hnd) as (w' & Hrun & Hpol & Hrul & Hfws & Hfan).
  { intros f Hf. destruct (Hall f) as (row & Hrow & Hres); [right; assumption|].
    exists row. split; [rewrite Hother; assumption | exact Hres]. }
  exists w'. cbn [for_each].
  rewrite (bind_returns _ _ _ _ _
             (_rpc_update_firewall_run _ _ _ _ Hrow0 Hres0 Ha)).
  fold w1. split; [exact Hrun|]. split; [exact Hpol|]. split; [exact Hrul|].
  split.
  - intros f. rewrite Hfws.
    destruct (decide (f = f0)) as [->|Hne].
    + rewrite decide_False by assumption. rewrite decide_True by left.
      cbn. rewrite lookup_insert_eq, Hrow0. reflexivity.
    + assert (Hl : firewalls w1 !! f = firewalls w !! f)
        by (apply lookup_insert_ne; congruence).
      rewrite Hl. destruct (decide (f ∈ l)) as [Hin|Hin].
      * rewrite decide_True by (right; assumption). reflexivity.
      * rewrite decide_False; [reflexivity|].
        intros [?|?]%elem_of_cons; tauto.
  - rewrite Hfan.
    rewrite (rpc_payloads_ext w1 w l eq_refl eq_refl eq_refl Hother).
    unfold rpc_payloads at 2. cbn [omap list_omap]. rewrite Hrow0.
    cbn. rewrite <- app_assoc. reflexivity.
Qed.

Lemma rpc_payloads_ids w (l : list string) :
  (forall f, f ∈ l -> is_Some (firewalls w !! f)) ->
  (fun p => d_id (firewall_core p)) <$> rpc_payloads w l = l.
Proof.
  induction l as [|f l IH]; intros Hall; [reflexivity|].
  destruct (Hall f) as [row Hrow]; [left|].
  unfold rpc_payloads in *. cbn [omap list_omap]. rewrite Hrow. cbn.
  f_equal. apply IH. intros; apply Hall; right; assumption.
Qed.

Lemma rpc_payloads_Forall w pid (l : list string) a :
  builtin_id_routers w = Some a ->
  pid ≠ "" ->
  (forall f, f ∈ l ->
     exists row, firewalls w !! f = Some row
                 ∧ fw_firewall_policy_id row = Some pid) ->
  Forall (fun p =>
            add_router_ids p = a ∧ del_router_ids p = []
            ∧ d_status (firewall_core p) = PENDING_UPDATE
            ∧ d_router_ids (firewall_core p)
              = fw_router_ids <$> firewalls w !! d_id (firewall_core p)
            ∧ firewall_rule_list p = policy_rule_dicts w pid)
         (rpc_payloads w l).
Proof.
  intros Ha Hne. induction l as [|f l IH]; intros Hall; [constructor|].
  destruct (Hall f) as (row & Hrow & Hpid); [left|].
  unfold rpc_payloads in *. cbn [omap list_omap]. rewrite Hrow. cbn [fmap option_fmap option_map].
  constructor; [|apply IH; intros; apply Hall; right; assumption].
  cbn. rewrite Hrow, Ha. repeat split.
  unfold rules_for, policy_rule_dicts, truthy. rewrite Hpid.
  case_decide; [tauto | reflexivity].
Qed.

(** The fan-out of [_rpc_update_firewall_policy] from a world in which
    the policy can be read with its rules. *)
Lemma _rpc_update_firewall_policy_run w1 pid a :
  builtin_id_routers w1 = Some a ->
  pid ≠ "" -> policy_resolvable w1 pid ->
  exists w',
    _rpc_update_firewall_policy pid w1 = (Returns tt, w')
    ∧ fanned_out w1 w' pid a.
Proof.
  intros Ha Hne Hres. pose proof Hres as (prow & Hprow & Hrules).
  unfold _rpc_update_firewall_policy.
  rewrite (bind_returns _ _ _ _ _ (get_firewall_policy_Some _ _ _ Hprow)).
  cbn [pd_firewall_list].
  set (fl := Firewall_db_mixin.firewall_list_of (firewalls w1) pid).
  assert (Hfl : forall f, f ∈ fl ->
    exists row, firewalls w1 !! f = Some row
                ∧ fw_firewall_policy_id row = Some pid)
    by (intros f Hf; apply elem_of_firewall_list_of; exact Hf).
  destruct (for_each_rpc w1 fl a Ha) as (w' & Hrun & Hpol & Hrul & Hfws & Hfan).
  { apply NoDup_firewall_list_of. }
  { intros f Hf. destruct (Hfl f Hf) as (row & Hrow & Hpid).
    exists row. split; [exact Hrow|].
    intros pid'. unfold truthy. rewrite Hpid.
    case_decide; [discriminate|]. intros [= <-]. exact Hres. }
  exists w'. split; [exact Hrun|].
  split; [exact Hpol|]. split; [exact Hrul|]. split.
  - intros f row Hrow. rewrite Hfws, Hrow.
    destruct (decide (f ∈ fl)) as [Hin|Hin].
    + destruct (Hfl f Hin) as (row' & Hrow' & Hpid).
      rewrite Hrow in Hrow'. injection Hrow' as <-.
      rewrite decide_True by assumption. reflexivity.
    + rewrite decide_False; [reflexivity|].
      intros Hpid. apply Hin, elem_of_firewall_list_of. eauto.
  - exists (rpc_payloads w1 fl). split; [exact Hfan|]. split.
    + apply rpc_payloads_ids. intros f Hf.
      destruct (Hfl f Hf) as (row & Hrow & _). eauto.
    + apply (rpc_payloads_Forall _ _ _ a); assumption.
Qed.

Lemma apply_edit_Some w edit ps :
  edit (firewall_policies w, firewall_rules w) = Some ps ->
  Firewall_db_mixin.apply_edit edit w = (Returns tt, with_policy_store ps w).
Proof.
  intros H. unfold Firewall_db_mixin.apply_edit. unfold_monad.
  rewrite H. reflexivity.
Qed.

End fan_out.

(** X18: the fan-out of a policy or rule edit asks the association
    store for the routers under Python's builtin id, not under the
    firewall's id.  When update_firewall_policy, insert_rule or
    remove_rule on a policy, or update_firewall_rule on a rule of the
    policy, passes the pending guard, the store applies the edit and
    answers that lookup with a list, every firewall that references the
    policy is set to PENDING_UPDATE with its attachments unchanged, and
    one update is cast per referencing firewall, with that same list as
    add-router-ids whatever the firewall's own routers are, with
    del-router-ids = [] and carrying the rule list of the edited
    policy. *)
Theorem policy_edit_fan_out (w : world) (pid : string) (edit : store_edit)
    (ps : gmap string FirewallPolicy * gmap string FirewallRule)
    (a : list string) :
  builtin_id_routers w = Some a ->
  pid ≠ "" ->
  edit (firewall_policies w, firewall_rules w) = Some ps ->
  policy_resolvable (with_policy_store ps w) pid ->
  (FirewallPlugin._ensure_update_firewall_policy pid w = (Returns tt, w) ->
   (exists fwp w',
      FirewallPlugin.update_firewall_policy pid edit w = (Returns fwp, w')
      ∧ fanned_out (with_policy_store ps w) w' pid a)
   ∧ (exists fwp w',
        FirewallPlugin.insert_rule pid edit w = (Returns fwp, w')
        ∧ fanned_out (with_policy_store ps w) w' pid a)
   ∧ (exists fwp w',
        FirewallPlugin.remove_rule pid edit w = (Returns fwp, w')
        ∧ fanned_out (with_policy_store ps w) w' pid a))
  ∧ (forall rid rrow,
       FirewallPlugin._ensure_update_firewall_rule rid w = (Returns tt, w) ->
       ps.2 !! rid = Some rrow ->
       fwr_firewall_policy_id rrow = Some pid ->
       exists fwr w',
         FirewallPlugin.update_firewall_rule rid edit w = (Returns fwr, w')
         ∧ fanned_out (with_policy_store ps w) w' pid a).
Proof.
  intros Ha Hne Hedit Hres.
  destruct (_rpc_update_firewall_policy_run (with_policy_store ps w) pid a
              Ha Hne Hres) as (w' & Hrpc & Hfan).
  pose proof Hres as (prow & Hprow & _).
  split.
  - intros Hguard.
    assert (Hstore : forall op,
      op = Firewall_db_mixin.update_firewall_policy
      ∨ op = Firewall_db_mixin.insert_rule
      ∨ op = Firewall_db_mixin.remove_rule ->
      exists fwp, op pid edit w = (Returns fwp, with_policy_store ps w)).
    { intros op [-> | [-> | ->]]; eexists;
        unfold Firewall_db_mixin.update_firewall_policy,
          Firewall_db_mixin.insert_rule, Firewall_db_mixin.remove_rule;
        rewrite (bind_returns _ _ _ _ _ (apply_edit_Some _ _ _ Hedit));
        apply (get_firewall_policy_Some _ _ _ Hprow). }
    split; [|split].
    + destruct (Hstore _ (or_introl eq_refl)) as [fwp Hop].
      exists fwp, w'. split; [|exact Hfan].
      unfold FirewallPlugin.update_firewall_policy.
      rewrite (bind_returns _ _ _ _ _ Hguard), (bind_returns _ _ _ _ _ Hop).
      rewrite (bind_returns _ _ _ _ _ Hrpc). reflexivity.
    + destruct (Hstore _ (or_intror (or_introl eq_refl))) as [fwp Hop].
      exists fwp, w'. split; [|exact Hfan].
      unfold FirewallPlugin.insert_rule.
      rewrite (bind_returns _ _ _ _ _ Hguard), (bind_returns _ _ _ _ _ Hop).
      rewrite (bind_returns _ _ _ _ _ Hrpc). reflexivity.
    + destruct (Hstore _ (or_intror (or_intror eq_refl))) as [fwp Hop].
      exists fwp, w'. split; [|exact Hfan].
      unfold FirewallPlugin.remove_rule.
      rewrite (bind_returns _ _ _ _ _ Hguard), (bind_returns _ _ _ _ _ Hop).
      rewrite (bind_returns _ _ _ _ _ Hrpc). reflexivity.
  - intros rid rrow Hguard Hrrow Hrpid.
    exists (rule_dict_of rid rrow), w'. split; [|exact Hfan].
    unfold FirewallPlugin.update_firewall_rule.
    rewrite (bind_returns _ _ _ _ _ Hguard).
    unfold Firewall_db_mixin.update_firewall_rule.
    rewrite bind_run.
    rewrite (bind_returns _ _ _ _ _ (apply_edit_Some _ _ _ Hedit)).
    unfold Firewall_db_mixin.get_firewall_rule. unfold_monad.
    change (firewall_rules (with_policy_store ps w)) with ps.2.
    rewrite Hrrow. cbn [rd_firewall_policy_id]. rewrite Hrpid.
    unfold truthy. rewrite decide_False by assumption.
    rewrite Hrpc. unfold rule_dict_of. rewrite Hrpid. reflexivity.
Qed.

Lemma store_with_r2_resolvable :
  policy_resolvable (with_policy_store store_with_r2 (world_F ACTIVE ["R1"])) "P".
Proof.
  exists (mkFirewallPolicy "T" ["r2"; "r1"]). split; [reflexivity|].
  intros r Hr. cbn in Hr.
  apply elem_of_cons in Hr as [->|Hr]; [eexists; reflexivity|].
  apply list_elem_of_singleton in Hr as ->. eexists. reflexivity.
Defined.

Lemma policy_edit_fan_out_witness :
  FirewallPlugin._ensure_update_firewall_policy "P" world_F_stray
  = (Returns tt, world_F_stray)
  ∧ exists fwp w',
      FirewallPlugin.insert_rule "P" edit_insert_r2 world_F_stray
      = (Returns fwp, w')
      ∧ fanned_out (with_policy_store store_with_r2 world_F_stray) w' "P" ["R9"].
Proof.
  assert (Hguard :
    FirewallPlugin._ensure_update_firewall_policy "P" world_F_stray
    = (Returns tt, world_F_stray)) by (vm_compute; reflexivity).
  split; [exact Hguard|].
  destruct (policy_edit_fan_out world_F_stray "P" edit_insert_r2
              store_with_r2 ["R9"]) as [Hpol _];
    [reflexivity | discriminate | reflexivity
     | apply store_with_r2_resolvable |].
  destruct (Hpol Hguard) as (_ & Hins & _). exact Hins.
Defined.

(** * Further properties of the code *)

(** ** The callbacks, beyond the status column *)

Section callbacks_more.
Import FirewallCallbacks.

Lemma set_firewall_status_run w id row st :
  firewalls w !! id = Some row ->
  set_firewall_status id st w =
  if decide (fw_status row = PENDING_DELETE) then (Returns false, w)
  else if decide (st = ACTIVE ∨ st = DOWN)
  then (Returns true,
        with_firewalls (<[id := with_status st row]> (firewalls w)) w)
  else (Returns false,
        with_firewalls (<[id := with_status ERROR row]> (firewalls w)) w).
Proof.
  intros H. unfold set_firewall_status.
  rewrite (bind_returns _ _ _ _ _ (_get_firewall_Some _ _ _ H)).
  destruct (decide (fw_status row = PENDING_DELETE)); [reflexivity|].
  destruct (decide (st = ACTIVE ∨ st = DOWN)).
  - rewrite (bind_returns _ _ _ _ _ (set_status_Some _ _ _ st H)). reflexivity.
  - rewrite (bind_returns _ _ _ _ _ (set_status_Some _ _ _ ERROR H)). reflexivity.
Qed.

Lemma set_firewall_status_None w id st :
  firewalls w !! id = None ->
  set_firewall_status id st w = (Raises (FirewallNotFound id), w).
Proof.
  intros H. unfold set_firewall_status.
  apply bind_raises, _get_firewall_None, H.
Qed.

Lemma same_but_status_refl row : same_but_status row row.
Proof. destruct row; reflexivity. Qed.

Lemma only_statuses_changed_refl w : only_statuses_changed w w.
Proof.
  repeat split. intros f row' H. exists row'.
  split; [exact H | apply same_but_status_refl].
Qed.

Lemma only_statuses_changed_insert w id row st :
  firewalls w !! id = Some row ->
  only_statuses_changed w
    (with_firewalls (<[id := with_status st row]> (firewalls w)) w).
Proof.
  intros H. repeat split. intros f row'. cbn.
  rewrite lookup_insert. case_decide as Hf.
  - subst f. intros [= <-]. exists row. split; [exact H | reflexivity].
  - intros H'. exists row'. split; [exact H' | apply same_but_status_refl].
Qed.

Lemma only_statuses_changed_delete w id :
  only_statuses_changed w (with_firewalls (delete id (firewalls w)) w).
Proof.
  repeat split. intros f row'. cbn.
  rewrite lookup_delete. case_decide; [discriminate|].
  intros H'. exists row'. split; [exact H' | apply same_but_status_refl].
Qed.

Lemma only_statuses_changed_deleted_id w w' id :
  only_statuses_changed (with_deleted_id id w) w' -> only_statuses_changed w w'.
Proof. intros H. exact H. Qed.

End callbacks_more.

(** X1: set_firewall_status and firewall_deleted never cast anything
    and never change the policy table, the rule table or any column of
    a firewall record other than its status: whatever they answer,
    every record still in the table has the tenant, name, policy and
    attached routers it had. *)
Theorem callbacks_change_only_statuses :
  (forall w id st,
     only_statuses_changed w (FirewallCallbacks.set_firewall_status id st w).2
     ∧ firewall_deleted_ids (FirewallCallbacks.set_firewall_status id st w).2
       = firewall_deleted_ids w)
  ∧ (forall w id,
       only_statuses_changed w (FirewallCallbacks.firewall_deleted id w).2).
Proof.
  split.
  - intros w id st. destruct (firewalls w !! id) as [row|] eqn:H.
    + rewrite (set_firewall_status_run _ _ _ _ H).
      repeat case_decide; cbn [snd]; split; try reflexivity.
      * apply only_statuses_changed_refl.
      * apply only_statuses_changed_insert, H.
      * apply only_statuses_changed_insert, H.
    + rewrite (set_firewall_status_None _ _ _ H).
      split; [apply only_statuses_changed_refl | reflexivity].
  - intros w id. destruct (decide (id ∈ firewall_deleted_ids w)) as [Hin|Hin].
    { rewrite (firewall_deleted_again _ _ Hin). apply only_statuses_changed_refl. }
    rewrite (firewall_deleted_first _ _ Hin).
    apply (only_statuses_changed_deleted_id _ _ id).
    destruct (firewalls w !! id) as [row|] eqn:H.
    + assert (H' : firewalls (with_deleted_id id w) !! id = Some row) by exact H.
      rewrite (firewall_deleted_block_Some _ _ _ H').
      repeat case_decide; cbn [snd].
      * apply (only_statuses_changed_delete (with_deleted_id id w)).
      * apply only_statuses_changed_refl.
      * apply (only_statuses_changed_insert (with_deleted_id id w)), H'.
    + rewrite firewall_deleted_block_None by exact H.
      apply only_statuses_changed_refl.
Qed.

(** ** Deleting, end to end *)

Section delete_more.
Import FirewallPlugin FirewallCallbacks.

Lemma report_statuses_pending_delete w id row sts :
  firewalls w !! id = Some row -> fw_status row = PENDING_DELETE ->
  report_statuses id sts w = (Returns tt, w).
Proof.
  intros H Hpd. unfold report_statuses.
  induction sts as [|st sts IH]; [reflexivity|].
  cbn [for_each]. rewrite bind_run, bind_run.
  rewrite (set_firewall_status_run _ _ _ _ H).
  rewrite decide_True by assumption. exact IH.
Qed.

Lemma delete_firewall_with_routers w id row :
  firewalls w !! id = Some row -> firewall_resolvable w row ->
  fw_router_ids row ≠ [] ->
  delete_firewall id w =
  (Returns tt,
   with_cast
     (cast_delete_firewall
        (mkFwWithRules (firewall_dict_of id (with_status PENDING_DELETE row))
                       (rules_for w row) [] (fw_router_ids row) None))
     (marked_for_delete id row w)).
Proof.
  intros H Hres Hr.
  assert (Hl : firewalls (marked_for_delete id row w) !! id
               = Some (with_status PENDING_DELETE row))
    by apply lookup_insert_eq.
  rewrite (delete_firewall_run _ _ _ H).
  rewrite (_make_firewall_dict_with_rules_Some _ _ _ Hl) by exact Hres.
  cbn [fst]. case_decide; [tauto | reflexivity].
Qed.

End delete_more.

(** X2: once delete_firewall has been accepted for a firewall with
    routers, no series of status reports from agents changes anything:
    each report is refused and the record stays in PENDING_DELETE with
    the world exactly as delete_firewall left it. *)
Theorem no_resurrection_after_delete (w : world) (id : string) (row : Firewall)
    (sts : list status) :
  firewalls w !! id = Some row ->
  firewall_resolvable w row ->
  fw_router_ids row ≠ [] ->
  (FirewallPlugin.delete_firewall id;; report_statuses id sts) w
  = FirewallPlugin.delete_firewall id w
  ∧ fw_status <$> firewalls (FirewallPlugin.delete_firewall id w).2 !! id
    = Some PENDING_DELETE.
Proof.
  intros H Hres Hr.
  rewrite bind_run, (delete_firewall_with_routers _ _ _ H Hres Hr).
  assert (Hl : firewalls
                 (with_cast
                    (cast_delete_firewall
                       (mkFwWithRules
                          (firewall_dict_of id (with_status PENDING_DELETE row))
                          (rules_for w row) [] (fw_router_ids row) None))
                    (marked_for_delete id row w)) !! id
               = Some (with_status PENDING_DELETE row))
    by apply lookup_insert_eq.
  split.
  - apply (report_statuses_pending_delete _ _ _ _ Hl). reflexivity.
  - cbn [snd]. rewrite Hl. reflexivity.
Qed.

Lemma no_resurrection_after_delete_witness :
  (FirewallPlugin.delete_firewall "F";;
   report_statuses "F" [ACTIVE; DOWN; ERROR; INACTIVE])
    (world_F ACTIVE ["R1"])
  = FirewallPlugin.delete_firewall "F" (world_F ACTIVE ["R1"]).
Proof.
  apply (no_resurrection_after_delete (world_F ACTIVE ["R1"]) "F"
           (row_F ACTIVE ["R1"]));
    [reflexivity | apply world_F_resolvable | discriminate].
Defined.

(** X3: delete_firewall on a firewall with routers followed by the
    agent's first firewall_deleted for that id removes the record and
    answers True; the table is the old one without that record and
    exactly one message, the delete, has been cast. *)
Theorem delete_then_firewall_deleted (w : world) (id : string) (row : Firewall) :
  firewalls w !! id = Some row ->
  firewall_resolvable w row ->
  fw_router_ids row ≠ [] ->
  id ∉ firewall_deleted_ids w ->
  exists w',
    (FirewallPlugin.delete_firewall id;; FirewallCallbacks.firewall_deleted id) w
    = (Returns (Some true), w')
    ∧ firewalls w' = delete id (firewalls w)
    ∧ firewall_deleted_ids w' = firewall_deleted_ids w ++ [id]
    ∧ exists p,
        fanout w' = fanout w ++ [cast_delete_firewall p]
        ∧ add_router_ids p = [] ∧ del_router_ids p = fw_router_ids row.
Proof.
  intros H Hres Hr Hnew.
  rewrite bind_run, (delete_firewall_with_routers _ _ _ H Hres Hr).
  set (w1 := with_cast _ (marked_for_delete id row w)).
  assert (Hnew1 : id ∉ firewall_deleted_ids w1) by exact Hnew.
  rewrite (firewall_deleted_first _ _ Hnew1).
  assert (Hl : firewalls (with_deleted_id id w1) !! id
               = Some (with_status PENDING_DELETE row))
    by apply lookup_insert_eq.
  rewrite (firewall_deleted_block_Some _ _ _ Hl).
  rewrite decide_True by reflexivity.
  eexists. split; [reflexivity|]. cbn.
  split; [apply delete_insert_eq|]. split; [reflexivity|].
  eexists. split; [reflexivity|]. split; reflexivity.
Qed.

Lemma delete_then_firewall_deleted_witness :
  exists w',
    (FirewallPlugin.delete_firewall "F";; FirewallCallbacks.firewall_deleted "F")
      (world_F DOWN ["R1"; "R2"])
    = (Returns (Some true), w')
    ∧ firewalls w' = delete "F" (firewalls (world_F DOWN ["R1"; "R2"])).
Proof.
  destruct (delete_then_firewall_deleted (world_F DOWN ["R1"; "R2"]) "F"
              (row_F DOWN ["R1"; "R2"])) as (w' & Hrun & Hfws & _);
    [reflexivity | apply world_F_resolvable | discriminate
     | cbn; apply not_elem_of_nil |].
  exists w'. split; assumption.
Defined.

(** X4: if the id was already reported deleted once (for instance by an
    unexpected report that was flagged), a later delete_firewall on the
    firewall with routers can no longer be completed: the agent's
    firewall_deleted answers None and changes nothing, the record stays
    in PENDING_DELETE, and every update_firewall on it is refused. *)
Theorem delete_after_earlier_report_stays_pending (w : world) (id : string)
    (row : Firewall) :
  firewalls w !! id = Some row ->
  firewall_resolvable w row ->
  fw_router_ids row ≠ [] ->
  id ∈ firewall_deleted_ids w ->
  (FirewallPlugin.delete_firewall id;; FirewallCallbacks.firewall_deleted id) w
  = (Returns None, (FirewallPlugin.delete_firewall id w).2)
  ∧ fw_status <$> firewalls (FirewallPlugin.delete_firewall id w).2 !! id
    = Some PENDING_DELETE
  ∧ forall req,
      FirewallPlugin.update_firewall id req (FirewallPlugin.delete_firewall id w).2
      = (Raises (FirewallInPendingState id PENDING_DELETE),
         (FirewallPlugin.delete_firewall id w).2).
Proof.
  intros H Hres Hr Hin.
  rewrite bind_run, (delete_firewall_with_routers _ _ _ H Hres Hr).
  set (w1 := with_cast _ (marked_for_delete id row w)).
  assert (Hin1 : id ∈ firewall_deleted_ids w1) by exact Hin.
  assert (Hl : firewalls w1 !! id = Some (with_status PENDING_DELETE row))
    by apply lookup_insert_eq.
  cbn [snd]. split; [apply (firewall_deleted_again _ _ Hin1)|].
  split; [rewrite Hl; reflexivity|].
  intros req. unfold FirewallPlugin.update_firewall.
  apply bind_raises.
  apply (_ensure_update_firewall_pending _ _ _ Hl). right. right. reflexivity.
Qed.

Lemma delete_after_earlier_report_stays_pending_witness :
  "F" ∈ firewall_deleted_ids world_after_first_report
  ∧ (FirewallPlugin.delete_firewall "F";; FirewallCallbacks.firewall_deleted "F")
      world_after_first_report
    = (Returns None,
       (FirewallPlugin.delete_firewall "F" world_after_first_report).2).
Proof.
  assert (Hin : "F" ∈ firewall_deleted_ids world_after_first_report)
    by (vm_compute; left).
  split; [exact Hin|].
  apply (delete_after_earlier_report_stays_pending world_after_first_report "F"
           (row_F ERROR ["R1"])).
  - vm_compute. reflexivity.
  - intros pid [= <-]. exists (mkFirewallPolicy "T" ["r1"]).
    split; [vm_compute; reflexivity|].
    intros r Hr. apply list_elem_of_singleton in Hr as ->.
    eexists. vm_compute. reflexivity.
  - discriminate.
  - exact Hin.
Defined.

(** ** Missing records *)

(** X5: an operation on an id with no record raises the matching
    not-found exception and leaves the world as it was: update_firewall,
    delete_firewall and set_firewall_status for a firewall,
    update_firewall_policy, insert_rule and remove_rule for a policy,
    update_firewall_rule for a rule.  firewall_deleted raises too, but
    has already recorded the id, so that a repeated report for the same
    id answers None instead of raising. *)
Theorem missing_records_raise (w : world) :
  (forall id,
     firewalls w !! id = None ->
     (forall req,
        FirewallPlugin.update_firewall id req w
        = (Raises (FirewallNotFound id), w))
     ∧ FirewallPlugin.delete_firewall id w = (Raises (FirewallNotFound id), w)
     ∧ (forall st,
          FirewallCallbacks.set_firewall_status id st w
          = (Raises (FirewallNotFound id), w))
     ∧ (id ∉ firewall_deleted_ids w ->
        FirewallCallbacks.firewall_deleted id w
        = (Raises (FirewallNotFound id), with_deleted_id id w)
        ∧ FirewallCallbacks.firewall_deleted id (with_deleted_id id w)
          = (Returns None, with_deleted_id id w)))
  ∧ (forall pid edit,
       firewall_policies w !! pid = None ->
       FirewallPlugin.update_firewall_policy pid edit w
       = (Raises (FirewallPolicyNotFound pid), w)
       ∧ FirewallPlugin.insert_rule pid edit w
         = (Raises (FirewallPolicyNotFound pid), w)
       ∧ FirewallPlugin.remove_rule pid edit w
         = (Raises (FirewallPolicyNotFound pid), w))
  ∧ (forall rid edit,
       firewall_rules w !! rid = None ->
       FirewallPlugin.update_firewall_rule rid edit w
       = (Raises (FirewallRuleNotFound rid), w)).
Proof.
  split; [|split].
  - intros id H. split; [|split; [|split]].
    + intros req. unfold FirewallPlugin.update_firewall.
      apply bind_raises. unfold FirewallPlugin._ensure_update_firewall.
      apply bind_raises, get_firewall_None, H.
    + apply delete_firewall_None, H.
    + intros st. apply set_firewall_status_None, H.
    + intros Hnew. split.
      * rewrite (firewall_deleted_first _ _ Hnew).
        apply firewall_deleted_block_None. exact H.
      * apply firewall_deleted_again. cbn. apply elem_of_app. right. left.
  - intros pid edit H.
    assert (Hguard : FirewallPlugin._ensure_update_firewall_policy pid w
                     = (Raises (FirewallPolicyNotFound pid), w)).
    { unfold FirewallPlugin._ensure_update_firewall_policy.
      apply bind_raises. unfold Firewall_db_mixin.get_firewall_policy.
      unfold_monad. rewrite H. reflexivity. }
    split; [|split]; apply bind_raises, Hguard.
  - intros rid edit H. unfold FirewallPlugin.update_firewall_rule.
    apply bind_raises. unfold FirewallPlugin._ensure_update_firewall_rule.
    apply bind_raises. unfold Firewall_db_mixin.get_firewall_rule.
    unfold_monad. rewrite H. reflexivity.
Qed.

Lemma missing_records_raise_witness :
  FirewallPlugin.delete_firewall "G" (world_F ACTIVE ["R1"])
  = (Raises (FirewallNotFound "G"), world_F ACTIVE ["R1"])
  ∧ FirewallCallbacks.firewall_deleted "G" (world_F ACTIVE ["R1"])
    = (Raises (FirewallNotFound "G"), with_deleted_id "G" (world_F ACTIVE ["R1"]))
  ∧ FirewallPlugin.insert_rule "Q" Some (world_F ACTIVE ["R1"])
    = (Raises (FirewallPolicyNotFound "Q"), world_F ACTIVE ["R1"]).
Proof.
  destruct (missing_records_raise (world_F ACTIVE ["R1"])) as (Hfw & Hpol & _).
  destruct (Hfw "G") as (_ & Hdel & _ & Hrep); [reflexivity|].
  split; [exact Hdel|]. split.
  - apply Hrep. cbn. apply not_elem_of_nil.
  - apply (Hpol "Q" Some). reflexivity.
Defined.

(** ** The guard of a policy, exactly *)

(** X6: for a policy that exists, the guard run before every policy
    edit passes exactly when no firewall using the policy is in a
    pending status; it never changes the world. *)
Theorem policy_guard_passes_iff (w : world) (pid : string) (prow : FirewallPolicy) :
  firewall_policies w !! pid = Some prow ->
  (FirewallPlugin._ensure_update_firewall_policy pid w = (Returns tt, w)
   ↔ forall f row,
       firewalls w !! f = Some row ->
       fw_firewall_policy_id row = Some pid ->
       ¬ FirewallPlugin.is_pending (fw_status row))
  ∧ (FirewallPlugin._ensure_update_firewall_policy pid w).2 = w.
Proof.
  intros Hprow. split; [|apply reads_only__ensure_update_firewall_policy].
  split.
  - intros Hrun f row Hrow Hpid Hp.
    destruct (_ensure_update_firewall_policy_pending w pid prow f row
                Hprow Hrow Hpid Hp) as (f' & row' & _ & _ & _ & Hraise).
    rewrite Hrun in Hraise. discriminate.
  - intros Hall. unfold FirewallPlugin._ensure_update_firewall_policy.
    rewrite (bind_returns _ _ _ _ _ (get_firewall_policy_Some _ _ _ Hprow)).
    apply for_each_ensure_ok. intros f Hf.
    apply elem_of_firewall_list_of in Hf as (row & Hrow & Hpid).
    exists row. split; [exact Hrow|]. apply (Hall f row Hrow Hpid).
Qed.

Lemma policy_guard_passes_iff_witness :
  FirewallPlugin._ensure_update_firewall_policy "P" (world_F DOWN ["R1"])
  = (Returns tt, world_F DOWN ["R1"]).
Proof.
  destruct (policy_guard_passes_iff (world_F DOWN ["R1"]) "P"
              (mkFirewallPolicy "T" ["r1"])) as [[_ Hpass] _]; [reflexivity|].
  apply Hpass. intros f row Hrow _. cbn in Hrow.
  apply lookup_singleton_Some in Hrow as [_ <-].
  cbn. unfold FirewallPlugin.is_pending. intros [?|[?|?]]; discriminate.
Defined.

(** ** update_firewall: validation, flags, and what follows a cast *)

Section update_more.
Import FirewallPlugin.

Lemma elem_of_routers_of_others (fws : gmap string Firewall) fwid r :
  r ∈ Firewall_db_mixin.routers_of_others fws fwid
  ↔ exists f row, fws !! f = Some row ∧ Some f ≠ fwid ∧ r ∈ fw_router_ids row.
Proof.
  unfold Firewall_db_mixin.routers_of_others.
  rewrite list_elem_of_join. split.
  - intros (l & Hr & Hl). apply list_elem_of_fmap in Hl as ([f row] & -> & Hin).
    apply elem_of_map_to_list, map_lookup_filter_Some in Hin as [Hrow Hne].
    exists f, row. cbn in *. tauto.
  - intros (f & row & Hrow & Hne & Hr). exists (fw_router_ids row).
    split; [exact Hr|]. apply list_elem_of_fmap. exists (f, row).
    split; [reflexivity|].
    apply elem_of_map_to_list, map_lookup_filter_Some. cbn. tauto.
Qed.

Lemma validate_passes_iff w (l : list string) fwid :
  Firewall_db_mixin.validate_firewall_routers_not_in_use l fwid w
  = (Returns tt, w)
  ↔ forall r, r ∈ l -> ¬ held_by_other w fwid r.
Proof.
  unfold Firewall_db_mixin.validate_firewall_routers_not_in_use. unfold_monad.
  case_decide as Hf.
  - split; [|reflexivity]. intros _ r Hr Hheld.
    apply (filter_nil_not_elem_of _ _ r Hf); [|exact Hr].
    apply elem_of_routers_of_others. exact Hheld.
  - split; [discriminate|]. intros Hfree. exfalso. apply Hf.
    destruct (filter _ l) as [|x xs] eqn:Hflt; [reflexivity|].
    assert (Hx : x ∈ filter
                   (fun r => r ∈ Firewall_db_mixin.routers_of_others
                                   (firewalls w) fwid) l)
      by (rewrite Hflt; left).
    apply list_elem_of_filter in Hx as [Hheld Hin].
    apply elem_of_routers_of_others in Hheld. destruct (Hfree x Hin Hheld).
Qed.

Lemma validate_raises w (l : list string) fwid r :
  r ∈ l -> held_by_other w fwid r ->
  exists in_use,
    Firewall_db_mixin.validate_firewall_routers_not_in_use l fwid w
    = (Raises (RoutersInUse in_use), w)
    ∧ forall x, x ∈ in_use ↔ x ∈ l ∧ held_by_other w fwid x.
Proof.
  intros Hr Hheld.
  unfold Firewall_db_mixin.validate_firewall_routers_not_in_use. unfold_monad.
  assert (Hmem : forall x,
    x ∈ filter (fun r => r ∈ Firewall_db_mixin.routers_of_others
                            (firewalls w) fwid) l
    ↔ x ∈ l ∧ held_by_other w fwid x).
  { intros x. rewrite list_elem_of_filter, elem_of_routers_of_others.
    unfold held_by_other. tauto. }
  case_decide as Hf.
  - exfalso. assert (Hin : r ∈ filter
                 (fun r => r ∈ Firewall_db_mixin.routers_of_others
                                 (firewalls w) fwid) l)
      by (apply Hmem; tauto).
    rewrite Hf in Hin. apply elem_of_nil in Hin as [].
  - eexists. split; [reflexivity | exact Hmem].
Qed.

Lemma update_firewall_casts w id row req :
  firewalls w !! id = Some row ->
  ¬ is_pending (fw_status row) ->
  routers_accepted w id req ->
  ¬ (new_routers req row = [] ∧ fw_router_ids row = []) ->
  firewall_resolvable w (row_after req PENDING_UPDATE row) ->
  update_firewall id req w =
  (Returns (firewall_dict_of id (row_after req PENDING_UPDATE row)),
   with_cast (cast_update_firewall (update_payload w id req row))
             (marked_for_update id req row w)).
Proof.
  intros H Hnp Hacc Hne Hres.
  rewrite (update_firewall_run _ _ _ _ H Hnp Hacc).
  unfold update_result. rewrite decide_False by assumption. cbv zeta.
  fold (marked_for_update id req row w).
  assert (Hl : firewalls (marked_for_update id req row w) !! id
               = Some (row_after req PENDING_UPDATE row))
    by apply lookup_insert_eq.
  rewrite (_make_firewall_dict_with_rules_Some _ _ _ Hl) by exact Hres.
  reflexivity.
Qed.

End update_more.

(** X7: whenever update_firewall casts, the payload's last-router flag
    is true exactly when the new attachment set is empty; in that case
    add-router-ids is empty and del-router-ids lists every router the
    firewall was attached to, of which there is at least one. *)
Theorem update_last_router_flag (w : world) (id : string) (req : firewall_update) :
  fanout (FirewallPlugin.update_firewall id req w).2 ≠ fanout w ->
  exists row p,
    firewalls w !! id = Some row
    ∧ fanout (FirewallPlugin.update_firewall id req w).2
      = fanout w ++ [cast_update_firewall p]
    ∧ last_router p = Some (bool_decide (new_routers req row = []))
    ∧ (new_routers req row = [] ->
       add_router_ids p = []
       ∧ fw_router_ids row ≠ []
       ∧ (list_to_set (del_router_ids p) : gset string)
         = list_to_set (fw_router_ids row)).
Proof.
  intros Hcast.
  destruct (update_firewall_dispatch w id req Hcast)
    as (row & fw & core & rules & H & Hnp & Hrun).
  exists row. eexists. split; [exact H|]. rewrite Hrun.
  split; [reflexivity|]. split; [reflexivity|].
  intros Hnew. cbn [add_router_ids del_router_ids].
  split; [exact Hnew|]. split.
  - intros Hcur. apply Hcast.
    assert (Hacc : routers_accepted w id req).
    { unfold routers_accepted, new_routers in *.
      destruct (u_router_ids req); [left; assumption | exact I]. }
    rewrite (update_firewall_run _ _ _ _ H Hnp Hacc).
    unfold update_result. rewrite decide_True by tauto. reflexivity.
  - rewrite router_diff_removed, Hnew. cbn.
    apply set_eq. intros x. rewrite elem_of_difference, elem_of_empty. tauto.
Qed.

Lemma update_last_router_flag_witness :
  exists row p,
    firewalls (world_F ACTIVE ["R1"]) !! "F" = Some row
    ∧ fanout (FirewallPlugin.update_firewall "F" (mkUpdate None None (Some []))
                (world_F ACTIVE ["R1"])).2
      = fanout (world_F ACTIVE ["R1"]) ++ [cast_update_firewall p]
    ∧ last_router p
      = Some (bool_decide (new_routers (mkUpdate None None (Some [])) row = [])).
Proof.
  destruct (update_last_router_flag (world_F ACTIVE ["R1"]) "F"
              (mkUpdate None None (Some [])))
    as (row & p & Hrow & Hfan & Hflag & _);
    [vm_compute; discriminate|].
  exists row, p. split; [exact Hrow|]. split; assumption.
Defined.

(** X8: an update_firewall that asks for a router attached to another
    firewall raises RoutersInUse and leaves the world as it was; the
    exception lists exactly the requested routers that another firewall
    holds. *)
Theorem update_rejects_routers_in_use (w : world) (id : string) (row : Firewall)
    (req : firewall_update) (l : list string) (r : string) :
  firewalls w !! id = Some row ->
  ¬ FirewallPlugin.is_pending (fw_status row) ->
  u_router_ids req = Some l ->
  r ∈ l ->
  held_by_other w (Some id) r ->
  exists in_use,
    FirewallPlugin.update_firewall id req w = (Raises (RoutersInUse in_use), w)
    ∧ r ∈ in_use
    ∧ forall x, x ∈ in_use ↔ x ∈ l ∧ held_by_other w (Some id) x.
Proof.
  intros H Hnp Hreq Hr Hheld.
  destruct (validate_raises w l (Some id) r Hr Hheld) as (in_use & Hv & Hmem).
  exists in_use. split; [|split; [apply Hmem; tauto | exact Hmem]].
  unfold FirewallPlugin.update_firewall.
  rewrite (bind_returns _ _ _ _ _ (_ensure_update_firewall_ok _ _ _ H Hnp)).
  rewrite bind_run.
  change (Firewall_db_mixin.get_firewall_routers (KeyStr id) w)
    with (Returns (from_option fw_router_ids [] (firewalls w !! id)), w).
  cbv beta iota. rewrite Hreq, bind_run, bind_run.
  rewrite decide_False by (intros ->; apply elem_of_nil in Hr as []).
  rewrite bind_run, Hv. reflexivity.
Qed.

Lemma update_rejects_routers_in_use_witness :
  exists in_use,
    FirewallPlugin.update_firewall "F" (mkUpdate None None (Some ["R1"; "R2"]))
      world_FG
    = (Raises (RoutersInUse in_use), world_FG)
    ∧ "R2" ∈ in_use.
Proof.
  destruct (update_rejects_routers_in_use world_FG "F" (row_F ACTIVE ["R1"])
              (mkUpdate None None (Some ["R1"; "R2"])) ["R1"; "R2"] "R2")
    as (in_use & Hrun & Hin & _).
  - vm_compute. reflexivity.
  - cbn. unfold FirewallPlugin.is_pending. intros [?|[?|?]]; discriminate.
  - reflexivity.
  - right. left.
  - exists "G", (row_F ACTIVE ["R2"]).
    split; [vm_compute; reflexivity|]. split; [discriminate | left].
  - exists in_use. split; assumption.
Defined.

(** X9: an update_firewall without router_ids on a firewall that has
    routers keeps the attachments: the record has the same routers
    afterwards, now in PENDING_UPDATE, and the cast names all of them
    in add-router-ids, none in del-router-ids, with last-router
    false. *)
Theorem update_without_router_ids_keeps_routers (w : world) (id : string)
    (row : Firewall) (req : firewall_update) :
  firewalls w !! id = Some row ->
  ¬ FirewallPlugin.is_pending (fw_status row) ->
  u_router_ids req = None ->
  fw_router_ids row ≠ [] ->
  firewall_resolvable w (row_after req PENDING_UPDATE row) ->
  exists fw p w',
    FirewallPlugin.update_firewall id req w = (Returns fw, w')
    ∧ fanout w' = fanout w ++ [cast_update_firewall p]
    ∧ add_router_ids p = fw_router_ids row
    ∧ del_router_ids p = []
    ∧ last_router p = Some false
    ∧ d_router_ids fw = Some (fw_router_ids row)
    ∧ exists row',
        firewalls w' !! id = Some row'
        ∧ fw_router_ids row' = fw_router_ids row
        ∧ fw_status row' = PENDING_UPDATE.
Proof.
  intros H Hnp Hreq Hcur Hres.
  assert (Hnew : new_routers req row = fw_router_ids row)
    by (unfold new_routers; rewrite Hreq; reflexivity).
  assert (Hacc : routers_accepted w id req)
    by (unfold routers_accepted; rewrite Hreq; exact I).
  eexists _, _, _. split.
  { apply (update_firewall_casts _ _ _ _ H Hnp Hacc); [|exact Hres].
    rewrite Hnew. tauto. }
  split; [reflexivity|]. unfold update_payload.
  cbn [add_router_ids del_router_ids last_router].
  rewrite Hnew. split; [reflexivity|]. split.
  { unfold FirewallPlugin.router_diff. cbn [snd].
    replace ((list_to_set (fw_router_ids row) : gset string)
             ∖ list_to_set (fw_router_ids row)) with (∅ : gset string).
    - apply py_list_of_set_empty.
    - apply set_eq. intros x. rewrite elem_of_difference, elem_of_empty. tauto. }
  split; [rewrite bool_decide_eq_false_2 by assumption; reflexivity|].
  split; [cbn; rewrite Hnew; reflexivity|].
  exists (row_after req PENDING_UPDATE row).
  split; [apply lookup_insert_eq|]. split; [cbn; exact Hnew | reflexivity].
Qed.

Lemma update_without_router_ids_keeps_routers_witness :
  exists fw p w',
    FirewallPlugin.update_firewall "F" (mkUpdate (Some "edge") None None)
      (world_F ACTIVE ["R1"; "R2"]) = (Returns fw, w')
    ∧ fanout w' = fanout (world_F ACTIVE ["R1"; "R2"]) ++ [cast_update_firewall p]
    ∧ add_router_ids p = ["R1"; "R2"]
    ∧ del_router_ids p = [].
Proof.
  destruct (update_without_router_ids_keeps_routers
              (world_F ACTIVE ["R1"; "R2"]) "F" (row_F ACTIVE ["R1"; "R2"])
              (mkUpdate (Some "edge") None None))
    as (fw & p & w' & Hrun & Hfan & Hadd & Hdel & _).
  - reflexivity.
  - cbn. unfold FirewallPlugin.is_pending. intros [?|[?|?]]; discriminate.
  - reflexivity.
  - discriminate.
  - apply (world_F_resolvable ACTIVE ["R1"; "R2"]).
  - exists fw, p, w'. repeat split; assumption.
Defined.

(** X10: only one mutation is in flight per firewall.  After an
    update_firewall that cast, every further update_firewall on the
    firewall is refused with FirewallInPendingState and changes nothing;
    once an agent reports ACTIVE or DOWN the report is accepted, the
    guard lets updates through again, and the firewall has the routers
    the update gave it. *)
Theorem one_update_in_flight (w : world) (id : string) (row : Firewall)
    (req : firewall_update) :
  firewalls w !! id = Some row ->
  ¬ FirewallPlugin.is_pending (fw_status row) ->
  routers_accepted w id req ->
  ¬ (new_routers req row = [] ∧ fw_router_ids row = []) ->
  firewall_resolvable w (row_after req PENDING_UPDATE row) ->
  exists fw w2,
    FirewallPlugin.update_firewall id req w = (Returns fw, w2)
    ∧ (forall req',
         FirewallPlugin.update_firewall id req' w2
         = (Raises (FirewallInPendingState id PENDING_UPDATE), w2))
    ∧ forall st,
        st = ACTIVE ∨ st = DOWN ->
        exists w3,
          FirewallCallbacks.set_firewall_status id st w2 = (Returns true, w3)
          ∧ FirewallPlugin._ensure_update_firewall id w3 = (Returns tt, w3)
          ∧ firewalls w3 !! id
            = Some (with_status st (row_after req PENDING_UPDATE row)).
Proof.
  intros H Hnp Hacc Hne Hres.
  eexists _, _. split; [apply (update_firewall_casts _ _ _ _ H Hnp Hacc Hne Hres)|].
  set (w2 := with_cast _ (marked_for_update id req row w)).
  assert (Hl : firewalls w2 !! id = Some (row_after req PENDING_UPDATE row))
    by apply lookup_insert_eq.
  split.
  - intros req'. unfold FirewallPlugin.update_firewall.
    apply bind_raises.
    apply (_ensure_update_firewall_pending _ _ _ Hl). right. left. reflexivity.
  - intros st Hst. eexists. split.
    + rewrite (set_firewall_status_run _ _ _ _ Hl).
      rewrite decide_False by discriminate.
      rewrite decide_True by assumption. reflexivity.
    + split.
      * apply (_ensure_update_firewall_ok _ _
                 (with_status st (row_after req PENDING_UPDATE row)));
          [apply lookup_insert_eq|].
        cbn. unfold FirewallPlugin.is_pending.
        destruct Hst as [-> | ->]; intros [?|[?|?]]; discriminate.
      * apply lookup_insert_eq.
Qed.

Lemma one_update_in_flight_witness :
  exists fw w2,
    FirewallPlugin.update_firewall "F" (mkUpdate None None (Some ["R2"]))
      (world_F ACTIVE ["R1"; "R2"]) = (Returns fw, w2)
    ∧ FirewallPlugin.update_firewall "F" (mkUpdate None None (Some ["R1"])) w2
      = (Raises (FirewallInPendingState "F" PENDING_UPDATE), w2).
Proof.
  destruct (one_update_in_flight (world_F ACTIVE ["R1"; "R2"]) "F"
              (row_F ACTIVE ["R1"; "R2"]) (mkUpdate None None (Some ["R2"])))
    as (fw & w2 & Hrun & Hagain & _).
  - reflexivity.
  - cbn. unfold FirewallPlugin.is_pending. intros [?|[?|?]]; discriminate.
  - right. vm_compute. reflexivity.
  - intros [[=] _].
  - apply (world_F_resolvable PENDING_UPDATE ["R2"]).
  - exists fw, w2. split; [exact Hrun | apply Hagain].
Defined.

(** ** create_firewall with routers *)

Section create_more.
Import FirewallPlugin.

Lemma create_firewall_with_routers_run w new_id req l :
  (_get_routers_for_create_firewall (c_tenant_id req) req w).1 = Returns l ->
  l ≠ [] ->
  create_firewall new_id req w = create_result w new_id req l.
Proof.
  intros Hres Hl. unfold create_firewall, create_result. cbv zeta.
  rewrite bind_run.
  rewrite (reads_only_run _ w
             (reads_only__get_routers_for_create_firewall (c_tenant_id req) req)).
  rewrite Hres. rewrite decide_False by assumption.
  rewrite bind_run. unfold Firewall_db_mixin.create_firewall at 1.
  unfold_monad. destruct (firewalls w !! new_id) eqn:Hfresh; [reflexivity|].
  cbn [default set_router_ids d_id Firewall_db_mixin._make_firewall_dict].
  fold (created_pending req).
  set (w1 := with_firewalls (<[new_id := created_pending req]> (firewalls w)) w).
  rewrite (reads_only_run _ w1 (reads_only__make_firewall_dict_with_rules new_id)).
  destruct (_make_firewall_dict_with_rules new_id w1).1 as [fr|e]; [|reflexivity].
  assert (H1 : firewalls w1 !! new_id = Some (created_pending req))
    by apply lookup_insert_eq.
  unfold Firewall_db_mixin.set_routers_for_firewall,
    Firewall_db_mixin._get_firewall.
  unfold_monad. rewrite H1. cbn. rewrite insert_insert_eq. reflexivity.
Qed.

Lemma create_firewall_resolve_raises w new_id req e :
  (_get_routers_for_create_firewall (c_tenant_id req) req w).1 = Raises e ->
  create_firewall new_id req w = (Raises e, w).
Proof.
  intros Hres. unfold create_firewall. cbv zeta. rewrite bind_run.
  rewrite (reads_only_run _ w
             (reads_only__get_routers_for_create_firewall (c_tenant_id req) req)).
  rewrite Hres. reflexivity.
Qed.

Lemma _get_routers_for_create_firewall_free w tenant_id req l :
  (_get_routers_for_create_firewall tenant_id req w).1 = Returns l ->
  forall r, r ∈ l -> ¬ held_by_other w None r.
Proof.
  unfold _get_routers_for_create_firewall.
  destruct (c_router_ids req) as [| |l0].
  - intros [= <-] r Hr. apply elem_of_nil in Hr as [].
  - rewrite bind_run. change (l3_get_routers w) with (Returns (l3_routers w), w).
    cbv beta iota. rewrite bind_run.
    destruct (validate_cases w
                (filter (fun router => router.2 = tenant_id) (l3_routers w)).*1
                None) as [Hv|[e Hv]]; rewrite Hv; [|discriminate].
    intros [= <-]. apply validate_passes_iff, Hv.
  - case_decide as Hl0.
    + intros [= <-] r Hr. apply elem_of_nil in Hr as [].
    + rewrite bind_run.
      destruct (validate_cases w l0 None) as [Hv|[e Hv]]; rewrite Hv;
        [|discriminate].
      intros [= <-]. apply validate_passes_iff, Hv.
Qed.

End create_more.

(** X11: a create_firewall that resolves to a non-empty router list,
    with a free id and a readable policy, persists the record in
    PENDING_CREATE with those routers, returns it with them, leaves
    every other record alone and casts one create whose add-router-ids
    is the list and whose del-router-ids is empty.  The firewall dict
    inside the cast was built before the routers were associated: its
    own router_ids is empty. *)
Theorem create_firewall_with_routers (w : world) (new_id : string)
    (req : firewall_create) (l : list string) :
  (FirewallPlugin._get_routers_for_create_firewall (c_tenant_id req) req w).1
  = Returns l ->
  l ≠ [] ->
  firewalls w !! new_id = None ->
  firewall_resolvable w (created_pending req) ->
  exists fw p w',
    FirewallPlugin.create_firewall new_id req w = (Returns fw, w')
    ∧ d_status fw = PENDING_CREATE
    ∧ d_router_ids fw = Some l
    ∧ firewalls w' = <[new_id := with_router_ids l (created_pending req)]>
                       (firewalls w)
    ∧ fanout w' = fanout w ++ [cast_create_firewall p]
    ∧ add_router_ids p = l
    ∧ del_router_ids p = []
    ∧ firewall_rule_list p = rules_for w (created_pending req)
    ∧ d_router_ids (firewall_core p) = Some [].
Proof.
  intros Hres Hl Hfresh Hpol.
  rewrite (create_firewall_with_routers_run _ _ _ _ Hres Hl).
  unfold create_result. rewrite Hfresh. cbv zeta.
  set (w1 := with_firewalls (<[new_id := created_pending req]> (firewalls w)) w).
  assert (H1 : firewalls w1 !! new_id = Some (created_pending req))
    by apply lookup_insert_eq.
  rewrite (_make_firewall_dict_with_rules_Some _ _ _ H1) by exact Hpol.
  eexists _, _, _. split; [reflexivity|]. repeat split.
Qed.

Lemma create_firewall_with_routers_witness :
  exists fw w',
    FirewallPlugin.create_firewall "G"
      (mkCreate "T" "second" (Some "P") ATTR_NOT_SPECIFIED) (world_F ACTIVE [])
    = (Returns fw, w')
    ∧ d_status fw = PENDING_CREATE
    ∧ d_router_ids fw = Some ["R1"; "R2"].
Proof.
  destruct (create_firewall_with_routers (world_F ACTIVE []) "G"
              (mkCreate "T" "second" (Some "P") ATTR_NOT_SPECIFIED)
              ["R1"; "R2"])
    as (fw & p & w' & Hrun & Hst & Hrtrs & _).
  - vm_compute. reflexivity.
  - discriminate.
  - reflexivity.
  - apply (world_F_resolvable PENDING_CREATE []).
  - exists fw, w'. repeat split; assumption.
Defined.

(** X12: the routers create_firewall resolves are free: none of them is
    attached to an existing firewall.  With the router_ids key absent
    the list is empty; with an explicit list it is that list; with
    ATTR_NOT_SPECIFIED it is the list of the tenant's routers known to
    the L3 plugin. *)
Theorem resolved_routers_are_free (w : world) (tenant_id : string)
    (req : firewall_create) (l : list string) :
  (FirewallPlugin._get_routers_for_create_firewall tenant_id req w).1
  = Returns l ->
  (forall r, r ∈ l -> ¬ held_by_other w None r)
  ∧ match c_router_ids req with
    | RouterIdsAbsent => l = []
    | RouterIds l0 => l = l0
    | ATTR_NOT_SPECIFIED =>
        forall r, r ∈ l ↔ (r, tenant_id) ∈ l3_routers w
    end.
Proof.
  intros Hres. split; [apply (_get_routers_for_create_firewall_free _ _ _ _ Hres)|].
  revert Hres. unfold FirewallPlugin._get_routers_for_create_firewall.
  destruct (c_router_ids req) as [| |l0].
  - intros [= <-]. reflexivity.
  - rewrite bind_run. change (l3_get_routers w) with (Returns (l3_routers w), w).
    cbv beta iota. rewrite bind_run.
    destruct (validate_cases w
                (filter (fun router => router.2 = tenant_id) (l3_routers w)).*1
                None) as [Hv|[e Hv]]; rewrite Hv; [|discriminate].
    intros [= <-] r. rewrite list_elem_of_fmap. split.
    + intros ([r' t] & -> & Hin). apply list_elem_of_filter in Hin as [Ht Hin].
      cbn in *. subst t. exact Hin.
    + intros Hin. exists (r, tenant_id). split; [reflexivity|].
      apply list_elem_of_filter. split; [reflexivity | exact Hin].
  - case_decide as Hl0.
    + intros [= <-]. symmetry. exact Hl0.
    + rewrite bind_run.
      destruct (validate_cases w l0 None) as [Hv|[e Hv]]; rewrite Hv;
        [|discriminate].
      intros [= <-]. reflexivity.
Qed.

Lemma resolved_routers_are_free_witness :
  (FirewallPlugin._get_routers_for_create_firewall "T"
     (mkCreate "T" "second" (Some "P") ATTR_NOT_SPECIFIED) (world_F ACTIVE [])).1
  = Returns ["R1"; "R2"]
  ∧ forall r, r ∈ ["R1"; "R2"] -> ¬ held_by_other (world_F ACTIVE []) None r.
Proof.
  assert (Hres :
    (FirewallPlugin._get_routers_for_create_firewall "T"
       (mkCreate "T" "second" (Some "P") ATTR_NOT_SPECIFIED)
       (world_F ACTIVE [])).1 = Returns ["R1"; "R2"])
    by (vm_compute; reflexivity).
  split; [exact Hres|].
  apply (resolved_routers_are_free _ _ _ _ Hres).
Defined.

(** X13: after such a create_firewall, the agent's report of ACTIVE or
    DOWN is accepted: set_firewall_status answers True and the record
    has the reported status and the routers it was created with. *)
Theorem create_then_report (w : world) (new_id : string)
    (req : firewall_create) (l : list string) (st : status) :
  (FirewallPlugin._get_routers_for_create_firewall (c_tenant_id req) req w).1
  = Returns l ->
  l ≠ [] ->
  firewalls w !! new_id = None ->
  firewall_resolvable w (created_pending req) ->
  st = ACTIVE ∨ st = DOWN ->
  exists w',
    (FirewallPlugin.create_firewall new_id req;;
     FirewallCallbacks.set_firewall_status new_id st) w = (Returns true, w')
    ∧ firewalls w' !! new_id
      = Some (with_status st (with_router_ids l (created_pending req))).
Proof.
  intros Hres Hl Hfresh Hpol Hst.
  rewrite bind_run, (create_firewall_with_routers_run _ _ _ _ Hres Hl).
  unfold create_result. rewrite Hfresh. cbv zeta.
  set (w1 := with_firewalls (<[new_id := created_pending req]> (firewalls w)) w).
  assert (H1 : firewalls w1 !! new_id = Some (created_pending req))
    by apply lookup_insert_eq.
  rewrite (_make_firewall_dict_with_rules_Some _ _ _ H1) by exact Hpol.
  cbn [fst].
  set (w2 := with_cast _ _).
  assert (H2 : firewalls w2 !! new_id
               = Some (with_router_ids l (created_pending req)))
    by apply lookup_insert_eq.
  rewrite (set_firewall_status_run _ _ _ _ H2).
  rewrite decide_False by discriminate. rewrite decide_True by assumption.
  eexists. split; [reflexivity | apply lookup_insert_eq].
Qed.

Lemma create_then_report_witness :
  exists w',
    (FirewallPlugin.create_firewall "G"
       (mkCreate "T" "second" (Some "P") (RouterIds ["R2"]));;
     FirewallCallbacks.set_firewall_status "G" ACTIVE) (world_F ACTIVE ["R1"])
    = (Returns true, w')
    ∧ fw_status <$> firewalls w' !! "G" = Some ACTIVE.
Proof.
  destruct (create_then_report (world_F ACTIVE ["R1"]) "G"
              (mkCreate "T" "second" (Some "P") (RouterIds ["R2"])) ["R2"] ACTIVE)
    as (w' & Hrun & Hrow).
  - vm_compute. reflexivity.
  - discriminate.
  - reflexivity.
  - apply (world_F_resolvable PENDING_CREATE []).
  - left. reflexivity.
  - exists w'. split; [exact Hrun|]. rewrite Hrow. reflexivity.
Defined.

(** ** A router belongs to at most one firewall *)

Section exclusivity.
Import FirewallPlugin.

Lemma routers_kept_refl fws : routers_kept fws fws.
Proof. intros f row H. exists row. split; [exact H | reflexivity]. Qed.

Lemma routers_kept_trans fws1 fws2 fws3 :
  routers_kept fws1 fws2 -> routers_kept fws2 fws3 -> routers_kept fws1 fws3.
Proof.
  intros H12 H23 f row3 H3. destruct (H23 f row3 H3) as (row2 & H2 & E23).
  destruct (H12 f row2 H2) as (row1 & H1 & E12).
  exists row1. split; [exact H1 | congruence].
Qed.

Lemma routers_exclusive_kept w w' :
  routers_exclusive w -> routers_kept (firewalls w) (firewalls w') ->
  routers_exclusive w'.
Proof.
  intros Hex Hk f1 f2 row1 row2 r Hne H1 H2 Hr.
  destruct (Hk f1 row1 H1) as (row1' & H1' & E1).
  destruct (Hk f2 row2 H2) as (row2' & H2' & E2).
  rewrite E2. apply (Hex f1 f2 row1' row2' r Hne H1' H2'). rewrite <- E1. exact Hr.
Qed.

Lemma routers_exclusive_insert w w' id row' :
  routers_exclusive w ->
  firewalls w' = <[id := row']> (firewalls w) ->
  (forall r, r ∈ fw_router_ids row' -> ¬ held_by_other w (Some id) r) ->
  routers_exclusive w'.
Proof.
  intros Hex Hfws Hfree f1 f2 row1 row2 r Hne H1 H2 Hr Hr2.
  rewrite Hfws, lookup_insert in H1, H2.
  destruct (decide (id = f1)) as [E1|Hn1]; destruct (decide (id = f2)) as [E2|Hn2].
  - congruence.
  - injection H1 as <-. apply (Hfree r Hr).
    exists f2, row2. split; [exact H2|]. split; [congruence | exact Hr2].
  - injection H2 as <-. apply (Hfree r Hr2).
    exists f1, row1. split; [exact H1|]. split; [congruence | exact Hr].
  - apply (Hex f1 f2 row1 row2 r Hne H1 H2 Hr Hr2).
Qed.

Lemma keeps_routers_reads_only {A} (c : M A) : reads_only c -> keeps_routers c.
Proof. intros Hc w. rewrite (Hc w). apply routers_kept_refl. Qed.

Lemma keeps_routers_bind {A B} (c : M A) (k : A -> M B) :
  keeps_routers c -> (forall a, keeps_routers (k a)) ->
  keeps_routers (x ← c; k x).
Proof.
  intros Hc Hk w. rewrite bind_run. specialize (Hc w).
  destruct (c w) as [[a|e] w1]; cbn [snd] in *.
  - apply (routers_kept_trans _ _ _ Hc), Hk.
  - exact Hc.
Qed.

Lemma keeps_routers_for_each {A} (l : list A) (body : A -> M unit) :
  (forall a, keeps_routers (body a)) -> keeps_routers (for_each l body).
Proof.
  intros Hb. induction l as [|x l IH]; cbn [for_each].
  - apply keeps_routers_reads_only, reads_only_ret.
  - apply keeps_routers_bind; [apply Hb | intros _; exact IH].
Qed.

Lemma keeps_routers_ret {A} (a : A) : keeps_routers (ret a).
Proof. apply keeps_routers_reads_only, reads_only_ret. Qed.

Lemma keeps_routers_cast m : keeps_routers (modify (with_cast m)).
Proof. intros w. apply routers_kept_refl. Qed.

Lemma keeps_routers_mixin_update id f :
  keeps_routers (Firewall_db_mixin.update_firewall id f).
Proof.
  intros w. destruct (firewalls w !! id) as [row|] eqn:H.
  - rewrite (update_firewall_Some _ _ _ _ H). cbn. intros g row'.
    rewrite lookup_insert. case_decide as Hg.
    + subst g. intros [= <-]. exists row. split; [exact H | reflexivity].
    + intros H'. exists row'. split; [exact H' | reflexivity].
  - rewrite (update_firewall_None _ _ _ H). apply routers_kept_refl.
Qed.

Lemma keeps_routers_set_status id st :
  keeps_routers (Firewall_db_mixin.set_status id st).
Proof.
  intros w g row'. cbn. rewrite lookup_alter. case_decide as Hg.
  - subst g. destruct (firewalls w !! id) as [row|]; [|discriminate].
    intros [= <-]. exists row. split; reflexivity.
  - intros H'. exists row'. split; [exact H' | reflexivity].
Qed.

Lemma keeps_routers_mixin_delete id :
  keeps_routers (Firewall_db_mixin.delete_firewall id).
Proof.
  unfold Firewall_db_mixin.delete_firewall.
  apply keeps_routers_bind;
    [apply keeps_routers_reads_only, reads_only__get_firewall|].
  intros _ w g row'. cbn. rewrite lookup_delete. case_decide; [discriminate|].
  intros H'. exists row'. split; [exact H' | reflexivity].
Qed.

Lemma keeps_routers_apply_edit e : keeps_routers (Firewall_db_mixin.apply_edit e).
Proof.
  intros w. unfold Firewall_db_mixin.apply_edit. unfold_monad.
  destruct (e _); apply routers_kept_refl.
Qed.

Lemma keeps_routers_delete_db_firewall_object id :
  keeps_routers (delete_db_firewall_object id).
Proof.
  unfold delete_db_firewall_object.
  apply keeps_routers_bind;
    [apply keeps_routers_reads_only, reads_only_get_firewall|].
  intros fw. case_decide; [apply keeps_routers_mixin_delete | apply keeps_routers_ret].
Qed.

Lemma keeps_routers_delete_firewall id : keeps_routers (delete_firewall id).
Proof.
  unfold delete_firewall.
  apply keeps_routers_bind; [apply keeps_routers_mixin_update|]. intros fw.
  apply keeps_routers_bind;
    [apply keeps_routers_reads_only, reads_only__make_firewall_dict_with_rules|].
  intros fr.
  apply keeps_routers_bind;
    [apply keeps_routers_reads_only, reads_only_get_firewall_routers|].
  intros del. case_decide;
    [apply keeps_routers_delete_db_firewall_object | apply keeps_routers_cast].
Qed.

Lemma keeps_routers__rpc_update_firewall f : keeps_routers (_rpc_update_firewall f).
Proof.
  unfold _rpc_update_firewall.
  apply keeps_routers_bind; [apply keeps_routers_mixin_update|]. intros _.
  apply keeps_routers_bind;
    [apply keeps_routers_reads_only, reads_only__make_firewall_dict_with_rules|].
  intros fr.
  apply keeps_routers_bind;
    [apply keeps_routers_reads_only, reads_only_get_firewall_routers|].
  intros add. apply keeps_routers_cast.
Qed.

Lemma keeps_routers__rpc_update_firewall_policy pid :
  keeps_routers (_rpc_update_firewall_policy pid).
Proof.
  unfold _rpc_update_firewall_policy.
  apply keeps_routers_bind;
    [apply keeps_routers_reads_only, reads_only_get_firewall_policy|].
  intros p. apply keeps_routers_for_each, keeps_routers__rpc_update_firewall.
Qed.

Lemma keeps_routers_policy_store_op (op : string -> store_edit -> M policy_dict)
    pid edit :
  op = Firewall_db_mixin.update_firewall_policy
  ∨ op = Firewall_db_mixin.insert_rule
  ∨ op = Firewall_db_mixin.remove_rule ->
  keeps_routers (op pid edit).
Proof.
  intros [-> | [-> | ->]];
    (apply keeps_routers_bind; [apply keeps_routers_apply_edit|]; intros _;
     apply keeps_routers_reads_only, reads_only_get_firewall_policy).
Qed.

Lemma keeps_routers_policy_edits pid edit :
  keeps_routers (update_firewall_policy pid edit)
  ∧ keeps_routers (insert_rule pid edit)
  ∧ keeps_routers (remove_rule pid edit).
Proof.
  split; [|split];
    (apply keeps_routers_bind;
       [apply keeps_routers_reads_only, reads_only__ensure_update_firewall_policy|];
     intros _; apply keeps_routers_bind;
       [apply keeps_routers_policy_store_op; tauto|];
     intros fwp; apply keeps_routers_bind;
       [apply keeps_routers__rpc_update_firewall_policy|];
     intros _; apply keeps_routers_ret).
Qed.

Lemma keeps_routers_update_firewall_rule rid edit :
  keeps_routers (update_firewall_rule rid edit).
Proof.
  unfold update_firewall_rule.
  apply keeps_routers_bind;
    [apply keeps_routers_reads_only, reads_only__ensure_update_firewall_rule|].
  intros _. apply keeps_routers_bind.
  { unfold Firewall_db_mixin.update_firewall_rule.
    apply keeps_routers_bind; [apply keeps_routers_apply_edit|]. intros _.
    apply keeps_routers_reads_only, reads_only_get_firewall_rule. }
  intros fwr. destruct (truthy _); [|apply keeps_routers_ret].
  apply keeps_routers_bind; [apply keeps_routers__rpc_update_firewall_policy|].
  intros _. apply keeps_routers_ret.
Qed.

Lemma keeps_routers_set_firewall_status id st :
  keeps_routers (FirewallCallbacks.set_firewall_status id st).
Proof.
  unfold FirewallCallbacks.set_firewall_status.
  apply keeps_routers_bind;
    [apply keeps_routers_reads_only, reads_only__get_firewall|].
  intros fw. case_decide; [apply keeps_routers_ret|].
  case_decide;
    (apply keeps_routers_bind; [apply keeps_routers_set_status|];
     intros _; apply keeps_routers_ret).
Qed.

Lemma keeps_routers_firewall_deleted id :
  keeps_routers (FirewallCallbacks.firewall_deleted id).
Proof.
  intros w. destruct (decide (id ∈ firewall_deleted_ids w)) as [Hin|Hin].
  { rewrite (firewall_deleted_again _ _ Hin). apply routers_kept_refl. }
  rewrite (firewall_deleted_first _ _ Hin).
  change (firewalls w) with (firewalls (with_deleted_id id w)).
  revert w Hin. intros w _. generalize (with_deleted_id id w). clear w.
  change (keeps_routers (FirewallCallbacks.firewall_deleted_block id)).
  unfold FirewallCallbacks.firewall_deleted_block.
  apply keeps_routers_bind;
    [apply keeps_routers_reads_only, reads_only__get_firewall|].
  intros fw. case_decide.
  - apply keeps_routers_bind; [apply keeps_routers_delete_db_firewall_object|].
    intros _. apply keeps_routers_ret.
  - apply keeps_routers_bind; [apply keeps_routers_set_status|].
    intros _. apply keeps_routers_ret.
Qed.

(** The firewall table [update_firewall] leaves: the old one, or the
    old one with the firewall's row rewritten for an accepted request. *)
Lemma update_firewall_firewalls w id req :
  firewalls (update_firewall id req w).2 = firewalls w
  ∨ exists row st,
      firewalls w !! id = Some row
      ∧ routers_accepted w id req
      ∧ firewalls (update_firewall id req w).2
        = <[id := row_after req st row]> (firewalls w).
Proof.
  destruct (firewalls w !! id) as [row|] eqn:H.
  2:{ destruct (update_firewall_stopped w id req) as [e He]; [tauto|].
      rewrite He. left. reflexivity. }
  destruct (decide (is_pending (fw_status row))) as [Hp|Hnp].
  { destruct (update_firewall_stopped w id req) as [e He]; [eauto|].
    rewrite He. left. reflexivity. }
  assert (Hdec : routers_accepted w id req ∨ ¬ routers_accepted w id req).
  { unfold routers_accepted. destruct (u_router_ids req) as [l|]; [|tauto].
    destruct (decide (l = [])); [tauto|].
    destruct (validate_cases w l (Some id)) as [Hv|[e Hv]]; [tauto|].
    right. rewrite Hv. intros [?|?]; [tauto | discriminate]. }
  destruct Hdec as [Hacc|Hacc].
  2:{ destruct (update_firewall_stopped w id req) as [e He]; [tauto|].
      rewrite He. left. reflexivity. }
  right. rewrite (update_firewall_run _ _ _ _ H Hnp Hacc). unfold update_result.
  case_decide.
  - exists row, INACTIVE. split; [reflexivity|]. split; [exact Hacc | reflexivity].
  - exists row, PENDING_UPDATE. split; [reflexivity|]. split; [exact Hacc|].
    cbv zeta. destruct (_make_firewall_dict_with_rules id _).1; reflexivity.
Qed.

Lemma update_firewall_exclusive w id req :
  routers_exclusive w -> routers_exclusive (update_firewall id req w).2.
Proof.
  intros Hex.
  destruct (update_firewall_firewalls w id req) as [Hsame|(row & st & H & Hacc & Hfws)].
  { apply (routers_exclusive_kept w _ Hex). rewrite Hsame. apply routers_kept_refl. }
  apply (routers_exclusive_insert w _ id _ Hex Hfws).
  change (fw_router_ids (row_after req st row)) with (new_routers req row).
  unfold routers_accepted, new_routers in *.
  destruct (u_router_ids req) as [l|].
  - destruct Hacc as [->|Hv].
    + intros r Hr. apply elem_of_nil in Hr as [].
    + apply validate_passes_iff, Hv.
  - intros r Hr (f & row2 & H2 & Hne & Hr2).
    apply (Hex id f row row2 r); [congruence | assumption ..].
Qed.

Lemma create_firewall_exclusive w new_id req :
  routers_exclusive w -> routers_exclusive (create_firewall new_id req w).2.
Proof.
  intros Hex.
  destruct (_get_routers_for_create_firewall (c_tenant_id req) req w).1
    as [l|e] eqn:Hres.
  2:{ rewrite (create_firewall_resolve_raises _ _ _ _ Hres). exact Hex. }
  destruct (decide (l = [])) as [->|Hl].
  - rewrite (create_firewall_no_routers _ _ _ Hres).
    destruct (firewalls w !! new_id); [exact Hex|].
    eapply (routers_exclusive_insert w _ new_id (created_inactive req) Hex); [reflexivity|].
    intros r Hr. apply elem_of_nil in Hr as [].
  - rewrite (create_firewall_with_routers_run _ _ _ _ Hres Hl).
    unfold create_result. destruct (firewalls w !! new_id); [exact Hex|].
    cbv zeta. destruct (_make_firewall_dict_with_rules new_id _).1.
    + eapply (routers_exclusive_insert w _ new_id (with_router_ids l (created_pending req)) Hex); [reflexivity|].
      intros r Hr (f & row & H & _ & Hr2).
      apply (_get_routers_for_create_firewall_free _ _ _ _ Hres r Hr).
      exists f, row. split; [exact H|]. split; [discriminate | exact Hr2].
    + eapply (routers_exclusive_insert w _ new_id (created_pending req) Hex); [reflexivity|].
      intros r Hr. apply elem_of_nil in Hr as [].
Qed.

End exclusivity.

(** X14: if no router is attached to two firewalls, this is still so
    after any operation of the plugin or of the callbacks, whatever the
    operation answers: create_firewall and update_firewall attach only
    routers that no other firewall holds, and the other operations
    attach none. *)
Theorem routers_stay_exclusive (w : world) :
  routers_exclusive w ->
  (forall new_id req,
     routers_exclusive (FirewallPlugin.create_firewall new_id req w).2)
  ∧ (forall id req, routers_exclusive (FirewallPlugin.update_firewall id req w).2)
  ∧ (forall id, routers_exclusive (FirewallPlugin.delete_firewall id w).2)
  ∧ (forall pid edit,
       routers_exclusive (FirewallPlugin.update_firewall_policy pid edit w).2
       ∧ routers_exclusive (FirewallPlugin.insert_rule pid edit w).2
       ∧ routers_exclusive (FirewallPlugin.remove_rule pid edit w).2)
  ∧ (forall rid edit,
       routers_exclusive (FirewallPlugin.update_firewall_rule rid edit w).2)
  ∧ (forall id st,
       routers_exclusive (FirewallCallbacks.set_firewall_status id st w).2)
  ∧ (forall id, routers_exclusive (FirewallCallbacks.firewall_deleted id w).2).
Proof.
  intros Hex.
  split; [intros; apply create_firewall_exclusive, Hex|].
  split; [intros; apply update_firewall_exclusive, Hex|].
  split; [intros id; apply (routers_exclusive_kept w _ Hex),
                       keeps_routers_delete_firewall|].
  split.
  { intros pid edit.
    destruct (keeps_routers_policy_edits pid edit) as (H1 & H2 & H3).
    split; [|split]; apply (routers_exclusive_kept w _ Hex); [apply H1 | apply H2 | apply H3]. }
  split; [intros rid edit; apply (routers_exclusive_kept w _ Hex),
                             keeps_routers_update_firewall_rule|].
  split; [intros id st; apply (routers_exclusive_kept w _ Hex),
                          keeps_routers_set_firewall_status|].
  intros id. apply (routers_exclusive_kept w _ Hex), keeps_routers_firewall_deleted.
Qed.

Lemma world_FG_exclusive : routers_exclusive world_FG.
Proof.
  intros f1 f2 row1 row2 r Hne H1 H2 Hr Hr2.
  unfold world_FG in *. cbn in H1, H2.
  rewrite lookup_insert in H1, H2.
  destruct (decide ("G" = f1)) as [E1|N1]; destruct (decide ("G" = f2)) as [E2|N2].
  - congruence.
  - injection H1 as <-. apply lookup_singleton_Some in H2 as [_ <-].
    cbn in *. apply list_elem_of_singleton in Hr, Hr2. congruence.
  - injection H2 as <-. apply lookup_singleton_Some in H1 as [_ <-].
    cbn in *. apply list_elem_of_singleton in Hr, Hr2. congruence.
  - apply lookup_singleton_Some in H1 as [<- _].
    apply lookup_singleton_Some in H2 as [<- _]. congruence.
Defined.

Lemma routers_stay_exclusive_witness :
  routers_exclusive
    (FirewallPlugin.update_firewall "F" (mkUpdate None None (Some ["R3"]))
       world_FG).2.
Proof.
  destruct (routers_stay_exclusive world_FG world_FG_exclusive) as (_ & H & _).
  apply H.
Defined.

(** ** The listings agents ask for *)

Section listings.
Import FirewallPlugin FirewallCallbacks.

Lemma elem_of_visible_rows ctx w f row :
  (f, row) ∈ visible_rows ctx w
  ↔ firewalls w !! f = Some row ∧ Firewall_db_mixin.visible ctx row.
Proof.
  unfold visible_rows. rewrite elem_of_map_to_list, map_lookup_filter_Some.
  reflexivity.
Qed.

Lemma add_router_ids_each w (l : list (string * Firewall)) :
  (forall kv, kv ∈ l -> firewalls w !! kv.1 = Some kv.2) ->
  map_each ((fun kv => Firewall_db_mixin._make_firewall_dict kv.1 kv.2) <$> l)
    (fun fw =>
       fw_current_rtrs ← Firewall_db_mixin.get_firewall_routers (KeyStr (d_id fw));
       ret (set_router_ids fw fw_current_rtrs)) w
  = (Returns ((fun kv => firewall_dict_of kv.1 kv.2) <$> l), w).
Proof.
  induction l as [|[f row] l IH]; intros Hl; [reflexivity|].
  pose proof (Hl (f, row) ltac:(left)) as Hf. cbn [fst snd] in Hf.
  assert (IH' := IH ltac:(intros; apply Hl; right; assumption)). clear IH.
  cbn [fmap list_fmap map_each fst snd]. rewrite bind_run, bind_run.
  unfold Firewall_db_mixin.get_firewall_routers at 1. unfold_monad.
  cbn [d_id Firewall_db_mixin._make_firewall_dict]. rewrite Hf, IH'.
  reflexivity.
Qed.

Lemma get_firewalls_run ctx w :
  get_firewalls ctx w
  = (Returns ((fun kv => firewall_dict_of kv.1 kv.2) <$> visible_rows ctx w), w).
Proof.
  unfold get_firewalls. rewrite bind_run.
  change (Firewall_db_mixin.get_firewalls ctx w)
    with (Returns ((fun kv => Firewall_db_mixin._make_firewall_dict kv.1 kv.2)
                     <$> visible_rows ctx w), w).
  cbv beta iota. apply add_router_ids_each.
  intros [f row] Hin. apply elem_of_visible_rows in Hin as [H _]. exact H.
Qed.

Lemma map_each_reads w {A B} (l : list A) (f : A -> M B) (g : A -> B) :
  (forall a, a ∈ l -> f a w = (Returns (g a), w)) ->
  map_each l f w = (Returns (g <$> l), w).
Proof.
  induction l as [|x l IH]; intros Hl; [reflexivity|].
  cbn [map_each]. rewrite bind_run, (Hl x) by left.
  rewrite bind_run, IH by (intros; apply Hl; right; assumption). reflexivity.
Qed.

Lemma map_each_raises w {A B} (l : list A) (f : A -> M B) x e0 :
  (forall a, reads_only (f a)) ->
  x ∈ l -> (f x w).1 = Raises e0 ->
  exists y e, y ∈ l ∧ (f y w).1 = Raises e ∧ map_each l f w = (Raises e, w).
Proof.
  intros Hro. induction l as [|a l IH]; intros Hin Hx.
  { apply elem_of_nil in Hin as []. }
  cbn [map_each]. rewrite bind_run, (reads_only_run _ w (Hro a)).
  destruct (f a w).1 as [b|e] eqn:Ha.
  - apply elem_of_cons in Hin as [->|Hin]; [congruence|].
    destruct (IH Hin Hx) as (y & e & Hy & Hfy & Hrun).
    exists y, e. split; [right; exact Hy|]. split; [exact Hfy|].
    rewrite bind_run, Hrun. reflexivity.
  - exists a, e. split; [left|]. split; [exact Ha | reflexivity].
Qed.

End listings.

(** X15: the plugin's get_firewalls changes nothing and lists each
    record the context may see exactly once, as the very dict
    get_firewall returns for its id, so with the routers attached at
    that moment; get_firewalls_for_tenant_without_rules answers the same
    list. *)
Theorem get_firewalls_lists_what_get_firewall_reads (ctx : context) (w : world) :
  exists l,
    FirewallPlugin.get_firewalls ctx w = (Returns l, w)
    ∧ FirewallCallbacks.get_firewalls_for_tenant_without_rules ctx w
      = (Returns l, w)
    ∧ NoDup (d_id <$> l)
    ∧ forall fw,
        fw ∈ l
        ↔ (exists row,
             firewalls w !! d_id fw = Some row
             ∧ Firewall_db_mixin.visible ctx row)
          ∧ FirewallPlugin.get_firewall (d_id fw) w = (Returns fw, w).
Proof.
  eexists. split; [apply get_firewalls_run|]. split.
  { unfold FirewallCallbacks.get_firewalls_for_tenant_without_rules.
    rewrite bind_run, get_firewalls_run. reflexivity. }
  split.
  - rewrite <- list_fmap_compose.
    change (d_id ∘ (fun kv : string * Firewall => firewall_dict_of kv.1 kv.2))
      with (@fst string Firewall).
    apply NoDup_fst_map_to_list.
  - intros fw. rewrite list_elem_of_fmap. split.
    + intros ([f row] & -> & Hin). apply elem_of_visible_rows in Hin as [H Hv].
      cbn [d_id firewall_dict_of fst snd]. split; [eauto|].
      apply (get_firewall_Some _ _ _ H).
    + intros [(row & H & Hv) Hget]. exists (d_id fw, row).
      rewrite (get_firewall_Some _ _ _ H) in Hget. injection Hget as <-.
      split; [reflexivity|]. apply elem_of_visible_rows. split; assumption.
Qed.

(** X16: get_tenants_with_firewalls changes nothing and, whatever
    context it is given, answers each tenant that owns at least one
    firewall exactly once, and no other tenant. *)
Theorem get_tenants_with_firewalls_distinct (ctx : context) (w : world) :
  exists l,
    FirewallCallbacks.get_tenants_with_firewalls ctx w = (Returns l, w)
    ∧ NoDup l
    ∧ forall t,
        t ∈ l ↔ exists f row, firewalls w !! f = Some row ∧ fw_tenant_id row = t.
Proof.
  unfold FirewallCallbacks.get_tenants_with_firewalls.
  rewrite bind_run, get_firewalls_run.
  eexists. split; [reflexivity|]. split; [apply NoDup_py_list_of_set|].
  intros t. rewrite elem_of_py_list_of_set, elem_of_list_to_set, list_elem_of_fmap.
  split.
  - intros (fw & -> & Hin). apply list_elem_of_fmap in Hin as ([f row] & -> & Hin).
    apply elem_of_visible_rows in Hin as [H _]. exists f, row. split; [exact H | reflexivity].
  - intros (f & row & H & <-). exists (firewall_dict_of f row).
    split; [reflexivity|]. apply list_elem_of_fmap. exists (f, row).
    split; [reflexivity|]. apply elem_of_visible_rows. split; [exact H | exact I].
Qed.

(** X17: get_firewalls_for_tenant changes nothing.  When the policy and
    rules of every firewall the context may see can be read, it answers
    one entry per listed firewall, in the order of get_firewalls, each
    the firewall's dict with the ordered rule dicts of its policy (none
    without a policy).  When one listed firewall names a policy that
    does not exist, the whole call fails with a lookup failure. *)
Theorem get_firewalls_for_tenant_spec (ctx : context) (w : world) :
  ((forall f row,
      firewalls w !! f = Some row -> Firewall_db_mixin.visible ctx row ->
      firewall_resolvable w row) ->
   FirewallCallbacks.get_firewalls_for_tenant ctx w
   = (Returns ((fun kv => (firewall_dict_of kv.1 kv.2, rules_for w kv.2))
                 <$> visible_rows ctx w), w))
  ∧ (forall f row pid,
       firewalls w !! f = Some row -> Firewall_db_mixin.visible ctx row ->
       truthy (fw_firewall_policy_id row) = Some pid ->
       firewall_policies w !! pid = None ->
       exists e,
         FirewallCallbacks.get_firewalls_for_tenant ctx w = (Raises e, w)
         ∧ is_lookup_failure e).
Proof.
  unfold FirewallCallbacks.get_firewalls_for_tenant.
  rewrite bind_run, get_firewalls_run. cbv beta iota. split.
  - intros Hres.
    rewrite (map_each_reads w _ _
               (fun fw => (fw, from_option (rules_for w) []
                                 (firewalls w !! d_id fw)))).
    + rewrite <- list_fmap_compose. do 2 f_equal.
      apply list_fmap_ext. intros i [f row] Hi. cbn.
      apply list_elem_of_lookup_2, elem_of_visible_rows in Hi as [H _].
      rewrite H. reflexivity.
    + intros fw Hin. apply list_elem_of_fmap in Hin as ([f row] & -> & Hin).
      apply elem_of_visible_rows in Hin as [H Hv]. cbn [d_id firewall_dict_of fst snd].
      rewrite H. apply (_make_firewall_dict_with_rules_Some _ _ _ H), (Hres f row H Hv).
  - intros f row pid H Hv Hpid Hnone.
    destruct (map_each_raises w
                ((fun kv => firewall_dict_of kv.1 kv.2) <$> visible_rows ctx w)
                (fun fw => FirewallPlugin._make_firewall_dict_with_rules (d_id fw))
                (firewall_dict_of f row) (FirewallPolicyNotFound pid))
      as (y & e & _ & Hy & Hrun).
    + intros a. apply reads_only__make_firewall_dict_with_rules.
    + apply list_elem_of_fmap. exists (f, row). split; [reflexivity|].
      apply elem_of_visible_rows. split; assumption.
    + cbn [d_id firewall_dict_of]. unfold FirewallPlugin._make_firewall_dict_with_rules.
      rewrite (bind_returns _ _ _ _ _ (get_firewall_Some _ _ _ H)).
      cbn [d_firewall_policy_id firewall_dict_of]. rewrite Hpid.
      rewrite bind_run. unfold Firewall_db_mixin.get_firewall_policy at 1.
      unfold_monad. rewrite Hnone. reflexivity.
    + exists e. split; [exact Hrun|].
      pose proof (_make_firewall_dict_with_rules_outcome w (d_id y)) as Hout.
      rewrite Hy in Hout. exact Hout.
Qed.

Lemma get_firewalls_for_tenant_spec_witness :
  FirewallCallbacks.get_firewalls_for_tenant (TenantContext "T")
    (world_F ACTIVE ["R1"])
  = (Returns [(firewall_dict_of "F" (row_F ACTIVE ["R1"]),
               [mkRuleDict "r1" "allow tcp/22" (Some "P")])],
     world_F ACTIVE ["R1"]).
Proof.
  destruct (get_firewalls_for_tenant_spec (TenantContext "T")
              (world_F ACTIVE ["R1"])) as [Hok _].
  rewrite Hok; [vm_compute; reflexivity|].
  intros f row Hrow _. cbn in Hrow.
  apply lookup_singleton_Some in Hrow as [_ <-].
  apply (world_F_resolvable ACTIVE ["R1"]).
Defined.
